(** * Open-Unmix data pipeline ([data.py]): a shallow embedding

    The module builds training examples for a source-separation model:
    four dataset facades ([UnalignedSources], [AlignedSources],
    [MixedSources], [MUSDBDataset]) map an index to a pair
    [(input, target)] of channel-major waveforms, on top of a small audio
    accessor ([audioinfo], [audioloader]) and two augmentations.

    Modelling decisions
    - Python exceptions are an error value ([Raised]); the unbounded
      retry recursion of [__getitem__] is bounded by fuel ([Unfinished]
      when the fuel runs out, where CPython would go on until its
      recursion limit).
    - The process-wide generator of [random] is an explicit state: an
      infinite tape of draws and a read position.
    - Seconds (Python floats) are rationals [Q]. The products and
      quotients the module takes of them ([int(seconds * rate)],
      [frames / rate]) are rounded to the nearest double, 53
      significant bits with ties to even ([fl]); the exponent range of
      doubles is not modelled. [int] truncates toward zero.
    - The difference [duration - seq_duration] and the draw
      [random.uniform(a, b)] are left exact, and [random.random()] is
      any rational in [[0, 1)]: the statements use of a drawn start
      only that it lies between its two bounds.
    - [random.choice(seq)] is read as [seq[int(random() * len(seq))]],
      one draw.
    - [torch.tensor] is the identity on a waveform: its refusal of an
      array with a negative stride (a flipped view) is not modelled.
    - Samples are kept abstract: any type with an addition, a
      subtraction and a scaling, so no law of real arithmetic is used.
    - A waveform is a list of channels, each a list of samples. *)

From Stdlib Require Import ZArith QArith Qround Qpower String Lia Lqa.
From stdpp Require Import base option list strings gmap.

Local Open Scope Z_scope.

(** ** Python outcomes *)

Inductive exn : Set :=
  | TypeError
  | IndexError
  | KeyError
  | ValueError
  | RuntimeError
  | AttributeError
  | OSError
  | ZeroDivisionError.

Inductive outcome (A : Type) : Type :=
  | Returned (a : A)
  | Raised (e : exn)
  | Unfinished.

Arguments Returned {A} a.
Arguments Raised {A} e.
Arguments Unfinished {A}.

Definition obind {A B} (o : outcome A) (k : A -> outcome B) : outcome B :=
  match o with
  | Returned a => k a
  | Raised e => Raised e
  | Unfinished => Unfinished
  end.

(** A computation that reads and updates a state [St] and may raise. *)
Definition py (St A : Type) : Type := St -> outcome (A * St).

Definition ret {St A} (a : A) : py St A := fun s => Returned (a, s).

Definition raise {St A} (e : exn) : py St A := fun _ => Raised e.

Definition bind {St A B} (m : py St A) (k : A -> py St B) : py St B :=
  fun s =>
    match m s with
    | Returned (a, s') => k a s'
    | Raised e => Raised e
    | Unfinished => Unfinished
    end.

Definition lift {St A} (o : outcome A) : py St A :=
  fun s => obind o (fun a => Returned (a, s)).

Notation "'let!' x ':=' m 'in' k" := (bind m (fun x => k))
  (at level 10, x pattern, m at level 100, k at level 200).

Notation "'let?' x ':=' m 'in' k" := (obind m (fun x => k))
  (at level 10, x pattern, m at level 100, k at level 200).

(** The value a computation returns, forgetting the final state. *)
Definition value_of {A St} (o : outcome (A * St)) : outcome A :=
  obind o (fun p => Returned (fst p)).

(** ** Python numbers *)

(** [int(x)] on a float: truncation toward zero. *)
Definition py_int (q : Q) : Z := Z.quot (Qnum q) (Zpos (Qden q)).

(** [round(x)] on a float: nearest integer, ties to the even one. *)
Definition py_round (q : Q) : Z :=
  let f := Qfloor q in
  let r := (q - inject_Z f)%Q in
  match (r ?= 1 # 2)%Q with
  | Lt => f
  | Gt => f + 1
  | Eq => if Z.even f then f else f + 1
  end.

(** [2^e] *)
Definition pow2 (e : Z) : Q := Qpower 2 e.

(** The binade of a positive rational [q]: the [e] with
    [2^e <= q < 2^(e+1)]. *)
Definition binade (q : Q) : Z :=
  let e := Z.log2 (Qnum q) - Z.log2 (Z.pos (Qden q)) in
  if Qle_bool (pow2 e) q then e else e - 1.

(** The multiple of [2^(binade q - 52)] nearest to a positive [q], ties
    to the even multiple: [q] to 53 significant bits. *)
Definition nearest (q : Q) : Q :=
  let e := binade q - 52 in
  (inject_Z (py_round (q / pow2 e)) * pow2 e)%Q.

(** The double nearest to [q], as float arithmetic rounds an exact
    result; a [q] that is a double is returned as it is. *)
Definition fl (q : Q) : Q :=
  match Qnum q with
  | 0 => q
  | Z.pos _ => let r := nearest q in if Qeq_bool r q then q else r
  | Z.neg _ => let r := (- nearest (- q))%Q in if Qeq_bool r q then q else r
  end.

(** [x * y] and [x / y] on floats. *)
Definition py_fmul (x y : Q) : Q := fl (x * y).

Definition py_fdiv (x y : Q) : Q := fl (x / y).

(** [int(x * rate)] for a float [x] and an integer [rate]. *)
Definition py_int_mul (x : Q) (rate : Z) : Z :=
  py_int (py_fmul x (inject_Z rate)).

Definition Qltb (a b : Q) : bool := negb (Qle_bool b a).

(** [a < b] where [b] may be [None]: Python raises [TypeError]. *)
Definition py_lt_opt (a : Q) (b : option Q) : outcome bool :=
  match b with
  | Some b => Returned (Qltb a b)
  | None => Raised TypeError
  end.

(** [a <= 0] where [a] may be [None]. *)
Definition py_le0_opt (a : option Q) : outcome bool :=
  match a with
  | Some a => Returned (Qle_bool a 0)
  | None => Raised TypeError
  end.

(** [a - b] where [b] may be [None]. *)
Definition py_sub_opt (a : Q) (b : option Q) : outcome Q :=
  match b with
  | Some b => Returned (a - b)%Q
  | None => Raised TypeError
  end.

(** [int(d * rate)] where [d] may be [None]. *)
Definition py_int_mul_opt (d : option Q) (rate : Z) : outcome Z :=
  match d with
  | Some d => Returned (py_int_mul d rate)
  | None => Raised TypeError
  end.

(** The position [l[i]] reads in a list of length [n]: negative
    indices count from the end. *)
Definition py_position (n : nat) (i : Z) : outcome nat :=
  let j := if i <? 0 then i + Z.of_nat n else i in
  if (0 <=? j) && (j <? Z.of_nat n) then Returned (Z.to_nat j)
  else Raised IndexError.

(** [l[i]] on a Python list. *)
Definition py_getitem {A} (l : list A) (i : Z) : outcome A :=
  let? p := py_position (length l) i in
  match l !! p with
  | Some a => Returned a
  | None => Raised IndexError
  end.

(** [a // b] on integers. *)
Definition py_floordiv (a b : Z) : outcome Z :=
  if b =? 0 then Raised ZeroDivisionError else Returned (a / b).

(** [min(a, b)]: the first of the two unless the second is smaller. *)
Definition py_min (a b : Q) : Q := if Qltb b a then b else a.

(** [l.index(x)] on a list of strings. *)
Fixpoint py_list_index (l : list string) (x : string) : outcome nat :=
  match l with
  | [] => Raised ValueError
  | y :: rest =>
      if String.eqb y x then Returned 0%nat
      else let? i := py_list_index rest x in Returned (S i)
  end.

(** [list(map(f, l))] for an [f] that may raise. *)
Fixpoint map_outcome {A B} (f : A -> outcome B) (l : list A)
    : outcome (list B) :=
  match l with
  | [] => Returned []
  | a :: rest =>
      let? b := f a in
      let? bs := map_outcome f rest in
      Returned (b :: bs)
  end.

(** [l[start:stop]] with the slice bounds normalised as Python does. *)
Definition py_slice {A} (l : list A) (start : Z) (stop : option Z) : list A :=
  let n := Z.of_nat (length l) in
  let norm i := if i <? 0 then Z.max 0 (i + n) else Z.min i n in
  let a := norm start in
  let b := match stop with Some s => norm s | None => n end in
  take (Z.to_nat (b - a)) (drop (Z.to_nat a) l).

(** [index - 1 if index > 0 else index + 1] *)
Definition neighbour (index : Z) : Z :=
  if 0 <? index then index - 1 else index + 1.

(** ** The random generator *)

Record rng : Type := { tape : nat -> Q; pos : nat }.

(** Any rational is folded into [[0, 1)]. *)
Definition unit_frac (q : Q) : Q := (q - inject_Z (Qfloor q))%Q.

(** [random.random()] *)
Definition random_random : py rng Q :=
  fun r => Returned (unit_frac (tape r (pos r)),
                     {| tape := tape r; pos := S (pos r) |}).

(** [random.uniform(a, b)] is [a + (b - a) * random()]. *)
Definition random_uniform (a b : Q) : py rng Q :=
  let! u := random_random in
  ret (a + (b - a) * u)%Q.

(** The position [random.choice] picks in a sequence of [n] elements:
    [IndexError] on an empty sequence, otherwise a position drawn
    below [n]. *)
Definition random_position (n : nat) : py rng nat :=
  match n with
  | O => raise IndexError
  | _ =>
      let! u := random_random in
      lift (py_position n (py_int (u * inject_Z (Z.of_nat n))))
  end.

(** [random.choice(seq)] *)
Definition random_choice {A} (seq : list A) : py rng A :=
  let! p := random_position (length seq) in
  lift (py_getitem seq (Z.of_nat p)).

(** [tuple(random.choice(pool) for pool in pools)]: one independent
    choice per pool, in order. *)
Fixpoint random_choices {A} (pools : list (list A)) : py rng (list A) :=
  match pools with
  | [] => ret []
  | pool :: rest =>
      let! x := random_choice pool in
      let! xs := random_choices rest in
      ret (x :: xs)
  end.

(** [random_product] of the pools [args]: one independent choice from
    each pool of [args] taken [repeat] times over (no pool at all for a
    [repeat] below 1). *)
Definition random_product {A} (args : list (list A)) (repeat : Z)
    : py rng (list A) :=
  random_choices (mjoin (replicate (Z.to_nat repeat) args)).

(** ** Waveforms *)

(** Sample arithmetic: [+], [-] and scaling by a float. *)
Class SampleOps (A : Type) : Type := {
  sample_add : A -> A -> A;
  sample_sub : A -> A -> A;
  sample_scale : A -> Q -> A
}.

(** Channel-major: [w !! c] is channel [c]. *)
Abbreviation waveform A := (list (list A)).

(** [w.shape]: (channels, samples). *)
Definition shape {A} (w : waveform A) : nat * nat :=
  (length w, match w with [] => 0%nat | ch :: _ => length ch end).

Definition sample_at {A} (w : waveform A) (c t : nat) : option A :=
  match w !! c with
  | Some ch => ch !! t
  | None => None
  end.

Section Tensors.
Context {A : Type} `{SampleOps A}.

Definition tensor_add (x y : waveform A) : waveform A :=
  zip_with (zip_with sample_add) x y.

(** [x - y] on tensors of one shape. *)
Definition tensor_sub (x y : waveform A) : waveform A :=
  zip_with (zip_with sample_sub) x y.

(** [audio * g] *)
Definition tensor_scale (x : waveform A) (g : Q) : waveform A :=
  map (map (fun s => sample_scale s g)) x.

(** [torch.stack(tensors)]: refuses an empty list and tensors of
    different shapes. *)
Definition torch_stack (l : list (waveform A)) : outcome (list (waveform A)) :=
  match l with
  | [] => Raised RuntimeError
  | w :: rest =>
      if forallb (fun v => bool_decide (shape v = shape w)) rest
      then Returned l
      else Raised RuntimeError
  end.

(** [stems.sum(0)]: the stems added up, first to last. *)
Definition sum_dim0 (stems : list (waveform A)) : waveform A :=
  match stems with
  | [] => []
  | w :: rest => foldl tensor_add w rest
  end.

(** [np.flip(audio, 0)]: the channels in reverse order. *)
Definition np_flip0 (audio : waveform A) : waveform A := rev audio.

(** *** Augmentations *)

(** [Compose(transforms)(audio)] *)
Fixpoint Compose (transforms : list (waveform A -> py rng (waveform A)))
    (audio : waveform A) : py rng (waveform A) :=
  match transforms with
  | [] => ret audio
  | t :: rest =>
      let! audio' := t audio in
      Compose rest audio'
  end.

Definition augment_source_gain (audio : waveform A) : py rng (waveform A) :=
  let! g := random_uniform (1 # 4) (5 # 4) in
  ret (tensor_scale audio g).

(** [and] short-circuits: no draw is made unless there are 2 channels. *)
Definition augment_source_channelswap (audio : waveform A)
    : py rng (waveform A) :=
  if bool_decide (fst (shape audio) = 2%nat) then
    let! u := random_random in
    if Qltb u (1 # 2) then ret (np_flip0 audio) else ret audio
  else ret audio.

End Tensors.

(** ** The audio accessor *)

(** A file on disk: its sample rate (a positive integer), its whole
    content (channel-major), whether it opens as audio (it has an
    audio stream) and whether its data decodes. *)
Record audio_file (A : Type) : Type := {
  af_rate : positive;
  af_data : waveform A;
  af_opens : bool;
  af_decodable : bool
}.

Arguments af_rate {A} _.
Arguments af_data {A} _.
Arguments af_opens {A} _.
Arguments af_decodable {A} _.

(** The world the module reads: the files by path; for each directory
    the paths of its sub-directories, in iteration order; what
    [Path(dir).glob(pattern)] lists; whether [torchaudio] was imported. *)
Record env (A : Type) : Type := {
  fs_files : gmap string (audio_file A);
  fs_dirs : gmap string (list string);
  fs_glob : string -> string -> list string;
  torchaudio_loaded : bool
}.

Arguments fs_files {A} _.
Arguments fs_dirs {A} _.
Arguments fs_glob {A} _ _ _.
Arguments torchaudio_loaded {A} _.

(** [Path(a, b)] and [a / b] *)
Definition path_join (a b : string) : string := a +:+ "/" +:+ b.

Record info : Type := {
  samplerate : Z;
  samples : Z;
  duration : Q
}.

Section Accessor.
Context {A : Type}.
Variable E : env A.

Definition nframes (f : audio_file A) : Z :=
  Z.of_nat (snd (shape (af_data f))).

Definition nchannels (f : audio_file A) : Z :=
  Z.of_nat (fst (shape (af_data f))).

(** [source_path.exists()] *)
Definition path_exists (path : string) : bool :=
  bool_decide (is_Some (fs_files E !! path)).

(** Modelled from the spec: the decoding backend [soundfile] is not
    part of the module. [sf.info(path)] gives the sample rate and the
    duration in seconds, frames over rate as a float, and fails on a
    file that is not there or does not open as audio. *)
Definition sf_info (path : string) : outcome (Z * Q) :=
  match fs_files E !! path with
  | Some f =>
      if af_opens f
      then Returned (Z.pos (af_rate f),
                     py_fdiv (inject_Z (nframes f))
                       (inject_Z (Z.pos (af_rate f))))
      else Raised RuntimeError
  | None => Raised RuntimeError
  end.

(** Modelled from the spec: [sf.read(path, always_2d=True, start, stop)]
    reads the frames [start:stop], whatever part of the window the file
    has, and fails on corrupt data. The backend hands frames by
    channels and the loader transposes; the model is channel-major
    throughout, so this is the read followed by [.T]. *)
Definition sf_read (path : string) (start : Z) (stop : option Z)
    : outcome (waveform A) :=
  match fs_files E !! path with
  | Some f =>
      if af_opens f && af_decodable f
      then Returned (map (fun ch => py_slice ch start stop) (af_data f))
      else Raised RuntimeError
  | None => Raised RuntimeError
  end.

(** Modelled from the spec: [torchaudio.info(path)] gives the rate, the
    total number of samples over all channels and the channel count,
    and fails on a file that is not there or does not open as audio. *)
Definition torchaudio_info_raw (path : string) : outcome (Z * Z * Z) :=
  match fs_files E !! path with
  | Some f =>
      if af_opens f
      then Returned (Z.pos (af_rate f), nframes f * nchannels f, nchannels f)
      else Raised RuntimeError
  | None => Raised RuntimeError
  end.

(** Modelled from the spec: [torchaudio.load(path)] reads the whole
    file; with [num_frames] and [offset] it reads that window, whatever
    part of it the file has. It fails on corrupt data. *)
Definition torchaudio_load (path : string) (window : option (Z * Z))
    : outcome (waveform A) :=
  match fs_files E !! path with
  | Some f =>
      if af_opens f && af_decodable f then
        match window with
        | None => Returned (af_data f)
        | Some (num_frames, offset) =>
            Returned (map (fun ch => take (Z.to_nat num_frames)
                                       (drop (Z.to_nat offset) ch))
                          (af_data f))
        end
      else Raised RuntimeError
  | None => Raised RuntimeError
  end.

Definition soundfile_info (path : string) : outcome info :=
  let? sfi := sf_info path in
  Returned {| samplerate := fst sfi;
              samples := py_int_mul (snd sfi) (fst sfi);
              duration := snd sfi |}.

(** [if dur:] is false for [None] and for [0]; [stop = dur] then. *)
Definition soundfile_loader (path : string) (start : Q) (dur : option Q)
    : outcome (waveform A) :=
  let? info := soundfile_info path in
  let start := py_int_mul start (samplerate info) in
  let stop :=
    match dur with
    | Some d =>
        if Qeq_bool d 0 then Some 0
        else Some (start + py_int_mul d (samplerate info))
    | None => None
    end in
  sf_read path start stop.

Definition torchaudio_info (path : string) : outcome info :=
  let? si := torchaudio_info_raw path in
  let '(rate, len, channels) := si in
  if channels =? 0 then Raised ZeroDivisionError else
  let samples := len / channels in
  if rate =? 0 then Raised ZeroDivisionError else
  Returned {| samplerate := rate;
              samples := samples;
              duration := py_fdiv (inject_Z samples) (inject_Z rate) |}.

Definition torchaudio_loader (path : string) (start : Q) (dur : option Q)
    : outcome (waveform A) :=
  let? info := torchaudio_info path in
  match dur with
  | None => torchaudio_load path None
  | Some d =>
      let num_frames := py_int_mul d (samplerate info) in
      let offset := py_int_mul start (samplerate info) in
      torchaudio_load path (Some (num_frames, offset))
  end.

Definition audioloader (path : string) (start : Q) (dur : option Q)
    : outcome (waveform A) :=
  if torchaudio_loaded E
  then torchaudio_loader path start dur
  else soundfile_loader path start dur.

Definition audioinfo (path : string) : outcome info :=
  if torchaudio_loaded E
  then torchaudio_info path
  else soundfile_info path.

End Accessor.

(** ** Dataset facades *)

(** What [__getitem__] returns: [(input, target)]. *)
Abbreviation example A := (waveform A * waveform A)%type.

(** Every [return self.__getitem__(i)] is a tail call: one pass through
    the body of [__getitem__] either yields the example or asks for
    another pass at index [i]. *)
Inductive attempt (R : Type) : Type :=
  | Done (r : R)
  | Retry (index : Z).

Arguments Done {R} r.
Arguments Retry {R} index.

(** [__getitem__] as the passes through its body, at most [fuel] of them. *)
Fixpoint retrying {St R} (body : Z -> py St (attempt R)) (fuel : nat)
    (index : Z) : py St R :=
  match fuel with
  | O => fun _ => Unfinished
  | S fuel' =>
      let! a := body index in
      match a with
      | Done r => ret r
      | Retry index' => retrying body fuel' index'
      end
  end.

(** [sample_rate] is stored and never read. The [seq_duration] every
    file facade stores:
    [None if seq_duration <= 0 else seq_duration]. *)
Definition stored_seq_duration (seq_duration : option Q) : outcome (option Q) :=
  let? nonpositive := py_le0_opt seq_duration in
  Returned (if nonpositive then None else seq_duration).

Record UnalignedSources : Type := {
  us_sample_rate : Z;
  us_seq_duration : option Q;
  us_nb_samples : Z;
  us_source_folders : list string;
  us_sources : list (list string)
}.

Record AlignedSources : Type := {
  as_sample_rate : Z;
  as_seq_duration : option Q;
  as_random_excerpt : bool;
  as_tuple_paths : list (string * string)
}.

Record MixedSources : Type := {
  ms_sample_rate : Z;
  ms_seq_duration : option Q;
  ms_random_excerpt : bool;
  ms_augmentations : bool;
  ms_target_file : string;
  ms_interferers : list string;
  ms_tracks : list string
}.

Section Facades.
Context {A : Type} `{SampleOps A}.
Variable E : env A.

(** *** UnalignedSources *)

(** [_get_paths]: [self_split] is the attribute [self.split], [None]
    while it has not been assigned. *)
Fixpoint UnalignedSources_get_paths (root : string)
    (self_split : option string) (glob : string)
    (source_folders : list string) : outcome (list (list string)) :=
  match source_folders with
  | [] => Returned []
  | source_folder :: rest =>
      match self_split with
      | None => Raised AttributeError
      | Some split =>
          let p := path_join (path_join root split) source_folder in
          let? sources_paths :=
            UnalignedSources_get_paths root self_split glob rest in
          Returned (fs_glob E p glob :: sources_paths)
      end
  end.

(** [__init__] never assigns [self.split]. *)
Definition UnalignedSources_init (root split : string)
    (seq_duration : option Q) (target : string)
    (interferences : list string) (glob : string) (sample_rate : Z)
    (nb_samples : Z) : outcome UnalignedSources :=
  let? seq := stored_seq_duration seq_duration in
  let source_folders := interferences ++ [target] in
  let? sources := UnalignedSources_get_paths root None glob source_folders in
  Returned {| us_sample_rate := sample_rate;
              us_seq_duration := seq;
              us_nb_samples := nb_samples;
              us_source_folders := source_folders;
              us_sources := sources |}.

Definition UnalignedSources_load_audio (self : UnalignedSources)
    (fp : string) : outcome (waveform A) :=
  audioloader E fp 0 (us_seq_duration self).

Definition UnalignedSources_getitem (self : UnalignedSources) (index : Z)
    : py rng (example A) :=
  let! input_tuple := random_product (us_sources self) 1 in
  let! sample_sources :=
    lift (map_outcome (UnalignedSources_load_audio self) input_tuple) in
  let! stems := lift (torch_stack sample_sources) in
  let mix := sum_dim0 stems in
  let! last := lift (py_getitem input_tuple (-1)) in
  let! target := lift (UnalignedSources_load_audio self last) in
  ret (mix, target).

Definition UnalignedSources_len (self : UnalignedSources) : Z :=
  us_nb_samples self.

(** *** AlignedSources *)

(** [_get_paths]: the first match of each name in every sub-folder
    that has both. *)
Fixpoint AlignedSources_pairs (input_file output_file : string)
    (track_folders : list string) : list (string * string) :=
  match track_folders with
  | [] => []
  | track_folder :: rest =>
      match fs_glob E track_folder input_file,
            fs_glob E track_folder output_file with
      | input_path :: _, output_path :: _ =>
          (input_path, output_path)
            :: AlignedSources_pairs input_file output_file rest
      | _, _ => AlignedSources_pairs input_file output_file rest
      end
  end.

Definition AlignedSources_get_paths (root split input_file output_file : string)
    : outcome (list (string * string)) :=
  match fs_dirs E !! path_join root split with
  | Some track_folders =>
      Returned (AlignedSources_pairs input_file output_file track_folders)
  | None => Raised OSError
  end.

Definition AlignedSources_init (root split input_file output_file : string)
    (seq_duration : option Q) (sample_rate : Z) : outcome AlignedSources :=
  let? seq := stored_seq_duration seq_duration in
  let? tuple_paths :=
    AlignedSources_get_paths root split input_file output_file in
  Returned {| as_sample_rate := sample_rate;
              as_seq_duration := seq;
              as_random_excerpt := String.eqb split "train";
              as_tuple_paths := tuple_paths |}.

(** The excerpt start of one pass, or [None] when the pair is too
    short and the pass ends in a retry. *)
Definition AlignedSources_start (self : AlignedSources)
    (input_info output_info : info) : py rng (option Q) :=
  if as_random_excerpt self then
    let duration := py_min (duration input_info) (duration output_info) in
    let! short := lift (py_lt_opt duration (as_seq_duration self)) in
    if short then ret None
    else
      let! room := lift (py_sub_opt duration (as_seq_duration self)) in
      let! start := random_uniform 0 room in
      ret (Some start)
  else ret (Some 0%Q).

(** The length test after loading; [or] evaluates its second operand
    only when the first is false. *)
Definition AlignedSources_too_short (self : AlignedSources)
    (input_info output_info : info) (X_audio Y_audio : waveform A)
    : outcome bool :=
  let? nx := py_int_mul_opt (as_seq_duration self) (samplerate input_info) in
  if Z.of_nat (snd (shape X_audio)) <? nx then Returned true
  else
    let? ny := py_int_mul_opt (as_seq_duration self) (samplerate output_info) in
    Returned (Z.of_nat (snd (shape Y_audio)) <? ny).

Definition AlignedSources_body (self : AlignedSources) (index : Z)
    : py rng (attempt (example A)) :=
  let! paths := lift (py_getitem (as_tuple_paths self) index) in
  let '(input_path, output_path) := paths in
  let! input_info := lift (audioinfo E input_path) in
  let! output_info := lift (audioinfo E output_path) in
  let! start := AlignedSources_start self input_info output_info in
  match start with
  | None => ret (Retry (neighbour index))
  | Some start =>
      match audioloader E input_path start (as_seq_duration self) with
      | Raised RuntimeError => ret (Retry (neighbour index))
      | Raised e => raise e
      | Unfinished => fun _ => Unfinished
      | Returned X_audio =>
          match audioloader E output_path start (as_seq_duration self) with
          | Raised RuntimeError => ret (Retry (neighbour index))
          | Raised e => raise e
          | Unfinished => fun _ => Unfinished
          | Returned Y_audio =>
              let! short :=
                lift (AlignedSources_too_short self input_info output_info
                        X_audio Y_audio) in
              if short then ret (Retry (neighbour index))
              else ret (Done (X_audio, Y_audio))
          end
      end
  end.

Definition AlignedSources_getitem (fuel : nat) (self : AlignedSources)
    (index : Z) : py rng (example A) :=
  retrying (AlignedSources_body self) fuel index.

Definition AlignedSources_len (self : AlignedSources) : Z :=
  Z.of_nat (length (as_tuple_paths self)).

(** *** MixedSources *)

Definition MixedSources_get_paths (root split : string)
    : outcome (list string) :=
  match fs_dirs E !! path_join root split with
  | Some track_folders => Returned track_folders
  | None => Raised OSError
  end.

(** The constructor argument [augmentations] is not used. *)
Definition MixedSources_init (root split target_file : string)
    (interferers : list string) (seq_duration : option Q) (sample_rate : Z)
    : outcome MixedSources :=
  let? seq := stored_seq_duration seq_duration in
  let? tracks := MixedSources_get_paths root split in
  Returned {| ms_sample_rate := sample_rate;
              ms_seq_duration := seq;
              ms_random_excerpt := String.eqb split "train";
              ms_augmentations := String.eqb split "train";
              ms_target_file := target_file;
              ms_interferers := interferers;
              ms_tracks := tracks |}.

(** The folder a source is taken from. *)
Definition MixedSources_track_dir (self : MixedSources) (index : Z)
    : py rng string :=
  if ms_augmentations self then random_choice (ms_tracks self)
  else lift (py_getitem (ms_tracks self) index).

(** One iteration of [for source in sources]: the stem of [source],
    or the index the example is retried at. *)
Definition MixedSources_source (self : MixedSources) (index : Z)
    (source : string) : py rng (attempt (waveform A)) :=
  let! track_dir := MixedSources_track_dir self index in
  let source_path := path_join track_dir source in
  if path_exists E source_path then
    let! input_info := lift (audioinfo E source_path) in
    let duration := duration input_info in
    let! short := lift (py_lt_opt duration (ms_seq_duration self)) in
    if short then ret (Retry (neighbour index))
    else
      let! room := lift (py_sub_opt duration (ms_seq_duration self)) in
      let! start := random_uniform 0 room in
      match audioloader E source_path start (ms_seq_duration self) with
      | Raised RuntimeError => ret (Retry (neighbour index))
      | Raised e => raise e
      | Unfinished => fun _ => Unfinished
      | Returned X_audio => ret (Done X_audio)
      end
  else ret (Retry index).

(** The loop; [audio_sources] is the list built so far. *)
Fixpoint MixedSources_loop (self : MixedSources) (index : Z)
    (sources : list string) (audio_sources : list (waveform A))
    : py rng (attempt (list (waveform A))) :=
  match sources with
  | [] => ret (Done audio_sources)
  | source :: rest =>
      let! stem := MixedSources_source self index source in
      match stem with
      | Retry index' => ret (Retry index')
      | Done X_audio =>
          MixedSources_loop self index rest (audio_sources ++ [X_audio])
      end
  end.

Definition MixedSources_body (self : MixedSources) (index : Z)
    : py rng (attempt (example A)) :=
  let sources := ms_interferers self ++ [ms_target_file self] in
  let! loaded := MixedSources_loop self index sources [] in
  match loaded with
  | Retry index' => ret (Retry index')
  | Done audio_sources =>
      let! stems := lift (torch_stack audio_sources) in
      let x_audio := sum_dim0 stems in
      let! y_audio := lift (py_getitem stems (-1)) in
      ret (Done (x_audio, y_audio))
  end.

Definition MixedSources_getitem (fuel : nat) (self : MixedSources)
    (index : Z) : py rng (example A) :=
  retrying (MixedSources_body self) fuel index.

Definition MixedSources_len (self : MixedSources) : Z :=
  Z.of_nat (length (ms_tracks self)).

End Facades.

(** ** The curated corpus *)

(** Modelled from the spec: the corpus provider [musdb] is not part of
    the module. A track has a duration, a settable excerpt window
    [(chunk_start, chunk_duration)], its mixture, its native stems by
    name and its targets by name; [.audio] is the part of a recording
    inside the window, the whole of it while no duration is set. The
    recordings are kept channel-major, as the facade has them after
    [.audio.T]. *)
Record track (A : Type) : Type := {
  tr_duration : Q;
  tr_rate : positive;
  tr_mixture : waveform A;
  tr_sources : gmap string (waveform A);
  tr_targets : gmap string (waveform A);
  chunk_start : Q;
  chunk_duration : option Q
}.

Arguments tr_duration {A} _.
Arguments tr_rate {A} _.
Arguments tr_mixture {A} _.
Arguments tr_sources {A} _.
Arguments tr_targets {A} _.
Arguments chunk_start {A} _.
Arguments chunk_duration {A} _.

(** The state [MUSDBDataset.__getitem__] works on: the generator and the
    track objects of [self.mus.tracks], which it mutates. A track is
    referred to by its position in the list. *)
Record corpus_state (A : Type) : Type := {
  generator : rng;
  mus_tracks : list (track A)
}.

Arguments generator {A} _.
Arguments mus_tracks {A} _.

Record MUSDBDataset (A : Type) : Type := {
  md_target : string;
  md_split : string;
  md_seq_duration : option Q;
  md_samples_per_track : Z;
  md_source_augmentations : waveform A -> py rng (waveform A);
  md_random_track_mix : bool;
  md_setup_sources : list string
}.

Arguments md_target {A} _.
Arguments md_split {A} _.
Arguments md_seq_duration {A} _.
Arguments md_samples_per_track {A} _.
Arguments md_source_augmentations {A} _.
Arguments md_random_track_mix {A} _.
Arguments md_setup_sources {A} _.

Section Corpus.
Context {A : Type} `{SampleOps A}.

(** A computation on the generator, run inside the corpus state. *)
Definition with_generator {R} (m : py rng R) : py (corpus_state A) R :=
  fun s =>
    match m (generator s) with
    | Returned (r, g) =>
        Returned (r, {| generator := g; mus_tracks := mus_tracks s |})
    | Raised e => Raised e
    | Unfinished => Unfinished
    end.

(** Read the track object at a position. *)
Definition get_track (ref : nat) : py (corpus_state A) (track A) :=
  fun s =>
    match mus_tracks s !! ref with
    | Some t => Returned (t, s)
    | None => Raised IndexError
    end.

(** [track.chunk_duration = d] *)
Definition set_chunk_duration (ref : nat) (d : option Q)
    : py (corpus_state A) unit :=
  fun s =>
    match mus_tracks s !! ref with
    | Some t =>
        let t' := {| tr_duration := tr_duration t; tr_rate := tr_rate t;
                     tr_mixture := tr_mixture t;
                     tr_sources := tr_sources t;
                     tr_targets := tr_targets t;
                     chunk_start := chunk_start t;
                     chunk_duration := d |} in
        Returned (tt, {| generator := generator s;
                         mus_tracks := <[ref := t']> (mus_tracks s) |})
    | None => Raised IndexError
    end.

(** [track.chunk_start = start] *)
Definition set_chunk_start (ref : nat) (start : Q)
    : py (corpus_state A) unit :=
  fun s =>
    match mus_tracks s !! ref with
    | Some t =>
        let t' := {| tr_duration := tr_duration t; tr_rate := tr_rate t;
                     tr_mixture := tr_mixture t;
                     tr_sources := tr_sources t;
                     tr_targets := tr_targets t;
                     chunk_start := start;
                     chunk_duration := chunk_duration t |} in
        Returned (tt, {| generator := generator s;
                         mus_tracks := <[ref := t']> (mus_tracks s) |})
    | None => Raised IndexError
    end.

(** Modelled from the spec: the part of a recording of track [t] inside
    its excerpt window, for a window that does not start before the
    track: the frames from [int(chunk_start * rate)] on,
    [int(chunk_duration * rate)] of them when a duration is set. *)
Definition excerpt (t : track A) (recording : waveform A) : waveform A :=
  let first := Z.to_nat (py_int_mul (chunk_start t) (Z.pos (tr_rate t))) in
  match chunk_duration t with
  | None => map (drop first) recording
  | Some d =>
      let count := Z.to_nat (py_int_mul d (Z.pos (tr_rate t))) in
      map (fun ch => take count (drop first ch)) recording
  end.

(** [track.sources[source].audio.T] *)
Definition track_source_audio (ref : nat) (source : string)
    : py (corpus_state A) (waveform A) :=
  let! t := get_track ref in
  match tr_sources t !! source with
  | Some recording => ret (excerpt t recording)
  | None => raise KeyError
  end.

(** [track.targets[target].audio.T] *)
Definition track_target_audio (ref : nat) (target : string)
    : py (corpus_state A) (waveform A) :=
  let! t := get_track ref in
  match tr_targets t !! target with
  | Some recording => ret (excerpt t recording)
  | None => raise KeyError
  end.

(** [track.audio.T] *)
Definition track_audio (ref : nat) : py (corpus_state A) (waveform A) :=
  let! t := get_track ref in
  ret (excerpt t (tr_mixture t)).

(** [self.mus.tracks[i]] as a reference. *)
Definition tracks_getitem (i : Z) : py (corpus_state A) nat :=
  fun s => lift (py_position (length (mus_tracks s)) i) s.

(** [random.choice(self.mus.tracks)] as a reference. *)
Definition tracks_choice : py (corpus_state A) nat :=
  fun s => with_generator (random_position (length (mus_tracks s))) s.

(** The loop [for k, source in enumerate(self.mus.setup['sources'])]:
    [track] and [target_ind] are the loop-carried variables,
    [audio_sources] the list built so far. *)
Fixpoint MUSDBDataset_loop (self : MUSDBDataset A) (k : nat)
    (sources : list string) (track : nat) (target_ind : option nat)
    (audio_sources : list (waveform A))
    : py (corpus_state A) (option nat * list (waveform A)) :=
  match sources with
  | [] => ret (target_ind, audio_sources)
  | source :: rest =>
      let target_ind :=
        if String.eqb source (md_target self) then Some k else target_ind in
      let! track :=
        if md_random_track_mix self then tracks_choice else ret track in
      let! _ := set_chunk_duration track (md_seq_duration self) in
      let! t := get_track track in
      let! room := lift (py_sub_opt (tr_duration t) (md_seq_duration self)) in
      let! start := with_generator (random_uniform 0 room) in
      let! _ := set_chunk_start track start in
      let! raw := track_source_audio track source in
      let! audio := with_generator (md_source_augmentations self raw) in
      MUSDBDataset_loop self (S k) rest track target_ind
        (audio_sources ++ [audio])
  end.

Definition MUSDBDataset_getitem (self : MUSDBDataset A) (index : Z)
    : py (corpus_state A) (example A) :=
  let! i := lift (py_floordiv index (md_samples_per_track self)) in
  let! track := tracks_getitem i in
  if String.eqb (md_split self) "train" then
    let! loaded :=
      MUSDBDataset_loop self 0 (md_setup_sources self) track None [] in
    let '(target_ind, audio_sources) := loaded in
    let! stems := lift (torch_stack audio_sources) in
    let x := sum_dim0 stems in
    match target_ind with
    | Some target_ind =>
        let! y := lift (py_getitem stems (Z.of_nat target_ind)) in
        ret (x, y)
    | None =>
        let! vocind := lift (py_list_index (md_setup_sources self) "vocals") in
        let! vocals := lift (py_getitem stems (Z.of_nat vocind)) in
        ret (x, tensor_sub x vocals)
    end
  else
    let! x := track_audio track in
    let! y := track_target_audio track (md_target self) in
    ret (x, y).

Definition MUSDBDataset_len (self : MUSDBDataset A) (s : corpus_state A) : Z :=
  Z.of_nat (length (mus_tracks s)) * md_samples_per_track self.

End Corpus.

(** ** A small concrete world

    Rational samples, a few recordings at 4 Hz laid out in [train] and
    [valid] folders, and a two-track corpus: the inputs the closed
    examples below run on. *)
Module Demo.

#[global] Instance Q_samples : SampleOps Q :=
  {| sample_add := Qplus; sample_sub := Qminus; sample_scale := Qmult |}.

Definition ramp (first : Z) (n : nat) : list Q :=
  map (fun k => inject_Z (first + Z.of_nat k)) (seq 0 n).

(** Three seconds, mono. *)
Definition mono : audio_file Q :=
  {| af_rate := 4; af_data := [ramp 1 12]; af_opens := true;
     af_decodable := true |}.

(** Three seconds, stereo. *)
Definition stereo : audio_file Q :=
  {| af_rate := 4; af_data := [ramp 1 12; ramp 101 12]; af_opens := true;
     af_decodable := true |}.

(** One second, mono. *)
Definition brief : audio_file Q :=
  {| af_rate := 4; af_data := [ramp 1 4]; af_opens := true;
     af_decodable := true |}.

Definition brief' : audio_file Q :=
  {| af_rate := 4; af_data := [ramp 21 4]; af_opens := true;
     af_decodable := true |}.

(** A file whose data does not decode. *)
Definition corrupt : audio_file Q :=
  {| af_rate := 4; af_data := [ramp 1 12]; af_opens := true;
     af_decodable := false |}.

Definition files : gmap string (audio_file Q) :=
  list_to_map
    [ ("root/valid/t1/mixture.wav", mono);
      ("root/valid/t1/vocals.wav", stereo);
      ("root/valid/t1/bass.wav", mono);
      ("root/valid/t2/vocals.wav", mono);
      ("root/valid/t3/bass.wav", mono);
      ("root/valid/t3/vocals.wav", mono);
      ("root/valid/noise/n1.wav", brief);
      ("root/valid/vocals/v1.wav", brief);
      ("root/valid/vocals/v2.wav", brief');
      ("root/train/t1/bass.wav", mono);
      ("root/train/t1/vocals.wav", mono);
      ("root/train/t2/vocals.wav", mono);
      ("root/train/noise/n1.wav", brief);
      ("root/train/noise/bad.wav", corrupt);
      ("root/train/vocals/v1.wav", brief);
      ("root/train/vocals/v2.wav", brief') ]%string.

Definition dirs : gmap string (list string) :=
  list_to_map
    [ ("root/valid", ["root/valid/t1"; "root/valid/t2"; "root/valid/t3"]);
      ("root/train", ["root/train/t1"; "root/train/t2"]) ]%string.

(** Patterns without wildcard: the file of that name, if there is one. *)
Definition glob (dir pattern : string) : list string :=
  if bool_decide (is_Some (files !! path_join dir pattern))
  then [path_join dir pattern] else [].

Definition world : env Q :=
  {| fs_files := files; fs_dirs := dirs; fs_glob := glob;
     torchaudio_loaded := false |}.

Definition world_torchaudio : env Q :=
  {| fs_files := files; fs_dirs := dirs; fs_glob := glob;
     torchaudio_loaded := true |}.

(** 61 frames at 7 Hz, and a folder that holds this file only. *)
Definition seven_hertz : audio_file Q :=
  {| af_rate := 7; af_data := [ramp 1 61]; af_opens := true;
     af_decodable := true |}.

Definition world_seven : env Q :=
  {| fs_files := {[ "seven.wav"%string := seven_hertz ]};
     fs_dirs := ∅; fs_glob := fun _ _ => [];
     torchaudio_loaded := false |}.

(** A generator whose every draw is [u]. *)
Definition constant_rng (u : Q) : rng := {| tape := fun _ => u; pos := 0 |}.

(** A generator whose draw number [k] is [u], every other one 0. *)
Definition spike_rng (k : nat) (u : Q) : rng :=
  {| tape := fun n => if Nat.eqb n k then u else 0%Q; pos := 0 |}.

Definition unaligned (seq_duration : option Q) (sources : list (list string))
    : UnalignedSources :=
  {| us_sample_rate := 4; us_seq_duration := seq_duration;
     us_nb_samples := 1000; us_source_folders := ["noise"; "vocals"]%string;
     us_sources := sources |}.

(** Two three-second corpus tracks with stems [bass] and [vocals]. *)
Definition song (first : Z) : track Q :=
  {| tr_duration := 3; tr_rate := 4;
     tr_mixture := [ramp (2 * first + 50) 12];
     tr_sources := list_to_map [ ("bass", [ramp first 12]);
                                 ("vocals", [ramp (first + 50) 12]) ]%string;
     tr_targets := list_to_map [ ("bass", [ramp first 12]);
                                 ("vocals", [ramp (first + 50) 12]) ]%string;
     chunk_start := 0; chunk_duration := None |}.

Definition corpus (g : rng) : corpus_state Q :=
  {| generator := g; mus_tracks := [song 1; song 201] |}.

Definition musdb (target split : string) (seq_duration : option Q)
    (random_track_mix : bool) : MUSDBDataset Q :=
  {| md_target := target; md_split := split;
     md_seq_duration := seq_duration; md_samples_per_track := 2;
     md_source_augmentations := ret;
     md_random_track_mix := random_track_mix;
     md_setup_sources := ["bass"; "vocals"]%string |}.

(** Facade objects over this world. *)
Definition unaligned_pools : list (list string) :=
  [ ["root/train/noise/n1.wav"];
    ["root/train/vocals/v1.wav"; "root/train/vocals/v2.wav"] ]%string.

Definition mixed (split : string) (seq_duration : option Q)
    (tracks : list string) : MixedSources :=
  {| ms_sample_rate := 4; ms_seq_duration := seq_duration;
     ms_random_excerpt := String.eqb split "train";
     ms_augmentations := String.eqb split "train";
     ms_target_file := "vocals.wav"; ms_interferers := ["bass.wav"]%string;
     ms_tracks := tracks |}.

Definition aligned (split : string) (seq_duration : option Q)
    : AlignedSources :=
  {| as_sample_rate := 4; as_seq_duration := seq_duration;
     as_random_excerpt := String.eqb split "train";
     as_tuple_paths :=
       [("root/valid/t1/mixture.wav", "root/valid/t1/vocals.wav")]%string |}.

(** An index whose pair is two mono files of one rate. *)
Definition aligned_alike (split : string) (seq_duration : option Q)
    : AlignedSources :=
  {| as_sample_rate := 4; as_seq_duration := seq_duration;
     as_random_excerpt := String.eqb split "train";
     as_tuple_paths :=
       [("root/valid/t1/mixture.wav", "root/valid/t1/bass.wav")]%string |}.

Definition unaligned_valid_pools : list (list string) :=
  [ ["root/valid/noise/n1.wav"];
    ["root/valid/vocals/v1.wav"; "root/valid/vocals/v2.wav"] ]%string.


(** An index of two pairs, both three seconds long. *)
Definition aligned_two (split : string) (seq_duration : option Q)
    : AlignedSources :=
  {| as_sample_rate := 4; as_seq_duration := seq_duration;
     as_random_excerpt := String.eqb split "train";
     as_tuple_paths :=
       [("root/valid/t1/mixture.wav", "root/valid/t1/vocals.wav");
        ("root/valid/t3/bass.wav", "root/valid/t3/vocals.wav")]%string |}.

End Demo.

(** ** Vocabulary of the statements *)

(** The draw the next call of [random.random()] returns. *)
Definition next_draw (r : rng) : Q := unit_frac (tape r (pos r)).

(** The generator after one draw. *)
Definition advance (r : rng) : rng := {| tape := tape r; pos := S (pos r) |}.

Section Vocabulary.
Context {A : Type} `{SampleOps A}.

(** The sample-wise sum of stems at channel [c] and time [t]: the
    samples all stems have there, added first to last. *)
Definition samplewise_sum (stems : list (waveform A)) (c t : nat) : option A :=
  match stems with
  | [] => None
  | w :: rest =>
      foldl (fun acc v =>
               match acc, sample_at v c t with
               | Some a, Some b => Some (sample_add a b)
               | _, _ => None
               end)
            (sample_at w c t) rest
  end.

(** The sample-wise difference of two waveforms at [c], [t]. *)
Definition samplewise_diff (x v : waveform A) (c t : nat) : option A :=
  match sample_at x c t, sample_at v c t with
  | Some a, Some b => Some (sample_sub a b)
  | _, _ => None
  end.

(** [stem] is what [MixedSources] loaded for [source]: the excerpt of
    that file in one of the track folders, at some start. *)
Definition mixed_stem (E : env A) (self : MixedSources) (source : string)
    (stem : waveform A) : Prop :=
  exists track_dir start,
    track_dir ∈ ms_tracks self /\
    audioloader E (path_join track_dir source) start (ms_seq_duration self)
      = Returned stem.

(** [stem] is what [MUSDBDataset] loaded for [source]: the excerpt of
    that stem of some track, passed through the augmentations. *)
Definition corpus_stem (self : MUSDBDataset A) (source : string)
    (stem : waveform A) : Prop :=
  exists ref s raw g g',
    track_source_audio ref source s = Returned (raw, s) /\
    md_source_augmentations self raw g = Returned (stem, g').

(** The per-example failures of one pass of [AlignedSources] at
    [index], from generator state [r] to [r1]: the pair is shorter
    than the window (training split), a load raises [RuntimeError],
    or a loaded excerpt is shorter than the window. *)
Inductive aligned_failure (E : env A) (self : AlignedSources) (index : Z)
    (r : rng) : rng -> Prop :=
  | aligned_pair_too_short input_path output_path input_info output_info d :
      as_seq_duration self = Some d ->
      as_random_excerpt self = true ->
      py_getitem (as_tuple_paths self) index
        = Returned (input_path, output_path) ->
      audioinfo E input_path = Returned input_info ->
      audioinfo E output_path = Returned output_info ->
      Qltb (py_min (duration input_info) (duration output_info)) d = true ->
      aligned_failure E self index r r
  | aligned_decode_error input_path output_path input_info output_info
      start r1 :
      py_getitem (as_tuple_paths self) index
        = Returned (input_path, output_path) ->
      audioinfo E input_path = Returned input_info ->
      audioinfo E output_path = Returned output_info ->
      AlignedSources_start self input_info output_info r
        = Returned (Some start, r1) ->
      (audioloader E input_path start (as_seq_duration self)
         = Raised RuntimeError \/
       exists X : waveform A,
         audioloader E input_path start (as_seq_duration self) = Returned X /\
         audioloader E output_path start (as_seq_duration self)
           = Raised RuntimeError) ->
      aligned_failure E self index r r1
  | aligned_excerpt_too_short input_path output_path input_info output_info
      start r1 d (X Y : waveform A) :
      as_seq_duration self = Some d ->
      py_getitem (as_tuple_paths self) index
        = Returned (input_path, output_path) ->
      audioinfo E input_path = Returned input_info ->
      audioinfo E output_path = Returned output_info ->
      AlignedSources_start self input_info output_info r
        = Returned (Some start, r1) ->
      audioloader E input_path start (Some d) = Returned X ->
      audioloader E output_path start (Some d) = Returned Y ->
      (Z.of_nat (snd (shape X)) < py_int_mul d (samplerate input_info) \/
       Z.of_nat (snd (shape Y)) < py_int_mul d (samplerate output_info)) ->
      aligned_failure E self index r r1.


(** [stem] is what one iteration of the [MixedSources] loop loaded for
    [source]: a folder is picked, the file probed, a start drawn from
    the generator as that iteration finds it, and the window at that
    start loaded. *)
Definition drawn_stem (E : env A) (self : MixedSources) (source : string)
    (stem : waveform A) : Prop :=
  exists index r track_dir r1 input_info room start r2,
    MixedSources_track_dir self index r = Returned (track_dir, r1) /\
    audioinfo E (path_join track_dir source) = Returned input_info /\
    py_sub_opt (duration input_info) (ms_seq_duration self) = Returned room /\
    random_uniform 0 room r1 = Returned (start, r2) /\
    audioloader E (path_join track_dir source) start (ms_seq_duration self)
      = Returned stem.

End Vocabulary.

(** A computation that looks at its state only through [view] and
    leaves the state as it found it: on states with one view it has one
    outcome. *)
Definition stateless {St T X} (view : St -> T) (m : py St X) : Prop :=
  forall s1 s2, view s1 = view s2 -> m s1 = lift (value_of (m s2)) s1.

(** Every generator state looks the same to a computation that draws
    nothing. *)
Definition no_view (r : rng) : unit := tt.

(** ** Vocabulary of the further statements *)

(** Every channel has the same number of samples, as in an array. *)
Definition rectangular {A} (w : waveform A) : Prop :=
  forall ch ch', ch ∈ w -> ch' ∈ w -> length ch = length ch'.

(** Two track objects that differ in their excerpt window at most. *)
Definition same_recordings {A} (t t' : track A) : Prop :=
  tr_duration t = tr_duration t' /\
  tr_rate t = tr_rate t' /\
  tr_mixture t = tr_mixture t' /\
  tr_sources t = tr_sources t' /\
  tr_targets t = tr_targets t'.


(** The outcome of a pass without the index it asks to retry at. *)
Definition forget_retry {St R} (o : outcome (attempt R * St))
    : outcome (option R * St) :=
  match o with
  | Returned (Done r, s) => Returned (Some r, s)
  | Returned (Retry _, s) => Returned (None, s)
  | Raised e => Raised e
  | Unfinished => Unfinished
  end.

(** Track [t] with its excerpt window set to [start] and [d]. *)
Definition window_of {A} (t : track A) (start : Q) (d : option Q) : track A :=
  {| tr_duration := tr_duration t; tr_rate := tr_rate t;
     tr_mixture := tr_mixture t;
     tr_sources := tr_sources t;
     tr_targets := tr_targets t;
     chunk_start := start;
     chunk_duration := d |}.



(** The shape of a window of [d] seconds of file [f]: its channels by
    [int(d * rate)] samples. *)
Definition window_shape {A} (d : Q) (f : audio_file A) : nat * nat :=
  (fst (shape (af_data f)), Z.to_nat (py_int_mul d (Z.pos (af_rate f)))).

(** The duration a probe of file [f] reports: frames over rate, as a
    float. *)
Definition probed_duration {A} (f : audio_file A) : Q :=
  py_fdiv (inject_Z (nframes f)) (inject_Z (Z.pos (af_rate f))).

(** File [f] is at [path], opens, decodes, has a channel and fewer than
    [2^51] frames, and its probed duration is [d] seconds at least. *)
Definition healthy_file {A} (E : env A) (d : Q) (path : string)
    (f : audio_file A) : Prop :=
  fs_files E !! path = Some f /\
  af_opens f = true /\
  af_decodable f = true /\
  0 < nchannels f /\
  nframes f < 2 ^ 51 /\
  (d <= probed_duration f)%Q.




(** What a probe of file [f] reports in world [E]. *)
Definition probed_info {A} (E : env A) (f : audio_file A) : info :=
  {| samplerate := Z.pos (af_rate f);
     samples := if torchaudio_loaded E then nframes f
                else py_int_mul (probed_duration f) (Z.pos (af_rate f));
     duration := probed_duration f |}.

(** * Properties *)

(** ** Floats *)

Lemma pow2_pos e : (0 < pow2 e)%Q.
Proof. apply Qpower_0_lt. reflexivity. Qed.

Lemma pow2_add a b : (pow2 (a + b) == pow2 a * pow2 b)%Q.
Proof. apply Qpower_plus. discriminate. Qed.

Lemma pow2_of_nonneg k : 0 <= k -> (pow2 k == inject_Z (2 ^ k))%Q.
Proof. intros Hk. unfold pow2. by rewrite Zpower_Qpower. Qed.

Lemma Qnum_pos (q : Q) : (0 < q)%Q -> 0 < Qnum q.
Proof. unfold Qlt. simpl. lia. Qed.

Lemma binade_lower (q : Q) : (0 < q)%Q -> (pow2 (binade q) <= q)%Q.
Proof.
  intros Hq. unfold binade.
  set (a := Z.log2 (Qnum q)). set (b := Z.log2 (Z.pos (Qden q))).
  destruct (Qle_bool (pow2 (a - b)) q) eqn:Hle; [by apply Qle_bool_iff|].
  clear Hle. pose proof (Qnum_pos q Hq) as Hn.
  destruct (Z.log2_spec (Qnum q) Hn) as [Ha _]. fold a in Ha.
  destruct (Z.log2_spec (Z.pos (Qden q)) ltac:(lia)) as [_ Hb]. fold b in Hb.
  assert (0 <= a) as Ha0 by apply Z.log2_nonneg.
  assert (0 <= b) as Hb0 by apply Z.log2_nonneg.
  apply (Qmult_le_r _ _ (pow2 (b + 1))); [apply pow2_pos|].
  rewrite <- pow2_add. replace (a - b - 1 + (b + 1)) with a by lia.
  rewrite !pow2_of_nonneg by lia.
  unfold Qle. simpl. rewrite Z.mul_1_r, Pos.mul_1_r.
  assert (0 < 2 ^ a) by (apply Z.pow_pos_nonneg; lia).
  apply Z.mul_le_mono_nonneg; lia.
Qed.

Lemma binade_upper (q : Q) : (0 < q)%Q -> (q < pow2 (binade q + 1))%Q.
Proof.
  intros Hq. unfold binade.
  set (a := Z.log2 (Qnum q)). set (b := Z.log2 (Z.pos (Qden q))).
  pose proof (Qnum_pos q Hq) as Hn.
  destruct (Z.log2_spec (Qnum q) Hn) as [_ Ha]. fold a in Ha.
  destruct (Z.log2_spec (Z.pos (Qden q)) ltac:(lia)) as [Hb _]. fold b in Hb.
  assert (0 <= a) as Ha0 by apply Z.log2_nonneg.
  assert (0 <= b) as Hb0 by apply Z.log2_nonneg.
  assert (q < pow2 (a - b + 1))%Q as Hup.
  { apply (Qmult_lt_r _ _ (pow2 b)); [apply pow2_pos|].
    rewrite <- pow2_add. replace (a - b + 1 + b) with (a + 1) by lia.
    rewrite !pow2_of_nonneg by lia.
    unfold Qlt. simpl. rewrite Z.mul_1_r.
    rewrite Pos.mul_1_r. rewrite <- Z.add_1_r in Ha.
    apply Z.le_lt_trans with (Qnum q * Z.pos (Qden q)).
    - apply Z.mul_le_mono_nonneg_l; lia.
    - apply Z.mul_lt_mono_pos_r; lia. }
  destruct (Qle_bool (pow2 (a - b)) q) eqn:Hle; [done|].
  replace (a - b - 1 + 1) with (a - b) by lia.
  apply Qnot_le_lt. intros Hc. apply Qle_bool_iff in Hc. congruence.
Qed.

Lemma py_round_upper (x : Q) : (inject_Z (py_round x) <= x + (1 # 2))%Q.
Proof.
  unfold py_round. pose proof (Qfloor_le x) as Hlo.
  set (f := Qfloor x) in *.
  destruct ((x - inject_Z f ?= 1 # 2)%Q) eqn:Hc.
  - apply Qeq_alt in Hc. destruct (Z.even f);
      [lra|rewrite inject_Z_plus; change (inject_Z 1) with 1%Q; lra].
  - lra.
  - apply Qgt_alt in Hc. rewrite inject_Z_plus.
    change (inject_Z 1) with 1%Q. lra.
Qed.

Lemma py_round_lower (x : Q) : (x - (1 # 2) <= inject_Z (py_round x))%Q.
Proof.
  unfold py_round. pose proof (Qlt_floor x) as Hhi.
  rewrite inject_Z_plus in Hhi. change (inject_Z 1) with 1%Q in Hhi.
  set (f := Qfloor x) in *.
  destruct ((x - inject_Z f ?= 1 # 2)%Q) eqn:Hc.
  - apply Qeq_alt in Hc. destruct (Z.even f);
      [lra|rewrite inject_Z_plus; change (inject_Z 1) with 1%Q; lra].
  - apply Qlt_alt in Hc. lra.
  - rewrite inject_Z_plus. change (inject_Z 1) with 1%Q. lra.
Qed.

(** The nearest double is within half a unit in the last place. *)
Lemma nearest_close (q : Q) :
  (0 < q)%Q ->
  (q - q * (1 # 2 ^ 53) <= nearest q)%Q /\
  (nearest q <= q + q * (1 # 2 ^ 53))%Q.
Proof.
  intros Hq. unfold nearest. set (e := binade q - 52).
  pose proof (pow2_pos e) as He.
  pose proof (py_round_upper (q / pow2 e)) as Hup.
  pose proof (py_round_lower (q / pow2 e)) as Hlo.
  set (m := inject_Z (py_round (q / pow2 e))) in *.
  assert (q / pow2 e * pow2 e == q)%Q as Hback by (field; lra).
  assert (pow2 e * (1 # 2) <= q * (1 # 2 ^ 53))%Q as Hulp.
  { pose proof (binade_lower q Hq) as Hb.
    replace (binade q) with (e + 52) in Hb by (unfold e; lia).
    rewrite pow2_add in Hb.
    assert (pow2 52 == inject_Z (2 ^ 52))%Q as H52 by (by apply pow2_of_nonneg).
    rewrite H52 in Hb.
    apply (Qmult_le_compat_r _ _ (1 # 2 ^ 53)) in Hb; [|discriminate].
    assert (pow2 e * inject_Z (2 ^ 52) * (1 # 2 ^ 53) == pow2 e * (1 # 2))%Q
      as Heq.
    { rewrite <- Qmult_assoc. apply Qmult_comp; reflexivity. }
    by rewrite Heq in Hb. }
  split.
  - apply (Qmult_le_compat_r _ _ (pow2 e)) in Hlo; [|lra]. nra.
  - apply (Qmult_le_compat_r _ _ (pow2 e)) in Hup; [|lra]. nra.
Qed.

Lemma fl_nearest (q : Q) : (0 < q)%Q -> (fl q == nearest q)%Q.
Proof.
  intros Hq. unfold fl. pose proof (Qnum_pos q Hq).
  destruct (Qnum q) as [|p|p]; try lia.
  destruct (Qeq_bool (nearest q) q) eqn:Heq; [|reflexivity].
  apply Qeq_bool_iff in Heq. by symmetry.
Qed.

Lemma fl_zero (q : Q) : (q == 0)%Q -> fl q = q.
Proof.
  unfold Qeq, fl. simpl. intros Hq.
  replace (Qnum q) with 0 by lia. done.
Qed.

Lemma fl_nonneg (q : Q) : (0 <= q)%Q -> (0 <= fl q)%Q.
Proof.
  intros Hq. destruct (Qeq_dec q 0) as [Hz|Hz].
  - by rewrite fl_zero.
  - assert (0 < q)%Q as Hpos by (apply Qle_lteq in Hq as [?|Heq]; [done|by symmetry in Heq]).
    rewrite fl_nearest by done.
    destruct (nearest_close q Hpos) as [Hlo _].
    assert (0 <= q - q * (1 # 2 ^ 53))%Q; [|lra].
    assert ((1 # 2 ^ 53) <= 1)%Q by (unfold Qle; simpl; lia). nra.
Qed.

Lemma fl_upper (q : Q) : (0 <= q)%Q -> (fl q <= q + q * (1 # 2 ^ 53))%Q.
Proof.
  intros Hq. destruct (Qeq_dec q 0) as [Hz|Hz].
  - rewrite fl_zero by done. rewrite Hz. lra.
  - assert (0 < q)%Q as Hpos by (apply Qle_lteq in Hq as [?|Heq]; [done|by symmetry in Heq]).
    rewrite fl_nearest by done. apply nearest_close. done.
Qed.

Lemma fl_lower (q : Q) : (0 <= q)%Q -> (q - q * (1 # 2 ^ 53) <= fl q)%Q.
Proof.
  intros Hq. destruct (Qeq_dec q 0) as [Hz|Hz].
  - rewrite fl_zero by done. rewrite Hz. lra.
  - assert (0 < q)%Q as Hpos by (apply Qle_lteq in Hq as [?|Heq]; [done|by symmetry in Heq]).
    rewrite fl_nearest by done. apply nearest_close. done.
Qed.

(** Products as CPython computes them on the doubles nearest to 0.3,
    0.29 and 0.7; the exact product of the first truncates to one
    less. *)
Lemma float_products :
  py_int_mul (fl (3 # 10)) 44100 = 13230 /\
  py_int (fl (3 # 10) * 44100) = 13229 /\
  py_int_mul (fl (29 # 100)) 100 = 28 /\
  py_int_mul (fl (7 # 10)) 10 = 7 /\
  py_int_mul (fl (7 # 10)) 11 = 7.
Proof. repeat split; vm_compute; reflexivity. Qed.

(** ** Reasoning about computations *)

Lemma obind_returned {X Y} (o : outcome X) (k : X -> outcome Y) (y : Y) :
  obind o k = Returned y -> exists x, o = Returned x /\ k x = Returned y.
Proof. destruct o as [x| |]; simpl; intros Hk; try discriminate. eauto. Qed.

Lemma bind_returned {St X Y} (m : py St X) (k : X -> py St Y) s y s' :
  bind m k s = Returned (y, s') ->
  exists x s1, m s = Returned (x, s1) /\ k x s1 = Returned (y, s').
Proof.
  unfold bind. destruct (m s) as [[x s1]| |]; intros Hk; try discriminate.
  eauto.
Qed.

Lemma lift_returned {St X} (o : outcome X) (s s' : St) (x : X) :
  lift o s = Returned (x, s') -> o = Returned x /\ s' = s.
Proof.
  unfold lift. destruct o; simpl; intros Hk; try discriminate.
  by inversion Hk.
Qed.

Lemma ret_returned {St X} (x y : X) (s s' : St) :
  ret x s = Returned (y, s') -> y = x /\ s' = s.
Proof. unfold ret. intros Hk. by inversion Hk. Qed.

(** Peel the binds of a computation known to have returned. *)
Ltac py_step :=
  match goal with
  | Hk : bind _ _ _ = Returned _ |- _ =>
      let x := fresh "x" in
      let s := fresh "s" in
      let Hx := fresh "Hx" in
      apply bind_returned in Hk as (x & s & Hx & Hk)
  | Hk : lift _ _ = Returned _ |- _ =>
      let Hs := fresh "Hs" in
      apply lift_returned in Hk as [Hk Hs]; try subst
  | Hk : ret _ _ = Returned _ |- _ =>
      let Hs := fresh "Hs" in
      apply ret_returned in Hk as [Hk Hs]; try subst
  | Hk : obind _ _ = Returned _ |- _ =>
      let x := fresh "x" in
      let Hx := fresh "Hx" in
      apply obind_returned in Hk as (x & Hx & Hk)
  | Hk : raise _ _ = Returned _ |- _ => discriminate Hk
  | Hk : Raised _ = Returned _ |- _ => discriminate Hk
  | Hk : Unfinished = Returned _ |- _ => discriminate Hk
  end.

(** A computation that returned did so in some pass of its body. *)
Lemma retrying_returned {St R} (body : Z -> py St (attempt R)) fuel index s r s' :
  retrying body fuel index s = Returned (r, s') ->
  exists index' s0, body index' s0 = Returned (Done r, s').
Proof.
  revert index s. induction fuel as [|fuel IH]; intros index s Hk.
  - discriminate.
  - simpl in Hk. py_step. destruct x as [r0|index'].
    + py_step. eauto.
    + eauto.
Qed.

(** A pass that asks for a retry hands over to the next pass. *)
Lemma retrying_retry {St R} (body : Z -> py St (attempt R)) fuel index index' s s' :
  body index s = Returned (Retry index', s') ->
  retrying body (S fuel) index s = retrying body fuel index' s'.
Proof. intros Hb. simpl. unfold bind. by rewrite Hb. Qed.

Lemma retrying_done {St R} (body : Z -> py St (attempt R)) fuel index r s s' :
  body index s = Returned (Done r, s') ->
  retrying body (S fuel) index s = Returned (r, s').
Proof. intros Hb. simpl. unfold bind. by rewrite Hb. Qed.

(** ** Lists the way Python reads them *)

Lemma py_position_lt n i p : py_position n i = Returned p -> (p < n)%nat.
Proof.
  unfold py_position. intros Hp.
  destruct (_ && _) eqn:Hr; [|discriminate].
  apply andb_prop in Hr as [H0 Hn]. inversion Hp; subst. lia.
Qed.

Lemma py_getitem_lookup {X} (l : list X) i x :
  py_getitem l i = Returned x ->
  exists p, py_position (length l) i = Returned p /\ l !! p = Some x.
Proof.
  unfold py_getitem. intros Hk. py_step.
  destruct (l !! x0) eqn:Hl; [|discriminate]. inversion Hk; subst. eauto.
Qed.

Lemma py_getitem_elem {X} (l : list X) i x :
  py_getitem l i = Returned x -> x ∈ l.
Proof.
  intros (p & _ & Hl)%py_getitem_lookup. by eapply list_elem_of_lookup_2.
Qed.

Lemma py_getitem_last {X} (l : list X) x :
  py_getitem l (-1) = Returned x -> last l = Some x.
Proof.
  intros (p & Hp & Hl)%py_getitem_lookup.
  unfold py_position in Hp. simpl in Hp.
  destruct (_ && _) eqn:Hr; [|discriminate].
  apply andb_prop in Hr as [H0 Hn]. inversion Hp; subst.
  rewrite last_lookup. rewrite <- Hl. f_equal. lia.
Qed.

Lemma map_outcome_returned {X Y} (f : X -> outcome Y) l ys :
  map_outcome f l = Returned ys -> Forall2 (fun x y => f x = Returned y) l ys.
Proof.
  revert ys. induction l as [|x l IH]; simpl; intros ys Hk.
  - inversion Hk. constructor.
  - repeat py_step. inversion Hk; subst. constructor; auto.
Qed.

(** ** Tensors *)

Section TensorFacts.
Context {A : Type} `{SampleOps A}.

Lemma shape_zip_with (f : A -> A -> A) (x y : waveform A) :
  shape y = shape x -> shape (zip_with (zip_with f) x y) = shape x.
Proof.
  unfold shape. destruct x as [|cx x], y as [|cy y]; simpl; try done.
  intros Hs. inversion Hs as [[Hl Hc]].
  rewrite !length_zip_with. f_equal; lia.
Qed.

Lemma shape_tensor_add (x y : waveform A) :
  shape y = shape x -> shape (tensor_add x y) = shape x.
Proof. apply shape_zip_with. Qed.

Lemma shape_tensor_sub (x y : waveform A) :
  shape y = shape x -> shape (tensor_sub x y) = shape x.
Proof. apply shape_zip_with. Qed.

Lemma shape_foldl_add (w : waveform A) (rest : list (waveform A)) :
  Forall (fun v => shape v = shape w) rest ->
  shape (foldl tensor_add w rest) = shape w.
Proof.
  revert w. induction rest as [|v rest IH]; simpl; intros w Hall; [done|].
  inversion Hall as [|? ? Hv Hrest]; subst.
  rewrite IH.
  - by apply shape_tensor_add.
  - eapply Forall_impl; [exact Hrest|]. simpl. intros u Hu.
    rewrite Hu. symmetry. by apply shape_tensor_add.
Qed.

(** What [torch.stack] accepts: a non-empty list of one shape. *)
Lemma torch_stack_returned (l stems : list (waveform A)) :
  torch_stack l = Returned stems ->
  stems = l /\
  exists w rest, l = w :: rest /\ Forall (fun v => shape v = shape w) rest.
Proof.
  unfold torch_stack. destruct l as [|w rest]; [discriminate|].
  destruct (forallb _ rest) eqn:Hall; [|discriminate].
  intros Hk. inversion Hk; subst. split; [done|].
  exists w, rest. split; [done|].
  apply Forall_forall. intros v Hv.
  rewrite forallb_forall in Hall.
  apply list_elem_of_In, Hall in Hv. by apply bool_decide_eq_true in Hv.
Qed.

(** Every stacked stem has the shape of the mix. *)
Lemma stacked_shape (l stems : list (waveform A)) (v : waveform A) :
  torch_stack l = Returned stems -> v ∈ stems ->
  shape v = shape (sum_dim0 stems).
Proof.
  intros (-> & w & rest & -> & Hall)%torch_stack_returned Hv.
  simpl. rewrite shape_foldl_add by done.
  apply elem_of_cons in Hv as [->|Hv]; [done|].
  rewrite Forall_forall in Hall. by apply Hall.
Qed.

Lemma sample_at_zip_with (f : A -> A -> A) (x y : waveform A) c t :
  sample_at (zip_with (zip_with f) x y) c t =
  match sample_at x c t, sample_at y c t with
  | Some a, Some b => Some (f a b)
  | _, _ => None
  end.
Proof.
  unfold sample_at. rewrite lookup_zip_with.
  destruct (x !! c) as [cx|]; simpl; [|done].
  destruct (y !! c) as [cy|]; simpl.
  - rewrite lookup_zip_with.
    destruct (cx !! t); simpl; [|done]. by destruct (cy !! t).
  - by destruct (cx !! t).
Qed.

Lemma np_flip0_involutive (audio : waveform A) :
  np_flip0 (np_flip0 audio) = audio.
Proof. unfold np_flip0. apply rev_involutive. Qed.

Lemma np_flip0_channels (audio : waveform A) :
  fst (shape (np_flip0 audio)) = fst (shape audio).
Proof. unfold shape, np_flip0. simpl. apply length_rev. Qed.

End TensorFacts.

(** ** Augmentations *)

Section AugmentationFacts.
Context {A : Type} `{SampleOps A}.

(** The swap happens exactly when there are two channels and the draw
    is below one half. *)
Lemma channelswap_swaps (audio : waveform A) (r : rng) :
  fst (shape audio) = 2%nat -> Qltb (next_draw r) (1 # 2) = true ->
  augment_source_channelswap audio r = Returned (np_flip0 audio, advance r).
Proof.
  intros Hc Hu. unfold augment_source_channelswap.
  rewrite bool_decide_eq_true_2 by done.
  unfold bind, random_random. fold (next_draw r). by rewrite Hu.
Qed.

(** C9. The channel swap returns a waveform whose channel count is not
    2 unchanged (and draws nothing); on a 2-channel waveform, two
    applications that both swap give the original waveform back. *)
Theorem channelswap_noop_or_involution (audio : waveform A) (r1 r2 : rng) :
  (fst (shape audio) <> 2%nat ->
   augment_source_channelswap audio r1 = Returned (audio, r1)) /\
  (fst (shape audio) = 2%nat ->
   Qltb (next_draw r1) (1 # 2) = true ->
   Qltb (next_draw r2) (1 # 2) = true ->
   exists once,
     augment_source_channelswap audio r1 = Returned (once, advance r1) /\
     once = np_flip0 audio /\
     augment_source_channelswap once r2 = Returned (audio, advance r2)).
Proof.
  split.
  - intros Hc. unfold augment_source_channelswap.
    by rewrite bool_decide_eq_false_2.
  - intros Hc H1 H2. exists (np_flip0 audio). split; [|split; [done|]].
    + by apply channelswap_swaps.
    + rewrite channelswap_swaps; [|by rewrite np_flip0_channels|done].
      by rewrite np_flip0_involutive.
Qed.

End AugmentationFacts.

Lemma channelswap_noop_or_involution_witness :
  augment_source_channelswap [[1; 2; 3]%Q] (Demo.constant_rng 0)
    = Returned ([[1; 2; 3]%Q], Demo.constant_rng 0) /\
  exists once,
    augment_source_channelswap [[1; 2]%Q; [3; 4]%Q] (Demo.constant_rng 0)
      = Returned (once, advance (Demo.constant_rng 0)) /\
    once = np_flip0 [[1; 2]%Q; [3; 4]%Q] /\
    augment_source_channelswap once (Demo.constant_rng (1 # 4))
      = Returned ([[1; 2]%Q; [3; 4]%Q], advance (Demo.constant_rng (1 # 4))).
Proof.
  split.
  - apply (channelswap_noop_or_involution
             [[1; 2; 3]%Q] (Demo.constant_rng 0) (Demo.constant_rng 0)).
    simpl. lia.
  - apply (channelswap_noop_or_involution
             [[1; 2]%Q; [3; 4]%Q] (Demo.constant_rng 0)
             (Demo.constant_rng (1 # 4))); reflexivity.
Defined.

(** ** Mixing *)

Section MixFacts.
Context {A : Type} `{SampleOps A}.

Lemma sample_at_tensor_add (x y : waveform A) c t :
  sample_at (tensor_add x y) c t =
  match sample_at x c t, sample_at y c t with
  | Some a, Some b => Some (sample_add a b)
  | _, _ => None
  end.
Proof. apply sample_at_zip_with. Qed.

Lemma sample_at_tensor_sub (x y : waveform A) c t :
  sample_at (tensor_sub x y) c t = samplewise_diff x y c t.
Proof. apply sample_at_zip_with. Qed.

(** [stems.sum(0)] is the sample-wise sum. *)
Lemma sum_dim0_samplewise (stems : list (waveform A)) c t :
  sample_at (sum_dim0 stems) c t = samplewise_sum stems c t.
Proof.
  destruct stems as [|w rest]; [done|]. simpl.
  revert w. induction rest as [|v rest IH]; intros w; simpl; [done|].
  rewrite IH. by rewrite sample_at_tensor_add.
Qed.

Lemma Forall2_last {X Y} (R : X -> Y -> Prop) (l : list X) (k : list Y) x :
  Forall2 R l k -> last l = Some x -> exists y, last k = Some y /\ R x y.
Proof.
  intros HR Hl. rewrite last_lookup in Hl.
  destruct (Forall2_lookup_l _ _ _ _ _ HR Hl) as (y & Hy & Hxy).
  exists y. split; [|done].
  rewrite last_lookup. by rewrite <- (Forall2_length _ _ _ HR).
Qed.

Lemma last_elem_of {X} (l : list X) x : last l = Some x -> x ∈ l.
Proof. rewrite last_lookup. apply list_elem_of_lookup_2. Qed.

End MixFacts.

(** ** Random choices *)


Lemma random_choice_elem {X} (seq : list X) (r r' : rng) (x : X) :
  random_choice seq r = Returned (x, r') -> x ∈ seq.
Proof.
  unfold random_choice. intros Hk. repeat py_step.
  by eapply py_getitem_elem.
Qed.

Lemma random_choices_returned {X} (pools : list (list X)) (r r' : rng) xs :
  random_choices pools r = Returned (xs, r') ->
  Forall2 (fun pool x => x ∈ pool) pools xs.
Proof.
  revert r xs. induction pools as [|pool pools IH]; simpl; intros r xs Hk.
  - py_step. constructor.
  - repeat py_step. constructor; [by eapply random_choice_elem|eauto].
Qed.

Lemma random_product_once {X} (pools : list (list X)) :
  random_product pools 1 = random_choices pools.
Proof. unfold random_product. simpl. by rewrite app_nil_r. Qed.

Lemma random_product_returned {X} (pools : list (list X)) (r r' : rng) xs :
  random_product pools 1 r = Returned (xs, r') ->
  Forall2 (fun pool x => x ∈ pool) pools xs.
Proof. rewrite random_product_once. apply random_choices_returned. Qed.

(** ** What a returned example is made of *)

Section FacadeFacts.
Context {A : Type} `{SampleOps A}.
Variable E : env A.

(** [UnalignedSources]: one file per pool, each loaded whole-window,
    stacked and summed; the target is the last file, loaded again. *)
Lemma UnalignedSources_returned (self : UnalignedSources) index r x y r' :
  UnalignedSources_getitem E self index r = Returned ((x, y), r') ->
  exists input_tuple stems,
    Forall2 (fun pool fp => fp ∈ pool) (us_sources self) input_tuple /\
    Forall2 (fun fp stem => UnalignedSources_load_audio E self fp = Returned stem)
            input_tuple stems /\
    torch_stack stems = Returned stems /\
    x = sum_dim0 stems /\
    last stems = Some y.
Proof.
  unfold UnalignedSources_getitem. intros Hk. repeat py_step.
  inversion Hk; subst. clear Hk.
  rename x0 into input_tuple, x1 into loaded, x2 into stems.
  pose proof (torch_stack_returned _ _ Hx1) as [-> _].
  pose proof (map_outcome_returned _ _ _ Hx0) as Hloaded.
  exists input_tuple, loaded. repeat split; try done.
  - by eapply random_product_returned.
  - apply py_getitem_last in Hx2.
    destruct (Forall2_last _ _ _ _ Hloaded Hx2) as (stem & Hlast & Hstem).
    simpl in Hstem. rewrite Hstem in Hx3. by inversion Hx3; subst.
Qed.

Lemma MixedSources_track_dir_elem (self : MixedSources) index r track_dir r' :
  MixedSources_track_dir self index r = Returned (track_dir, r') ->
  track_dir ∈ ms_tracks self.
Proof.
  unfold MixedSources_track_dir. destruct (ms_augmentations self).
  - apply random_choice_elem.
  - intros Hk. py_step. by eapply py_getitem_elem.
Qed.

Lemma MixedSources_source_done (self : MixedSources) index source r X r' :
  MixedSources_source E self index source r = Returned (Done X, r') ->
  mixed_stem E self source X.
Proof.
  unfold MixedSources_source. intros Hk. py_step.
  destruct (path_exists E _); [|by py_step].
  repeat py_step. destruct x1; [by py_step|]. repeat py_step.
  destruct (audioloader E _ _ _) as [X'|[]|] eqn:Hload; try by py_step.
  py_step. inversion Hk; subst.
  do 2 eexists. split; [|exact Hload].
  by eapply MixedSources_track_dir_elem.
Qed.

Lemma MixedSources_loop_done (self : MixedSources) index sources acc r stems r' :
  MixedSources_loop E self index sources acc r = Returned (Done stems, r') ->
  exists new, stems = acc ++ new /\
              Forall2 (mixed_stem E self) sources new.
Proof.
  revert acc r. induction sources as [|source rest IH]; simpl; intros acc r Hk.
  - py_step. inversion Hk; subst. exists []. by rewrite app_nil_r.
  - py_step. destruct x as [X|index']; [|by py_step].
    apply IH in Hk as (new & -> & Hnew).
    exists (X :: new). rewrite <- app_assoc. split; [done|].
    constructor; [by eapply MixedSources_source_done|done].
Qed.

(** [MixedSources]: one stem per source, interferers first and the
    target last, stacked and summed; the target is the last stem. *)
Lemma MixedSources_returned (self : MixedSources) fuel index r x y r' :
  MixedSources_getitem E fuel self index r = Returned ((x, y), r') ->
  exists stems,
    Forall2 (mixed_stem E self)
            (ms_interferers self ++ [ms_target_file self]) stems /\
    torch_stack stems = Returned stems /\
    x = sum_dim0 stems /\
    last stems = Some y.
Proof.
  unfold MixedSources_getitem.
  intros (index' & r0 & Hk)%retrying_returned.
  unfold MixedSources_body in Hk. py_step.
  destruct x0 as [audio_sources|]; [|by py_step]. repeat py_step.
  inversion Hk; subst. clear Hk.
  pose proof (torch_stack_returned _ _ Hx0) as [-> _].
  apply MixedSources_loop_done in Hx as (new & -> & Hnew). simpl in *.
  exists new. repeat split; try done. by apply py_getitem_last.
Qed.

End FacadeFacts.

(** ** The mixture is the sum of the stems *)

Section MixtureTheorems.
Context {A : Type} `{SampleOps A}.
Variable E : env A.

(** C7. In every example [UnalignedSources] or [MixedSources] returns,
    each sample of the input is the sum of the samples all loaded
    stems have at that place, and the target is the last of those
    stems: the target is part of the mixture. *)
Theorem mixture_is_sum_of_loaded_stems :
  (forall (self : UnalignedSources) index r x y r',
      UnalignedSources_getitem E self index r = Returned ((x, y), r') ->
      exists input_tuple stems,
        Forall2 (fun pool fp => fp ∈ pool) (us_sources self) input_tuple /\
        Forall2 (fun fp stem =>
                   UnalignedSources_load_audio E self fp = Returned stem)
                input_tuple stems /\
        last stems = Some y /\
        forall c t, sample_at x c t = samplewise_sum stems c t) /\
  (forall (self : MixedSources) fuel index r x y r',
      MixedSources_getitem E fuel self index r = Returned ((x, y), r') ->
      exists stems,
        Forall2 (mixed_stem E self)
                (ms_interferers self ++ [ms_target_file self]) stems /\
        last stems = Some y /\
        forall c t, sample_at x c t = samplewise_sum stems c t).
Proof.
  split.
  - intros self index r x y r' Hk.
    apply UnalignedSources_returned in Hk
      as (input_tuple & stems & Hpools & Hload & _ & -> & Hlast).
    exists input_tuple, stems. repeat split; try done.
    intros c t. apply sum_dim0_samplewise.
  - intros self fuel index r x y r' Hk.
    apply MixedSources_returned in Hk as (stems & Hload & _ & -> & Hlast).
    exists stems. repeat split; try done.
    intros c t. apply sum_dim0_samplewise.
Qed.

(** C10. [UnalignedSources.__getitem__] does not depend on its index:
    from one generator state, any two indices, inside the declared
    length or not, give the same outcome. *)
Theorem unaligned_getitem_ignores_index (self : UnalignedSources)
    (i j : Z) (r : rng) :
  UnalignedSources_getitem E self i r = UnalignedSources_getitem E self j r.
Proof. reflexivity. Qed.

End MixtureTheorems.

Lemma mixture_is_sum_of_loaded_stems_witness :
  (exists r',
      UnalignedSources_getitem Demo.world
        (Demo.unaligned (Some 1%Q) Demo.unaligned_pools) 7
        (Demo.constant_rng (1 # 2))
      = Returned (([[22; 24; 26; 28]%Q], [[21; 22; 23; 24]%Q]), r')) /\
  (exists input_tuple stems,
      Forall2 (fun pool fp => fp ∈ pool) Demo.unaligned_pools input_tuple /\
      Forall2 (fun fp stem =>
                 UnalignedSources_load_audio Demo.world
                   (Demo.unaligned (Some 1%Q) Demo.unaligned_pools) fp
                 = Returned stem)
              input_tuple stems /\
      last stems = Some [[21; 22; 23; 24]%Q] /\
      forall c t, sample_at [[22; 24; 26; 28]%Q] c t
                  = samplewise_sum stems c t) /\
  (exists r',
      MixedSources_getitem Demo.world 1
        (Demo.mixed "train" (Some 1%Q) ["root/train/t1"%string]) 0
        (Demo.spike_rng 3 (1 # 2))
      = Returned (([[6; 8; 10; 12]%Q], [[5; 6; 7; 8]%Q]), r')) /\
  (exists stems,
      Forall2 (mixed_stem Demo.world
                 (Demo.mixed "train" (Some 1%Q) ["root/train/t1"%string]))
              ["bass.wav"; "vocals.wav"]%string stems /\
      last stems = Some [[5; 6; 7; 8]%Q] /\
      forall c t, sample_at [[6; 8; 10; 12]%Q] c t
                  = samplewise_sum stems c t).
Proof.
  split; [eexists; vm_compute; reflexivity|].
  split.
  - eapply (proj1 (mixture_is_sum_of_loaded_stems Demo.world)
              (Demo.unaligned (Some 1%Q) Demo.unaligned_pools) 7
              (Demo.constant_rng (1 # 2))).
    vm_compute. reflexivity.
  - split; [eexists; vm_compute; reflexivity|].
    eapply (proj2 (mixture_is_sum_of_loaded_stems Demo.world)
              (Demo.mixed "train" (Some 1%Q) ["root/train/t1"%string]) 1%nat 0
              (Demo.spike_rng 3 (1 # 2))).
    vm_compute. reflexivity.
Defined.

(** ** The curated corpus *)

Lemma py_getitem_of_nat {X} (l : list X) (i : nat) x :
  py_getitem l (Z.of_nat i) = Returned x -> l !! i = Some x.
Proof.
  intros (p & Hp & Hl)%py_getitem_lookup. unfold py_position in Hp.
  destruct (Z.of_nat i <? 0) eqn:Hneg; [apply Z.ltb_lt in Hneg; lia|].
  destruct (_ && _); [|discriminate]. inversion Hp; subst.
  by rewrite Nat2Z.id in Hl.
Qed.

Lemma py_list_index_lookup (l : list string) x i :
  py_list_index l x = Returned i -> l !! i = Some x.
Proof.
  revert i. induction l as [|y l IH]; simpl; intros i Hk; [discriminate|].
  destruct (String.eqb y x) eqn:Hyx.
  - inversion Hk; subst. apply String.eqb_eq in Hyx. by subst.
  - py_step. inversion Hk; subst. simpl. auto.
Qed.

Section CorpusFacts.
Context {A : Type} `{SampleOps A}.

Lemma with_generator_returned {R} (m : py rng R) (s s' : corpus_state A) x :
  with_generator m s = Returned (x, s') ->
  exists g', m (generator s) = Returned (x, g') /\
             s' = {| generator := g'; mus_tracks := mus_tracks s |}.
Proof.
  unfold with_generator.
  destruct (m (generator s)) as [[x0 g']| |]; intros Hk; try discriminate.
  inversion Hk; subst. eauto.
Qed.

Lemma get_track_returned (ref : nat) (s s' : corpus_state A) t :
  get_track ref s = Returned (t, s') -> mus_tracks s !! ref = Some t /\ s' = s.
Proof.
  unfold get_track. destruct (mus_tracks s !! ref); intros Hk; [|discriminate].
  by inversion Hk.
Qed.

(** Reading a stem leaves the corpus as it is. *)
Lemma track_source_audio_pure (ref : nat) source (s s' : corpus_state A) raw :
  track_source_audio ref source s = Returned (raw, s') -> s' = s.
Proof.
  unfold track_source_audio. intros Hk. py_step.
  apply get_track_returned in Hx as [_ ->].
  destruct (tr_sources x !! source); [|by py_step]. py_step. done.
Qed.

Lemma track_target_audio_pure (ref : nat) target (s s' : corpus_state A) raw :
  track_target_audio ref target s = Returned (raw, s') -> s' = s.
Proof.
  unfold track_target_audio. intros Hk. py_step.
  apply get_track_returned in Hx as [_ ->].
  destruct (tr_targets x !! target); [|by py_step]. py_step. done.
Qed.

Lemma track_audio_pure (ref : nat) (s s' : corpus_state A) raw :
  track_audio ref s = Returned (raw, s') -> s' = s.
Proof.
  unfold track_audio. intros Hk. py_step.
  apply get_track_returned in Hx as [_ ->]. py_step. done.
Qed.

(** The training loop loads one stem per native source, in order, and
    remembers a target position only if the target is a native source. *)
Lemma MUSDBDataset_loop_returned (self : MUSDBDataset A) k sources track
    target_ind acc s target_ind' stems s' :
  MUSDBDataset_loop self k sources track target_ind acc s
    = Returned ((target_ind', stems), s') ->
  exists new,
    stems = acc ++ new /\
    Forall2 (corpus_stem self) sources new /\
    (md_target self ∉ sources -> target_ind' = target_ind).
Proof.
  revert k track target_ind acc s.
  induction sources as [|source rest IH]; simpl;
    intros k track target_ind acc s Hk.
  - py_step. inversion Hk; subst. exists []. rewrite app_nil_r.
    split; [done|]. split; [constructor|done].
  - repeat py_step.
    apply IH in Hk as (new & -> & Hnew & Hind).
    pose proof (track_source_audio_pure _ _ _ _ _ Hx5) as ->.
    apply with_generator_returned in Hx6 as (g' & Haug & _).
    eexists (_ :: new). rewrite <- app_assoc. split; [done|]. split.
    + constructor; [|done]. do 5 eexists. split; [exact Hx5|exact Haug].
    + intros Hnot. rewrite Hind by set_solver.
      destruct (String.eqb source (md_target self)) eqn:Heq; [|done].
      apply String.eqb_eq in Heq. set_solver.
Qed.

(** A training example of [MUSDBDataset]: the stems of all native
    sources, stacked and summed; the target is the stem at the
    remembered position, or the mix minus the stem at the position of
    ["vocals"]. *)
Lemma MUSDBDataset_train_returned (self : MUSDBDataset A) index s x y s' :
  md_split self = "train"%string ->
  MUSDBDataset_getitem self index s = Returned ((x, y), s') ->
  exists stems target_ind,
    Forall2 (corpus_stem self) (md_setup_sources self) stems /\
    torch_stack stems = Returned stems /\
    x = sum_dim0 stems /\
    (md_target self ∉ md_setup_sources self -> target_ind = None) /\
    match target_ind with
    | Some i => stems !! i = Some y
    | None =>
        exists vocind vocals,
          md_setup_sources self !! vocind = Some "vocals"%string /\
          stems !! vocind = Some vocals /\
          y = tensor_sub x vocals
    end.
Proof.
  intros Hsplit. unfold MUSDBDataset_getitem. rewrite Hsplit. simpl.
  intros Hk. do 3 py_step.
  destruct x2 as [target_ind audio_sources]. py_step.
  apply lift_returned in Hx2 as [Hstack ->].
  pose proof (torch_stack_returned _ _ Hstack) as [-> _].
  apply MUSDBDataset_loop_returned in Hx1 as (new & -> & Hnew & Hind).
  simpl in *. exists new, target_ind. repeat split; try done.
  - destruct target_ind as [i|]; repeat py_step; by inversion Hk.
  - destruct target_ind as [i|].
    + repeat py_step. inversion Hk; subst. by apply py_getitem_of_nat.
    + repeat py_step. inversion Hk; subst.
      do 2 eexists. split; [by eapply py_list_index_lookup|].
      split; [by eapply py_getitem_of_nat|done].
Qed.

End CorpusFacts.

Section CorpusTheorems.
Context {A : Type} `{SampleOps A}.

(** C8. In the training split of [MUSDBDataset], when the target name
    is not one of the corpus's native source names, every returned
    target is the returned mixture minus the loaded vocals stem, sample
    by sample; the mixture is the sum of the loaded stems. *)
Theorem accompaniment_is_mix_minus_vocals (self : MUSDBDataset A)
    (index : Z) (s s' : corpus_state A) (x y : waveform A) :
  md_split self = "train"%string ->
  md_target self ∉ md_setup_sources self ->
  MUSDBDataset_getitem self index s = Returned ((x, y), s') ->
  exists stems vocind vocals,
    Forall2 (corpus_stem self) (md_setup_sources self) stems /\
    (forall c t, sample_at x c t = samplewise_sum stems c t) /\
    md_setup_sources self !! vocind = Some "vocals"%string /\
    stems !! vocind = Some vocals /\
    shape vocals = shape x /\
    shape y = shape x /\
    forall c t, sample_at y c t = samplewise_diff x vocals c t.
Proof.
  intros Hsplit Hnot Hk.
  apply MUSDBDataset_train_returned in Hk
    as (stems & target_ind & Hstems & Hstack & -> & Hind & Hy); [|done].
  rewrite (Hind Hnot) in Hy.
  destruct Hy as (vocind & vocals & Hname & Hvoc & ->).
  assert (shape vocals = shape (sum_dim0 stems)) as Hshape.
  { eapply stacked_shape; [exact Hstack|].
    by eapply list_elem_of_lookup_2. }
  exists stems, vocind, vocals. repeat split; try done.
  - intros c t. apply sum_dim0_samplewise.
  - by apply shape_tensor_sub.
  - intros c t. apply sample_at_tensor_sub.
Qed.

End CorpusTheorems.

Lemma accompaniment_is_mix_minus_vocals_witness :
  (exists s',
      MUSDBDataset_getitem (Demo.musdb "accompaniment" "train" (Some 1%Q) true)
        0 (Demo.corpus (Demo.spike_rng 3 (1 # 2)))
      = Returned (([[56; 58; 60; 62]%Q], [[1; 2; 3; 4]%Q]), s')) /\
  (exists stems vocind vocals,
      Forall2 (corpus_stem (Demo.musdb "accompaniment" "train" (Some 1%Q) true))
              ["bass"; "vocals"]%string stems /\
      (forall c t, sample_at [[56; 58; 60; 62]%Q] c t
                   = samplewise_sum stems c t) /\
      ["bass"; "vocals"]%string !! vocind = Some "vocals"%string /\
      stems !! vocind = Some vocals /\
      shape vocals = shape [[56; 58; 60; 62]%Q] /\
      shape [[1; 2; 3; 4]%Q] = shape [[56; 58; 60; 62]%Q] /\
      forall c t, sample_at [[1; 2; 3; 4]%Q] c t
                  = samplewise_diff [[56; 58; 60; 62]%Q] vocals c t).
Proof.
  split; [eexists; vm_compute; reflexivity|].
  eapply (accompaniment_is_mix_minus_vocals
            (Demo.musdb "accompaniment" "train" (Some 1%Q) true) 0
            (Demo.corpus (Demo.spike_rng 3 (1 # 2)))).
  - reflexivity.
  - simpl. intros Hin.
    repeat (apply elem_of_cons in Hin as [Hin|Hin]; [discriminate|]).
    by apply elem_of_nil in Hin.
  - vm_compute. reflexivity.
Defined.

(** ** The audio accessor *)

Lemma py_int_nonneg (q : Q) : (0 <= q)%Q -> 0 <= py_int q.
Proof.
  unfold py_int, Qle. simpl. intros Hq. apply Z.quot_pos; lia.
Qed.

Lemma py_int_floor (q : Q) : (0 <= q)%Q -> py_int q = Qfloor q.
Proof.
  unfold py_int, Qle. destruct q as [n d]. simpl. intros Hq.
  apply Z.quot_div_nonneg; lia.
Qed.

Lemma scaled_nonneg (d : Q) (rate : positive) :
  (0 <= d)%Q -> (0 <= d * inject_Z (Z.pos rate))%Q.
Proof.
  intros Hd. apply Qmult_le_0_compat; [done|].
  unfold Qle. simpl. lia.
Qed.

Lemma py_int_mul_nonneg (x : Q) (rate : positive) :
  (0 <= x)%Q -> 0 <= py_int_mul x (Z.pos rate).
Proof.
  intros Hx. by apply py_int_nonneg, fl_nonneg, scaled_nonneg.
Qed.

Lemma py_slice_length_le {X} (l : list X) (s k : Z) :
  0 <= k -> Z.of_nat (length (py_slice l s (Some (s + k)))) <= k.
Proof.
  intros Hk. unfold py_slice. rewrite length_take, length_drop.
  destruct (Z.ltb_spec s 0), (Z.ltb_spec (s + k) 0); lia.
Qed.

Lemma py_slice_length_exact {X} (l : list X) (s k : Z) :
  0 <= s -> 0 <= k -> s + k <= Z.of_nat (length l) ->
  Z.of_nat (length (py_slice l s (Some (s + k)))) = k.
Proof.
  intros Hs Hk Hl. unfold py_slice. rewrite length_take, length_drop.
  destruct (Z.ltb_spec s 0), (Z.ltb_spec (s + k) 0); lia.
Qed.

Lemma shape_map_snd {X} (f : list X -> list X) (w : waveform X) :
  snd (shape (map f w)) =
  match w with [] => 0%nat | ch :: _ => length (f ch) end.
Proof. by destruct w. Qed.

Lemma shape_map_fst {X} (f : list X -> list X) (w : waveform X) :
  fst (shape (map f w)) = fst (shape w).
Proof. unfold shape. simpl. apply length_map. Qed.

Section AccessorFacts.
Context {A : Type}.
Variable E : env A.

(** A probe answers for a file that is there and opens, with that
    file's rate and a duration of frames over rate. *)
Lemma audioinfo_returned (path : string) (i : info) :
  audioinfo E path = Returned i ->
  exists f, fs_files E !! path = Some f /\
            samplerate i = Z.pos (af_rate f) /\
            duration i = probed_duration f /\
            af_opens f = true.
Proof.
  unfold audioinfo, torchaudio_info, torchaudio_info_raw,
    soundfile_info, sf_info, probed_duration.
  destruct (torchaudio_loaded E); intros Hk; py_step;
    destruct (fs_files E !! path) as [f|] eqn:Hf; try discriminate;
    destruct (af_opens f) eqn:Hopens; try discriminate;
    inversion Hx; subst; clear Hx; exists f.
  - destruct (Z.eqb_spec (nchannels f) 0) as [|Hc]; [discriminate|].
    simpl in Hk. inversion Hk; subst. simpl.
    by rewrite Z.div_mul by done.
  - inversion Hk; subst. by simpl.
Qed.

(** What a windowed read returns: every channel of the file cut to
    the window. *)
Lemma audioloader_returned (path : string) (start d : Q) (w : waveform A)
    (i : info) :
  (0 < d)%Q ->
  audioinfo E path = Returned i ->
  audioloader E path start (Some d) = Returned w ->
  exists f, fs_files E !! path = Some f /\
    let first := py_int_mul start (samplerate i) in
    let count := py_int_mul d (samplerate i) in
    0 <= count /\
    w = map (fun ch =>
               if torchaudio_loaded E
               then take (Z.to_nat count) (drop (Z.to_nat first) ch)
               else py_slice ch first (Some (first + count)))
            (af_data f).
Proof.
  intros Hd Hinfo Hload.
  destruct (audioinfo_returned _ _ Hinfo) as (f & Hf & Hrate & _).
  exists f. split; [done|]. simpl. split.
  { rewrite Hrate. by apply py_int_mul_nonneg, Qlt_le_weak. }
  unfold audioloader, audioinfo in *.
  destruct (torchaudio_loaded E).
  - unfold torchaudio_loader in Hload. rewrite Hinfo in Hload.
    simpl in Hload. unfold torchaudio_load in Hload. rewrite Hf in Hload.
    destruct (af_opens f && af_decodable f); [|discriminate].
    by inversion Hload.
  - unfold soundfile_loader in Hload. rewrite Hinfo in Hload.
    simpl in Hload.
    destruct (Qeq_bool d 0) eqn:Hz.
    { apply Qeq_bool_iff in Hz. rewrite Hz in Hd.
      by apply Qlt_irrefl in Hd. }
    unfold sf_read in Hload. rewrite Hf in Hload.
    destruct (af_opens f && af_decodable f); [|discriminate].
    by inversion Hload.
Qed.

(** A window of [d] seconds never has more than [int(d * rate)]
    samples. *)
Lemma audioloader_at_most (path : string) (start d : Q) (w : waveform A)
    (i : info) :
  (0 < d)%Q ->
  audioinfo E path = Returned i ->
  audioloader E path start (Some d) = Returned w ->
  Z.of_nat (snd (shape w)) <= py_int_mul d (samplerate i).
Proof.
  intros Hd Hinfo Hload.
  destruct (audioloader_returned _ _ _ _ _ Hd Hinfo Hload)
    as (f & Hf & Hcount & ->).
  rewrite shape_map_snd. destruct (af_data f) as [|ch rest]; [done|].
  destruct (torchaudio_loaded E).
  - rewrite length_take. lia.
  - by apply py_slice_length_le.
Qed.

(** The channel count of a windowed read is the file's. *)
Lemma audioloader_channels (path : string) (start d : Q) (w : waveform A)
    (i : info) :
  (0 < d)%Q ->
  audioinfo E path = Returned i ->
  audioloader E path start (Some d) = Returned w ->
  exists f, fs_files E !! path = Some f /\
            Z.of_nat (fst (shape w)) = nchannels f.
Proof.
  intros Hd Hinfo Hload.
  destruct (audioloader_returned _ _ _ _ _ Hd Hinfo Hload)
    as (f & Hf & Hcount & ->).
  exists f. split; [done|]. by rewrite shape_map_fst.
Qed.

End AccessorFacts.

(** ** AlignedSources *)

Section AlignedFacts.
Context {A : Type} `{SampleOps A}.
Variable E : env A.

(** A pass that yields the example: the pair at that index, probed,
    one start, both files loaded from that start, neither too short. *)
Lemma AlignedSources_body_done (self : AlignedSources) index r X Y r' :
  AlignedSources_body E self index r = Returned (Done (X, Y), r') ->
  exists input_path output_path input_info output_info start,
    py_getitem (as_tuple_paths self) index
      = Returned (input_path, output_path) /\
    audioinfo E input_path = Returned input_info /\
    audioinfo E output_path = Returned output_info /\
    AlignedSources_start self input_info output_info r
      = Returned (Some start, r') /\
    audioloader E input_path start (as_seq_duration self) = Returned X /\
    audioloader E output_path start (as_seq_duration self) = Returned Y /\
    AlignedSources_too_short self input_info output_info X Y
      = Returned false.
Proof.
  unfold AlignedSources_body. intros Hk. py_step.
  destruct x as [input_path output_path]. repeat py_step.
  destruct x1 as [start|]; [|by py_step].
  destruct (audioloader E input_path _ _) as [X'|[]|] eqn:HX; try by py_step.
  destruct (audioloader E output_path _ _) as [Y'|[]|] eqn:HY; try by py_step.
  repeat py_step. destruct x1; py_step; [discriminate|].
  inversion Hk; subst.
  exists input_path, output_path, x, x0, start. by repeat split.
Qed.

(** The start of a pass outside the training split is 0, and no draw
    is made. *)
Lemma AlignedSources_start_fixed (self : AlignedSources) ii oi r :
  as_random_excerpt self = false ->
  AlignedSources_start self ii oi r = Returned (Some 0%Q, r).
Proof. intros Hr. unfold AlignedSources_start. by rewrite Hr. Qed.

Lemma AlignedSources_too_short_false (self : AlignedSources) ii oi
    (X Y : waveform A) d :
  as_seq_duration self = Some d ->
  AlignedSources_too_short self ii oi X Y = Returned false ->
  py_int_mul d (samplerate ii) <= Z.of_nat (snd (shape X)) /\
  py_int_mul d (samplerate oi) <= Z.of_nat (snd (shape Y)).
Proof.
  intros Hd. unfold AlignedSources_too_short, py_int_mul_opt, obind.
  rewrite Hd.
  destruct (Z.ltb_spec (Z.of_nat (snd (shape X)))
              (py_int_mul d (samplerate ii)));
    intros Hk; [discriminate|].
  inversion Hk as [Hy]. apply Z.ltb_ge in Hy. done.
Qed.

Lemma AlignedSources_too_short_true (self : AlignedSources) ii oi
    (X Y : waveform A) d :
  as_seq_duration self = Some d ->
  (Z.of_nat (snd (shape X)) < py_int_mul d (samplerate ii) \/
   Z.of_nat (snd (shape Y)) < py_int_mul d (samplerate oi)) ->
  AlignedSources_too_short self ii oi X Y = Returned true.
Proof.
  intros Hd Hshort. unfold AlignedSources_too_short, py_int_mul_opt, obind.
  rewrite Hd.
  destruct (Z.ltb_spec (Z.of_nat (snd (shape X)))
              (py_int_mul d (samplerate ii))); [done|].
  f_equal. apply Z.ltb_lt. lia.
Qed.

(** A pair that loads but comes out short ends the pass in a retry at
    the neighbouring index. *)
Lemma AlignedSources_short_retries (self : AlignedSources) index r r1 d
    input_path output_path input_info output_info start X Y :
  as_seq_duration self = Some d ->
  py_getitem (as_tuple_paths self) index
    = Returned (input_path, output_path) ->
  audioinfo E input_path = Returned input_info ->
  audioinfo E output_path = Returned output_info ->
  AlignedSources_start self input_info output_info r
    = Returned (Some start, r1) ->
  audioloader E input_path start (Some d) = Returned X ->
  audioloader E output_path start (Some d) = Returned Y ->
  (Z.of_nat (snd (shape X)) < py_int_mul d (samplerate input_info) \/
   Z.of_nat (snd (shape Y)) < py_int_mul d (samplerate output_info)) ->
  AlignedSources_body E self index r = Returned (Retry (neighbour index), r1).
Proof.
  intros Hd Hpaths Hii Hoi Hstart HX HY Hshort.
  unfold AlignedSources_body, bind, lift.
  rewrite Hpaths. simpl. rewrite Hii. simpl. rewrite Hoi. simpl.
  rewrite Hstart. rewrite Hd, HX, HY.
  erewrite AlignedSources_too_short_true by done. done.
Qed.

(** With a positive [seq_duration], what [AlignedSources] returns was
    loaded from one pair of the index, both files from one start, and
    each waveform has exactly [int(seq_duration * rate)] samples, at
    the rate of its own file. *)
Lemma AlignedSources_returned (self : AlignedSources) fuel index r X Y r' d :
  as_seq_duration self = Some d -> (0 < d)%Q ->
  AlignedSources_getitem E fuel self index r = Returned ((X, Y), r') ->
  exists j r0 input_path output_path input_info output_info start,
    py_getitem (as_tuple_paths self) j = Returned (input_path, output_path) /\
    audioinfo E input_path = Returned input_info /\
    audioinfo E output_path = Returned output_info /\
    AlignedSources_start self input_info output_info r0
      = Returned (Some start, r') /\
    audioloader E input_path start (Some d) = Returned X /\
    audioloader E output_path start (Some d) = Returned Y /\
    Z.of_nat (snd (shape X)) = py_int_mul d (samplerate input_info) /\
    Z.of_nat (snd (shape Y)) = py_int_mul d (samplerate output_info).
Proof.
  intros Hd Hpos. unfold AlignedSources_getitem.
  intros (j & r0 & Hk)%retrying_returned.
  apply AlignedSources_body_done in Hk
    as (ip & op & ii & oi & start & Hpaths & Hii & Hoi & Hstart & HX & HY & Hs).
  rewrite Hd in HX, HY.
  destruct (AlignedSources_too_short_false _ _ _ _ _ _ Hd Hs) as [HnX HnY].
  pose proof (audioloader_at_most _ _ _ _ _ _ Hpos Hii HX).
  pose proof (audioloader_at_most _ _ _ _ _ _ Hpos Hoi HY).
  exists j, r0, ip, op, ii, oi, start. repeat split; try done; lia.
Qed.

End AlignedFacts.

(** ** Excerpt windows *)

Lemma next_draw_range (r : rng) : (0 <= next_draw r)%Q /\ (next_draw r < 1)%Q.
Proof.
  unfold next_draw, unit_frac. set (q := tape r (pos r)).
  pose proof (Qfloor_le q) as Hlo. pose proof (Qlt_floor q) as Hhi.
  rewrite inject_Z_plus in Hhi. change (inject_Z 1) with 1%Q in Hhi.
  split; lra.
Qed.


(** [int] of a float that is not negative is at most the float. *)
Lemma py_int_le (q : Q) : (0 <= q)%Q -> (inject_Z (py_int q) <= q)%Q.
Proof. intros Hq. rewrite py_int_floor by done. apply Qfloor_le. Qed.

(** A window that ends before the probed duration does, in seconds,
    ends before the file does, in frames: the roundings of the
    division and of the two products add up to less than a frame. *)
Lemma window_fits (start d : Q) (frames : Z) (rate : positive) :
  (0 <= start)%Q -> (0 <= d)%Q -> 0 <= frames < 2 ^ 51 ->
  (start + d <= py_fdiv (inject_Z frames) (inject_Z (Z.pos rate)))%Q ->
  py_int_mul start (Z.pos rate) + py_int_mul d (Z.pos rate) <= frames.
Proof.
  intros Hs Hd [Hn0 Hn] Hfit. unfold py_int_mul, py_fmul, py_fdiv in *.
  set (R := inject_Z (Z.pos rate)) in *.
  assert (0 < R)%Q as HR by (unfold R, Qlt; simpl; lia).
  set (N := inject_Z frames) in *.
  assert (0 <= N)%Q as HN0
    by (unfold N; change 0%Q with (inject_Z 0); by rewrite <- Zle_Qle).
  assert (N <= inject_Z (2 ^ 51))%Q as HN
    by (unfold N; rewrite <- Zle_Qle; lia).
  set (eps := (1 # 2 ^ 53)%Q).
  assert (0 < eps)%Q as He0 by reflexivity.
  assert (inject_Z (2 ^ 51) * eps == 1 # 4)%Q as He by reflexivity.
  assert (eps <= 1)%Q as He1 by (unfold eps, Qle; simpl; lia).
  assert (0 <= start * R)%Q as Ha by (by apply scaled_nonneg).
  assert (0 <= d * R)%Q as Hb by (by apply scaled_nonneg).
  assert (0 <= N / R)%Q as Hq.
  { apply Qle_shift_div_l; [done|]. lra. }
  pose proof (fl_upper _ Ha) as Hfa. pose proof (fl_upper _ Hb) as Hfb.
  pose proof (fl_upper _ Hq) as Hfq.
  pose proof (py_int_le _ (fl_nonneg _ Ha)) as Hia.
  pose proof (py_int_le _ (fl_nonneg _ Hb)) as Hib.
  fold eps in Hfa, Hfb, Hfq.
  assert (N / R * R == N)%Q as Hback by (field; lra).
  set (D := fl (N / R)) in *.
  assert ((start + d) * R <= N + N * eps)%Q as Hsum.
  { apply (Qmult_le_compat_r _ _ R) in Hfit; [|lra].
    apply (Qmult_le_compat_r _ _ R) in Hfq; [|lra].
    assert ((N / R + N / R * eps) * R == N + N * eps)%Q as Heq
      by (field; lra).
    rewrite Heq in Hfq. lra. }
  assert (N * eps <= 1 # 4)%Q as Hne.
  { rewrite <- He. apply Qmult_le_compat_r; lra. }
  apply Z.lt_succ_r. rewrite Zlt_Qlt. unfold Z.succ.
  rewrite !inject_Z_plus. fold N. change (inject_Z 1) with 1%Q.
  set (ia := inject_Z (py_int (fl (start * R)))) in *.
  set (ib := inject_Z (py_int (fl (d * R)))) in *.
  set (a := (start * R)%Q) in *. set (b := (d * R)%Q) in *.
  assert (a + b <= N + N * eps)%Q as Hab by (unfold a, b; lra).
  assert (ia + ib <= (a + b) + (a + b) * eps)%Q as Htot by lra.
  assert ((a + b) * eps <= (N + N * eps) * eps)%Q as Hmul
    by (apply Qmult_le_compat_r; lra).
  assert (N * eps * eps <= (1 # 4) * eps)%Q as Hsq
    by (apply Qmult_le_compat_r; lra).
  lra.
Qed.

(** [int(duration * rate)] of a probed duration is the number of
    frames or one less. *)
Lemma probed_samples_close (n : Z) (rate : positive) :
  0 <= n < 2 ^ 51 ->
  n - 1
  <= py_int_mul (py_fdiv (inject_Z n) (inject_Z (Z.pos rate))) (Z.pos rate)
  <= n.
Proof.
  intros [Hn0 Hn].
  set (R := inject_Z (Z.pos rate)).
  assert (0 < R)%Q as HR by (unfold R, Qlt; simpl; lia).
  set (N := inject_Z n).
  assert (0 <= N)%Q as HN0
    by (unfold N; change 0%Q with (inject_Z 0); by rewrite <- Zle_Qle).
  assert (0 <= N / R)%Q as Hq by (apply Qle_shift_div_l; [done|lra]).
  pose proof (fl_nonneg _ Hq) as HD0.
  split.
  - unfold py_int_mul, py_fmul, py_fdiv. fold R N.
    set (D := fl (N / R)) in *.
    assert (0 <= D * R)%Q as Hprod by (apply Qmult_le_0_compat; lra).
    pose proof (fl_lower _ Hq) as HD. fold D in HD.
    pose proof (fl_lower _ Hprod) as HP.
    pose proof (fl_nonneg _ Hprod) as HP0.
    set (eps := (1 # 2 ^ 53)%Q) in *.
    assert (0 < eps)%Q as He0 by reflexivity.
    assert (inject_Z (2 ^ 51) * eps == 1 # 4)%Q as He by reflexivity.
    assert (eps <= 1)%Q as He1 by (unfold eps, Qle; simpl; lia).
    assert (N <= inject_Z (2 ^ 51))%Q as HN
      by (unfold N; rewrite <- Zle_Qle; lia).
    assert (N * eps <= 1 # 4)%Q as Hne
      by (rewrite <- He; apply Qmult_le_compat_r; lra).
    assert (N / R * R == N)%Q as Hback by (field; lra).
    assert (N - N * eps <= D * R)%Q as HDR.
    { apply (Qmult_le_compat_r _ _ R) in HD; [|lra].
      assert ((N / R - N / R * eps) * R == N - N * eps)%Q as Heq
        by (field; lra).
      by rewrite Heq in HD. }
    assert (D * R * eps <= (N + N * eps) * eps)%Q as Hup.
    { apply Qmult_le_compat_r; [|lra].
      pose proof (fl_upper _ Hq) as HDu. fold D eps in HDu.
      apply (Qmult_le_compat_r _ _ R) in HDu; [|lra].
      assert ((N / R + N / R * eps) * R == N + N * eps)%Q as Heq
        by (field; lra).
      by rewrite Heq in HDu. }
    assert (N * eps * eps <= (1 # 4) * eps)%Q as Hsq
      by (apply Qmult_le_compat_r; lra).
    rewrite py_int_floor by done.
    pose proof (Qlt_floor (fl (D * R))) as Hfloor.
    rewrite inject_Z_plus in Hfloor. change (inject_Z 1) with 1%Q in Hfloor.
    assert (inject_Z (n - 1) < inject_Z (Qfloor (fl (D * R)) + 1))%Q as Hlt.
    { unfold Z.sub. rewrite !inject_Z_plus, inject_Z_opp. fold N.
      change (inject_Z 1) with 1%Q. lra. }
    rewrite <- Zlt_Qlt in Hlt. lia.
  - pose proof (window_fits 0 (py_fdiv (inject_Z n) R) n rate) as Hfit.
    change (py_int_mul 0 (Z.pos rate)) with 0 in Hfit.
    rewrite Z.add_0_l in Hfit. apply Hfit; [lra|done|done|].
    unfold R. lra.
Qed.

Section WindowFacts.
Context {A : Type} `{SampleOps A}.
Variable E : env A.

(** A window inside the probed duration of a file of fewer than
    [2^51] frames is read in full. *)
Lemma audioloader_exact (path : string) (start d : Q) (w : waveform A)
    (i : info) :
  (0 < d)%Q -> (0 <= start)%Q -> (start + d <= duration i)%Q ->
  (forall f, fs_files E !! path = Some f -> nframes f < 2 ^ 51) ->
  audioinfo E path = Returned i ->
  audioloader E path start (Some d) = Returned w ->
  Z.of_nat (snd (shape w)) = py_int_mul d (samplerate i).
Proof.
  intros Hd Hs Hfit Hsmall Hinfo Hload.
  destruct (audioloader_returned _ _ _ _ _ _ Hd Hinfo Hload)
    as (f & Hf & Hcount & ->).
  destruct (audioinfo_returned _ _ _ Hinfo)
    as (f' & Hf' & Hrate & Hdur & _).
  rewrite Hf in Hf'. inversion Hf'; subst f'. clear Hf'.
  rewrite Hdur in Hfit. unfold probed_duration in Hfit.
  apply window_fits in Hfit;
    [|done|by apply Qlt_le_weak
     |split; [unfold nframes; lia|by apply Hsmall]].
  rewrite Hrate in *.
  assert (0 <= py_int_mul start (Z.pos (af_rate f))) as Hfirst
    by (by apply py_int_mul_nonneg).
  rewrite shape_map_snd. unfold nframes, shape in Hfit. simpl in Hfit.
  destruct (af_data f) as [|ch rest].
  - simpl in *. lia.
  - destruct (torchaudio_loaded E).
    + rewrite length_take, length_drop. lia.
    + by apply py_slice_length_exact.
Qed.

(** The iterations of the loop that produced the stems. *)
Lemma MixedSources_loop_iterations (self : MixedSources) index sources acc
    r stems r' :
  MixedSources_loop E self index sources acc r = Returned (Done stems, r') ->
  exists new, stems = acc ++ new /\
    Forall2 (fun source X =>
               exists r0 r1,
                 MixedSources_source E self index source r0
                 = Returned (Done X, r1))
            sources new.
Proof.
  revert acc r. induction sources as [|source rest IH]; simpl; intros acc r Hk.
  - py_step. inversion Hk; subst. exists []. by rewrite app_nil_r.
  - py_step. destruct x as [X|index']; [|by py_step].
    apply IH in Hk as (new & -> & Hnew).
    exists (X :: new). rewrite <- app_assoc. split; [done|].
    constructor; [eauto|done].
Qed.



End WindowFacts.

Section ShapeFacts.
Context {A : Type} `{SampleOps A}.
Variable E : env A.

(** What [MixedSources] returns, with the iteration that loaded the
    target. *)
Lemma MixedSources_returned_target (self : MixedSources) fuel index r x y r' :
  MixedSources_getitem E fuel self index r = Returned ((x, y), r') ->
  exists stems index' r0 r1,
    torch_stack stems = Returned stems /\
    x = sum_dim0 stems /\
    y ∈ stems /\
    MixedSources_source E self index' (ms_target_file self) r0
      = Returned (Done y, r1).
Proof.
  unfold MixedSources_getitem.
  intros (index' & r0 & Hk)%retrying_returned.
  unfold MixedSources_body in Hk. py_step.
  destruct x0 as [audio_sources|]; [|by py_step]. repeat py_step.
  inversion Hk; subst. clear Hk.
  pose proof (torch_stack_returned _ _ Hx0) as [-> _].
  apply MixedSources_loop_iterations in Hx as (new & -> & Hnew).
  simpl in *. apply py_getitem_last in Hx1.
  assert (last (ms_interferers self ++ [ms_target_file self])
          = Some (ms_target_file self)) as Hlast by apply last_snoc.
  destruct (Forall2_last _ _ _ _ Hnew Hlast) as (y' & Hy' & r2 & r3 & Hsrc).
  rewrite Hx1 in Hy'. inversion Hy'; subst y'.
  exists new, index', r2, r3. repeat split; try done.
  by apply last_elem_of.
Qed.

(** The two excerpts of [AlignedSources] have one shape when the files
    of every indexed pair have one rate and one channel count. *)
Lemma AlignedSources_shapes (self : AlignedSources) fuel index r X Y r' d :
  as_seq_duration self = Some d -> (0 < d)%Q ->
  (forall input_path output_path fi fo,
      (input_path, output_path) ∈ as_tuple_paths self ->
      fs_files E !! input_path = Some fi ->
      fs_files E !! output_path = Some fo ->
      af_rate fi = af_rate fo /\ nchannels fi = nchannels fo) ->
  AlignedSources_getitem E fuel self index r = Returned ((X, Y), r') ->
  shape X = shape Y.
Proof.
  intros Hd Hpos Halike Hk.
  apply (AlignedSources_returned E self fuel index r X Y r' d Hd Hpos) in Hk
    as (j & r0 & ip & op & ii & oi & start
        & Hpaths & Hii & Hoi & _ & HX & HY & HnX & HnY).
  destruct (audioloader_channels _ _ _ _ _ _ Hpos Hii HX) as (fi & Hfi & HcX).
  destruct (audioloader_channels _ _ _ _ _ _ Hpos Hoi HY) as (fo & Hfo & HcY).
  destruct (audioinfo_returned _ _ _ Hii) as (fi' & Hfi' & Hri & _).
  destruct (audioinfo_returned _ _ _ Hoi) as (fo' & Hfo' & Hro & _).
  rewrite Hfi in Hfi'. rewrite Hfo in Hfo'.
  inversion Hfi'; subst fi'. inversion Hfo'; subst fo'.
  apply py_getitem_elem in Hpaths.
  destruct (Halike _ _ _ _ Hpaths Hfi Hfo) as [Hrate Hchan].
  rewrite Hri, Hro, Hrate in *.
  destruct (shape X) as [cX nX], (shape Y) as [cY nY]. simpl in *.
  f_equal; lia.
Qed.

End ShapeFacts.

(** ** Shapes and lengths of what is returned *)

Section ShapeTheorems.
Context {A : Type} `{SampleOps A}.
Variable E : env A.

(** The window of two recordings of one shape has one shape. *)
Lemma shape_excerpt (t : track A) (w1 w2 : waveform A) :
  shape w1 = shape w2 -> shape (excerpt t w1) = shape (excerpt t w2).
Proof.
  unfold excerpt, shape. intros Hshape.
  destruct (chunk_duration t) as [d|]; rewrite !length_map;
    destruct w1 as [|c1 w1], w2 as [|c2 w2]; simpl in *;
    try done; inversion Hshape as [[Hlen Hch]];
    rewrite ?length_take, !length_drop, Hch, ?Hlen; done.
Qed.

(** Outside the training split [MUSDBDataset] returns the mixture and
    the target of one track, inside that track's window. *)
Lemma MUSDBDataset_evaluation_returned (self : MUSDBDataset A) index
    (s s' : corpus_state A) x y :
  String.eqb (md_split self) "train" = false ->
  MUSDBDataset_getitem self index s = Returned ((x, y), s') ->
  exists t recording,
    t ∈ mus_tracks s /\
    tr_targets t !! md_target self = Some recording /\
    x = excerpt t (tr_mixture t) /\
    y = excerpt t recording.
Proof.
  intros Hsplit. unfold MUSDBDataset_getitem. rewrite Hsplit. intros Hk.
  apply bind_returned in Hk as (i & s0 & Hi & Hk).
  apply lift_returned in Hi as [_ ->].
  apply bind_returned in Hk as (ref & s1 & Href & Hk).
  unfold tracks_getitem in Href. apply lift_returned in Href as [_ ->].
  apply bind_returned in Hk as (x0 & s2 & Hx & Hk).
  apply bind_returned in Hk as (y0 & s3 & Hy & Hk).
  apply ret_returned in Hk as [Hk _]. inversion Hk; subst x0 y0.
  pose proof (track_audio_pure _ _ _ _ Hx) as ->.
  unfold track_audio in Hx. apply bind_returned in Hx as (t & s4 & Ht & Hx).
  apply get_track_returned in Ht as [Ht ->].
  apply ret_returned in Hx as [-> _].
  unfold track_target_audio in Hy.
  apply bind_returned in Hy as (t' & s5 & Ht' & Hy).
  apply get_track_returned in Ht' as [Ht' ->].
  rewrite Ht in Ht'. inversion Ht'; subst t'.
  destruct (tr_targets t !! md_target self) as [recording|] eqn:Hrec;
    [|discriminate].
  apply ret_returned in Hy as [-> _].
  exists t, recording. split; [by eapply list_elem_of_lookup_2|done].
Qed.

(** C1 (amended). Input and target have one shape in every example
    that [UnalignedSources], [MixedSources] or [MUSDBDataset] returns;
    outside the training split [MUSDBDataset] hands on the mixture and
    the target of one track as the corpus provider has them, and they
    have one shape when the provider's recordings of a track do.
    [AlignedSources] returns two files' excerpts as loaded: with a
    positive [seq_duration] they have one shape when the files of
    every indexed pair have one sample rate and one channel count. *)
Theorem input_and_target_have_one_shape :
  (forall (self : UnalignedSources) index r x y r',
      UnalignedSources_getitem E self index r = Returned ((x, y), r') ->
      shape x = shape y) /\
  (forall (self : MixedSources) fuel index r x y r',
      MixedSources_getitem E fuel self index r = Returned ((x, y), r') ->
      shape x = shape y) /\
  (forall (self : MUSDBDataset A) index s x y s',
      (String.eqb (md_split self) "train" = false ->
       forall t recording,
         t ∈ mus_tracks s ->
         tr_targets t !! md_target self = Some recording ->
         shape (tr_mixture t) = shape recording) ->
      MUSDBDataset_getitem self index s = Returned ((x, y), s') ->
      shape x = shape y) /\
  (forall (self : AlignedSources) fuel index r X Y r' d,
      as_seq_duration self = Some d -> (0 < d)%Q ->
      (forall input_path output_path fi fo,
          (input_path, output_path) ∈ as_tuple_paths self ->
          fs_files E !! input_path = Some fi ->
          fs_files E !! output_path = Some fo ->
          af_rate fi = af_rate fo /\ nchannels fi = nchannels fo) ->
      AlignedSources_getitem E fuel self index r = Returned ((X, Y), r') ->
      shape X = shape Y).
Proof.
  repeat split.
  - intros self index r x y r' Hk.
    apply UnalignedSources_returned in Hk
      as (input_tuple & stems & _ & _ & Hstack & -> & Hlast).
    symmetry. eapply stacked_shape; [exact Hstack|]. by apply last_elem_of.
  - intros self fuel index r x y r' Hk.
    apply MixedSources_returned in Hk as (stems & _ & Hstack & -> & Hlast).
    symmetry. eapply stacked_shape; [exact Hstack|]. by apply last_elem_of.
  - intros self index s x y s' Hprovider Hk.
    destruct (String.eqb (md_split self) "train") eqn:Hsplit.
    + apply String.eqb_eq in Hsplit.
      apply MUSDBDataset_train_returned in Hk
        as (stems & target_ind & _ & Hstack & -> & _ & Hy); [|done].
      destruct target_ind as [i|].
      * symmetry. eapply stacked_shape; [exact Hstack|].
        by eapply list_elem_of_lookup_2.
      * destruct Hy as (vocind & vocals & _ & Hvoc & ->).
        symmetry. apply shape_tensor_sub.
        eapply stacked_shape; [exact Hstack|].
        by eapply list_elem_of_lookup_2.
    + apply MUSDBDataset_evaluation_returned in Hk
        as (t & recording & Ht & Hrec & -> & ->); [|done].
      apply shape_excerpt. by eapply Hprovider.
  - intros self fuel index r X Y r' d. apply AlignedSources_shapes.
Qed.



End ShapeTheorems.


(** The recordings of the two corpus tracks have one shape. *)
Lemma demo_corpus_shapes (g : rng) (target : string) t recording :
  t ∈ mus_tracks (Demo.corpus g) ->
  tr_targets t !! target = Some recording ->
  shape (tr_mixture t) = shape recording.
Proof.
  intros Ht Hrec. simpl in Ht.
  repeat (apply elem_of_cons in Ht as [->|Ht];
          [apply elem_of_list_to_map_2 in Hrec;
           repeat (apply elem_of_cons in Hrec as [Hrec|Hrec];
                   [by inversion Hrec; subst|]);
           by apply elem_of_nil in Hrec|]).
  by apply elem_of_nil in Ht.
Qed.

Lemma input_and_target_have_one_shape_witness :
  ((exists r',
       UnalignedSources_getitem Demo.world
         (Demo.unaligned (Some 1%Q) Demo.unaligned_pools) 7
         (Demo.constant_rng (1 # 2))
       = Returned (([[22; 24; 26; 28]%Q], [[21; 22; 23; 24]%Q]), r')) /\
   shape [[22; 24; 26; 28]%Q] = shape [[21; 22; 23; 24]%Q]) /\
  ((exists r',
       MixedSources_getitem Demo.world 1
         (Demo.mixed "train" (Some 1%Q) ["root/train/t1"%string]) 0
         (Demo.spike_rng 3 (1 # 2))
       = Returned (([[6; 8; 10; 12]%Q], [[5; 6; 7; 8]%Q]), r')) /\
   shape [[6; 8; 10; 12]%Q] = shape [[5; 6; 7; 8]%Q]) /\
  ((exists s',
       MUSDBDataset_getitem (Demo.musdb "vocals" "train" (Some 1%Q) false)
         2 (Demo.corpus (Demo.constant_rng 0))
       = Returned (([[452; 454; 456; 458]%Q], [[251; 252; 253; 254]%Q]), s')) /\
   shape [[452; 454; 456; 458]%Q] = shape [[251; 252; 253; 254]%Q]) /\
  ((exists s',
       MUSDBDataset_getitem (Demo.musdb "vocals" "valid" (Some 1%Q) false)
         2 (Demo.corpus (Demo.constant_rng 0))
       = Returned (([Demo.ramp 452 12], [Demo.ramp 251 12]), s')) /\
   shape [Demo.ramp 452 12] = shape [Demo.ramp 251 12]) /\
  ((exists r',
       AlignedSources_getitem Demo.world 1
         (Demo.aligned_alike "valid" (Some 1%Q)) 0 (Demo.constant_rng 0)
       = Returned (([[1; 2; 3; 4]%Q], [[1; 2; 3; 4]%Q]), r')) /\
   shape [[1; 2; 3; 4]%Q] = shape [[1; 2; 3; 4]%Q]).
Proof.
  pose proof (input_and_target_have_one_shape Demo.world)
    as (Hunaligned & Hmixed & Hcorpus & Haligned).
  split; [|split; [|split; [|split]]];
    (split; [eexists; vm_compute; reflexivity|]).
  - eapply (Hunaligned (Demo.unaligned (Some 1%Q) Demo.unaligned_pools) 7
              (Demo.constant_rng (1 # 2))).
    vm_compute. reflexivity.
  - eapply (Hmixed (Demo.mixed "train" (Some 1%Q) ["root/train/t1"%string])
              1%nat 0 (Demo.spike_rng 3 (1 # 2))).
    vm_compute. reflexivity.
  - eapply (Hcorpus (Demo.musdb "vocals" "train" (Some 1%Q) false) 2
              (Demo.corpus (Demo.constant_rng 0))).
    + intros Hsplit. vm_compute in Hsplit. discriminate.
    + vm_compute. reflexivity.
  - eapply (Hcorpus (Demo.musdb "vocals" "valid" (Some 1%Q) false) 2
              (Demo.corpus (Demo.constant_rng 0))).
    + intros _ t recording. apply demo_corpus_shapes.
    + vm_compute. reflexivity.
  - eapply (Haligned (Demo.aligned_alike "valid" (Some 1%Q)) 1%nat 0
              (Demo.constant_rng 0) _ _ _ 1%Q).
    + reflexivity.
    + reflexivity.
    + intros input_path output_path fi fo Hin Hfi Hfo.
      apply list_elem_of_singleton in Hin. inversion Hin; subst.
      vm_compute in Hfi, Hfo. inversion Hfi; inversion Hfo; subst.
      split; reflexivity.
    + vm_compute. reflexivity.
Defined.

(** C1, as stated, fails: [AlignedSources] built over a folder with a
    mono input file and a stereo output file returns a (1, 4) input and
    a (2, 4) target. *)
Lemma aligned_input_and_target_shapes_differ :
  exists self X Y r',
    AlignedSources_init Demo.world "root" "valid" "mixture.wav" "vocals.wav"
      (Some 1%Q) 4 = Returned self /\
    AlignedSources_getitem Demo.world 1 self 0 (Demo.constant_rng 0)
      = Returned ((X, Y), r') /\
    shape X = (1%nat, 4%nat) /\
    shape Y = (2%nat, 4%nat) /\
    shape X <> shape Y.
Proof.
  do 4 eexists. split; [vm_compute; reflexivity|].
  split; [vm_compute; reflexivity|].
  repeat split; discriminate.
Qed.



(** ** Retries *)

Section RetryFacts.
Context {A : Type} `{SampleOps A}.
Variable E : env A.

Lemma AlignedSources_failure_retries (self : AlignedSources) index r r1 :
  aligned_failure E self index r r1 ->
  AlignedSources_body E self index r = Returned (Retry (neighbour index), r1).
Proof.
  intros [ip op ii oi d Hd Hrand Hpaths Hii Hoi Hshort
         |ip op ii oi start r1' Hpaths Hii Hoi Hstart Hload
         |ip op ii oi start r1' d X Y Hd Hpaths Hii Hoi Hstart HX HY Hshort].
  - unfold AlignedSources_body, bind, lift.
    rewrite Hpaths. simpl. rewrite Hii. simpl. rewrite Hoi. simpl.
    unfold AlignedSources_start, bind, lift. rewrite Hrand, Hd. simpl.
    by rewrite Hshort.
  - unfold AlignedSources_body, bind, lift.
    rewrite Hpaths. simpl. rewrite Hii. simpl. rewrite Hoi. simpl.
    rewrite Hstart.
    destruct Hload as [HX|(X & HX & HY)]; rewrite HX; [done|by rewrite HY].
  - by eapply AlignedSources_short_retries.
Qed.


End RetryFacts.

Section RetryTheorems.
Context {A : Type} `{SampleOps A}.
Variable E : env A.




End RetryTheorems.



(** ** Excerpt starts *)

Section StartFacts.
Context {A : Type} `{SampleOps A}.
Variable E : env A.

Lemma AlignedSources_start_returned (self : AlignedSources) ii oi r start r' :
  AlignedSources_start self ii oi r = Returned (Some start, r') ->
  as_random_excerpt self = false -> start = 0%Q /\ r' = r.
Proof.
  intros Hk Hfixed. rewrite AlignedSources_start_fixed in Hk by done.
  by inversion Hk.
Qed.

Lemma MixedSources_source_drawn (self : MixedSources) index source r X r' :
  MixedSources_source E self index source r = Returned (Done X, r') ->
  drawn_stem E self source X.
Proof.
  unfold MixedSources_source. intros Hk. py_step.
  destruct (path_exists E _); [|by py_step].
  repeat py_step. destruct x1; [by py_step|]. repeat py_step.
  destruct (audioloader E _ _ _) as [X'|[]|] eqn:Hload; try by py_step.
  py_step. inversion Hk; subst.
  exists index, r. do 6 eexists.
  split; [exact Hx|]. do 3 (split; [eassumption|]). exact Hload.
Qed.

Lemma MixedSources_returned_drawn (self : MixedSources) fuel index r x y r' :
  MixedSources_getitem E fuel self index r = Returned ((x, y), r') ->
  exists stems,
    Forall2 (drawn_stem E self)
            (ms_interferers self ++ [ms_target_file self]) stems /\
    x = sum_dim0 stems /\
    last stems = Some y.
Proof.
  unfold MixedSources_getitem.
  intros (index' & r0 & Hk)%retrying_returned.
  unfold MixedSources_body in Hk. py_step.
  destruct x0 as [audio_sources|]; [|by py_step]. repeat py_step.
  inversion Hk; subst. clear Hk.
  pose proof (torch_stack_returned _ _ Hx0) as [-> _].
  apply MixedSources_loop_iterations in Hx as (new & -> & Hnew).
  simpl in *. exists new. repeat split; try done.
  - eapply Forall2_impl; [exact Hnew|]. simpl.
    intros source X (r1 & r2 & Hsrc). by eapply MixedSources_source_drawn.
  - by apply py_getitem_last.
Qed.


End StartFacts.



(** ** Computations that draw nothing *)

Section Stateless.
Context {St T : Type}.
Variable view : St -> T.

Lemma stateless_lift {X} (o : outcome X) : stateless view (lift o).
Proof. intros s1 s2 _. unfold lift, value_of. by destruct o. Qed.

Lemma stateless_ret {X} (x : X) : stateless view (ret x).
Proof. by intros s1 s2 _. Qed.

Lemma stateless_raise {X} (e : exn) : stateless view (@raise St X e).
Proof. by intros s1 s2 _. Qed.

Lemma stateless_unfinished {X} :
  stateless view (fun _ : St => @Unfinished (X * St)).
Proof. by intros s1 s2 _. Qed.

Lemma stateless_bind {X Y} (m : py St X) (k : X -> py St Y) :
  stateless view m -> (forall x, stateless view (k x)) ->
  stateless view (bind m k).
Proof.
  intros Hm Hk s1 s2 Hview. unfold bind.
  pose proof (Hm s1 s2 Hview) as H1.
  pose proof (Hm s2 s2 eq_refl) as H2.
  destruct (m s2) as [[x s2']| |] eqn:Hm2; simpl in H1, H2.
  - inversion H2; subst s2'. rewrite H1. unfold lift at 1. simpl.
    by apply Hk.
  - by rewrite H1.
  - by rewrite H1.
Qed.

(** On states with one view the values agree, and the state is left
    as it was. *)
Lemma stateless_value {X} (m : py St X) s1 s2 :
  stateless view m -> view s1 = view s2 ->
  value_of (m s1) = value_of (m s2).
Proof.
  intros Hm Hview. rewrite (Hm s1 s2 Hview).
  unfold lift, value_of. by destruct (m s2) as [[x s]| |].
Qed.

Lemma stateless_state {X} (m : py St X) s x s' :
  stateless view m -> m s = Returned (x, s') -> s' = s.
Proof.
  intros Hm Hk. pose proof (Hm s s eq_refl) as Hs. rewrite Hk in Hs.
  simpl in Hs. by inversion Hs.
Qed.

Lemma stateless_retrying {R} (body : Z -> py St (attempt R)) fuel index :
  (forall i, stateless view (body i)) ->
  stateless view (retrying body fuel index).
Proof.
  intros Hbody. revert index. induction fuel as [|fuel IH]; intros index.
  - apply stateless_unfinished.
  - simpl. apply stateless_bind; [done|].
    intros [r|index']; [apply stateless_ret|apply IH].
Qed.

End Stateless.

(** ** Evaluation splits *)

Section EvaluationFacts.
Context {A : Type} `{SampleOps A}.
Variable E : env A.

Lemma AlignedSources_body_stateless (self : AlignedSources) index :
  as_random_excerpt self = false ->
  stateless no_view (AlignedSources_body E self index).
Proof.
  intros Hfixed. unfold AlignedSources_body.
  apply stateless_bind; [apply stateless_lift|]. intros [input_path output_path].
  apply stateless_bind; [apply stateless_lift|]. intros input_info.
  apply stateless_bind; [apply stateless_lift|]. intros output_info.
  apply stateless_bind.
  { unfold AlignedSources_start. rewrite Hfixed. apply stateless_ret. }
  intros [start|]; [|apply stateless_ret].
  destruct (audioloader E input_path _ _) as [X|[]|];
    try apply stateless_ret; try apply stateless_raise;
    try apply stateless_unfinished.
  destruct (audioloader E output_path _ _) as [Y|[]|];
    try apply stateless_ret; try apply stateless_raise;
    try apply stateless_unfinished.
  apply stateless_bind; [apply stateless_lift|].
  intros [|]; apply stateless_ret.
Qed.

Lemma AlignedSources_getitem_stateless (self : AlignedSources) fuel index :
  as_random_excerpt self = false ->
  stateless no_view (AlignedSources_getitem E fuel self index).
Proof.
  intros Hfixed. apply stateless_retrying.
  intros i. by apply AlignedSources_body_stateless.
Qed.

Lemma get_track_stateless (ref : nat) :
  stateless (@mus_tracks A) (get_track ref).
Proof.
  intros s1 s2 Hview. unfold get_track. rewrite Hview.
  by destruct (mus_tracks s2 !! ref).
Qed.

Lemma tracks_getitem_stateless (i : Z) :
  stateless (@mus_tracks A) (tracks_getitem i).
Proof.
  intros s1 s2 Hview. unfold tracks_getitem, lift. rewrite Hview.
  by destruct (py_position _ _).
Qed.

Lemma track_audio_stateless (ref : nat) :
  stateless (@mus_tracks A) (track_audio ref).
Proof.
  unfold track_audio. apply stateless_bind; [apply get_track_stateless|].
  intros t. apply stateless_ret.
Qed.

Lemma track_target_audio_stateless (ref : nat) (target : string) :
  stateless (@mus_tracks A) (track_target_audio ref target).
Proof.
  unfold track_target_audio.
  apply stateless_bind; [apply get_track_stateless|].
  intros t. destruct (tr_targets t !! target);
    [apply stateless_ret|apply stateless_raise].
Qed.

Lemma MUSDBDataset_getitem_stateless (self : MUSDBDataset A) index :
  String.eqb (md_split self) "train" = false ->
  stateless (@mus_tracks A) (MUSDBDataset_getitem self index).
Proof.
  intros Hsplit. unfold MUSDBDataset_getitem. rewrite Hsplit.
  apply stateless_bind; [apply stateless_lift|]. intros i.
  apply stateless_bind; [apply tracks_getitem_stateless|]. intros track.
  apply stateless_bind; [apply track_audio_stateless|]. intros x.
  apply stateless_bind; [apply track_target_audio_stateless|]. intros y.
  apply stateless_ret.
Qed.

(** X28. Outside the training split, [AlignedSources] draws nothing:
    the excerpt start is 0, and for one index the outcome is the same
    whatever the generator state, which is left untouched. The same
    holds for [MUSDBDataset] outside the training split, whose outcome
    depends on the tracks only and leaves them as they are.
    [UnalignedSources] loads every file from start 0 (its choice of
    files is drawn in every split). *)
Theorem evaluation_examples_are_deterministic :
  (forall (self : AlignedSources) fuel index r1 r2,
      as_random_excerpt self = false ->
      value_of (AlignedSources_getitem E fuel self index r1)
      = value_of (AlignedSources_getitem E fuel self index r2) /\
      forall X Y r',
        AlignedSources_getitem E fuel self index r1 = Returned ((X, Y), r') ->
        r' = r1 /\
        exists j input_path output_path,
          py_getitem (as_tuple_paths self) j
            = Returned (input_path, output_path) /\
          audioloader E input_path 0 (as_seq_duration self) = Returned X /\
          audioloader E output_path 0 (as_seq_duration self) = Returned Y) /\
  (forall (self : MUSDBDataset A) index s1 s2,
      String.eqb (md_split self) "train" = false ->
      mus_tracks s1 = mus_tracks s2 ->
      value_of (MUSDBDataset_getitem self index s1)
      = value_of (MUSDBDataset_getitem self index s2) /\
      forall x y s',
        MUSDBDataset_getitem self index s1 = Returned ((x, y), s') ->
        s' = s1) /\
  (forall (self : UnalignedSources) index r x y r',
      UnalignedSources_getitem E self index r = Returned ((x, y), r') ->
      exists input_tuple stems,
        Forall2 (fun fp stem =>
                   audioloader E fp 0 (us_seq_duration self) = Returned stem)
                input_tuple stems /\
        x = sum_dim0 stems /\
        last stems = Some y).
Proof.
  split; [|split].
  - intros self fuel index r1 r2 Hfixed.
    pose proof (AlignedSources_getitem_stateless self fuel index Hfixed)
      as Hfree.
    split; [by apply (stateless_value no_view)|].
    intros X Y r' Hk. split; [by eapply (stateless_state no_view)|].
    unfold AlignedSources_getitem in Hk.
    apply retrying_returned in Hk as (j & r0 & Hk).
    apply AlignedSources_body_done in Hk
      as (ip & op & ii & oi & start & Hpaths & Hii & Hoi & Hstart & HX & HY & _).
    apply AlignedSources_start_returned in Hstart as [-> _]; [|done].
    by exists j, ip, op.
  - intros self index s1 s2 Hsplit Htracks.
    pose proof (MUSDBDataset_getitem_stateless self index Hsplit) as Hfree.
    split; [by apply (stateless_value (@mus_tracks A))|].
    intros x y s' Hk. by eapply (stateless_state (@mus_tracks A)).
  - intros self index r x y r' Hk.
    apply UnalignedSources_returned in Hk
      as (input_tuple & stems & _ & Hload & _ & -> & Hlast).
    by exists input_tuple, stems.
Qed.

End EvaluationFacts.

Lemma evaluation_examples_are_deterministic_witness :
  (value_of (AlignedSources_getitem Demo.world 1
               (Demo.aligned "valid" (Some 1%Q)) 0 (Demo.constant_rng 0))
   = value_of (AlignedSources_getitem Demo.world 1
                 (Demo.aligned "valid" (Some 1%Q)) 0
                 (Demo.constant_rng (1 # 2))) /\
   forall X Y r',
     AlignedSources_getitem Demo.world 1 (Demo.aligned "valid" (Some 1%Q)) 0
       (Demo.constant_rng 0) = Returned ((X, Y), r') ->
     r' = Demo.constant_rng 0 /\
     exists j input_path output_path,
       py_getitem (as_tuple_paths (Demo.aligned "valid" (Some 1%Q))) j
         = Returned (input_path, output_path) /\
       audioloader Demo.world input_path 0 (Some 1%Q) = Returned X /\
       audioloader Demo.world output_path 0 (Some 1%Q) = Returned Y) /\
  (value_of (MUSDBDataset_getitem (Demo.musdb "vocals" "valid" (Some 1%Q) true)
               3 (Demo.corpus (Demo.constant_rng 0)))
   = value_of (MUSDBDataset_getitem
                 (Demo.musdb "vocals" "valid" (Some 1%Q) true)
                 3 (Demo.corpus (Demo.constant_rng (1 # 2)))) /\
   forall x y s',
     MUSDBDataset_getitem (Demo.musdb "vocals" "valid" (Some 1%Q) true)
       3 (Demo.corpus (Demo.constant_rng 0)) = Returned ((x, y), s') ->
     s' = Demo.corpus (Demo.constant_rng 0)) /\
  ((exists r',
       UnalignedSources_getitem Demo.world
         (Demo.unaligned (Some 1%Q) Demo.unaligned_valid_pools) 0
         (Demo.constant_rng 0)
       = Returned (([[2; 4; 6; 8]%Q], [[1; 2; 3; 4]%Q]), r')) /\
   exists input_tuple stems,
     Forall2 (fun fp stem =>
                audioloader Demo.world fp 0 (Some 1%Q) = Returned stem)
             input_tuple stems /\
     [[2; 4; 6; 8]%Q] = sum_dim0 stems /\
     last stems = Some [[1; 2; 3; 4]%Q]).
Proof.
  pose proof (evaluation_examples_are_deterministic Demo.world)
    as (Haligned & Hcorpus & Hunaligned).
  split; [|split].
  - apply (Haligned (Demo.aligned "valid" (Some 1%Q)) 1%nat 0
             (Demo.constant_rng 0) (Demo.constant_rng (1 # 2))).
    reflexivity.
  - apply (Hcorpus (Demo.musdb "vocals" "valid" (Some 1%Q) true) 3
             (Demo.corpus (Demo.constant_rng 0))
             (Demo.corpus (Demo.constant_rng (1 # 2)))); reflexivity.
  - split; [eexists; vm_compute; reflexivity|].
    eapply (Hunaligned (Demo.unaligned (Some 1%Q) Demo.unaligned_valid_pools)
              0 (Demo.constant_rng 0)).
    vm_compute. reflexivity.
Defined.

(** C5, at a failing input. [MixedSources] constructed on the [valid]
    folder stores [random_excerpt = False] and applies no augmentation,
    and still draws a start for every stem: [__getitem__] never reads
    [random_excerpt]. For index 2 it returns the window from second 0
    under one generator state and the window from second 1 under
    another, where the sibling [AlignedSources] starts at 0. *)
Theorem mixed_evaluation_start_is_drawn :
  exists self a b,
    MixedSources_init Demo.world "root" "valid" "vocals.wav"
      ["bass.wav"%string] (Some 1%Q) 4 = Returned self /\
    ms_random_excerpt self = false /\
    ms_augmentations self = false /\
    value_of (MixedSources_getitem Demo.world 1 self 2 (Demo.constant_rng 0))
      = Returned a /\
    value_of (MixedSources_getitem Demo.world 1 self 2
                (Demo.constant_rng (1 # 2))) = Returned b /\
    snd a = [[1; 2; 3; 4]%Q] /\
    snd b = [[5; 6; 7; 8]%Q] /\
    a <> b.
Proof.
  do 3 eexists. split; [vm_compute; reflexivity|].
  split; [reflexivity|]. split; [reflexivity|].
  split; [vm_compute; reflexivity|].
  split; [vm_compute; reflexivity|].
  split; [reflexivity|]. split; [reflexivity|]. discriminate.
Qed.

(** ** Full-length mode *)

Section FullLengthFacts.
Context {A : Type} `{SampleOps A}.
Variable E : env A.

(** Construction stores [None] for a [seq_duration] that is not
    positive, and raises when none is given. *)
Lemma stored_seq_duration_spec (seq_duration : option Q) :
  stored_seq_duration seq_duration =
  match seq_duration with
  | None => Raised TypeError
  | Some d => Returned (if Qle_bool d 0 then None else Some d)
  end.
Proof. by destruct seq_duration. Qed.

(** In full-length mode [AlignedSources.__getitem__] returns nothing:
    its length test multiplies [None]. *)
Lemma AlignedSources_full_length_never_returns (self : AlignedSources)
    fuel index r xy r' :
  as_seq_duration self = None ->
  AlignedSources_getitem E fuel self index r <> Returned (xy, r').
Proof.
  intros Hnone Hk. destruct xy as [X Y]. unfold AlignedSources_getitem in Hk.
  apply retrying_returned in Hk as (j & r0 & Hk).
  apply AlignedSources_body_done in Hk
    as (ip & op & ii & oi & start & _ & _ & _ & _ & _ & _ & Hshort).
  unfold AlignedSources_too_short in Hshort. rewrite Hnone in Hshort.
  discriminate.
Qed.

(** In full-length mode [MixedSources.__getitem__] returns nothing: it
    compares a duration with [None]. *)
Lemma MixedSources_full_length_never_returns (self : MixedSources)
    fuel index r xy r' :
  ms_seq_duration self = None ->
  MixedSources_getitem E fuel self index r <> Returned (xy, r').
Proof.
  intros Hnone Hk. destruct xy as [x y].
  apply MixedSources_returned_drawn in Hk as (stems & Hstems & _ & Hlast).
  assert (last (ms_interferers self ++ [ms_target_file self])
          = Some (ms_target_file self)) as Htarget by apply last_snoc.
  destruct (Forall2_last _ _ _ _ Hstems Htarget)
    as (y' & _ & (i & r0 & td & r1 & ii & room & start & r2
                  & _ & _ & Hroom & _)).
  rewrite Hnone in Hroom. discriminate.
Qed.

(** [UnalignedSources] cannot be constructed: [_get_paths] reads
    [self.split], which [__init__] never assigns. *)
Lemma UnalignedSources_init_never_returns root split seq_duration target
    interferences glob sample_rate nb_samples self :
  UnalignedSources_init E root split seq_duration target interferences glob
    sample_rate nb_samples <> Returned self.
Proof.
  unfold UnalignedSources_init. intros Hk. py_step. py_step.
  destruct interferences; discriminate.
Qed.

End FullLengthFacts.

(** C6, at failing inputs. Without a [seq_duration] the three file
    facades raise [TypeError] in their constructor. With [seq_duration]
    0, [UnalignedSources] raises [AttributeError] in its constructor;
    [AlignedSources] and [MixedSources] are constructed in full-length
    mode, and every [__getitem__] then raises [TypeError], in the
    [valid] and in the [train] split. [MUSDBDataset] without a
    [seq_duration] raises [TypeError] in the training split. *)
Theorem full_length_mode_raises :
  AlignedSources_init Demo.world "root" "valid" "mixture.wav" "vocals.wav"
    None 44100 = Raised TypeError /\
  MixedSources_init Demo.world "root" "valid" "vocals.wav" ["bass.wav"%string]
    None 44100 = Raised TypeError /\
  UnalignedSources_init Demo.world "root" "valid" None "vocals"
    ["noise"%string] "*.wav" 44100 1000 = Raised TypeError /\
  UnalignedSources_init Demo.world "root" "valid" (Some 0%Q) "vocals"
    ["noise"%string] "*.wav" 44100 1000 = Raised AttributeError /\
  (exists self,
      AlignedSources_init Demo.world "root" "valid" "mixture.wav" "vocals.wav"
        (Some 0%Q) 44100 = Returned self /\
      as_seq_duration self = None /\
      AlignedSources_len self = 1 /\
      forall fuel r,
        AlignedSources_getitem Demo.world (S fuel) self 0 r = Raised TypeError) /\
  (exists self,
      AlignedSources_init Demo.world "root" "train" "bass.wav" "vocals.wav"
        (Some 0%Q) 44100 = Returned self /\
      as_seq_duration self = None /\
      AlignedSources_len self = 1 /\
      forall fuel r,
        AlignedSources_getitem Demo.world (S fuel) self 0 r = Raised TypeError) /\
  (exists self,
      MixedSources_init Demo.world "root" "valid" "vocals.wav"
        ["bass.wav"%string] (Some 0%Q) 44100 = Returned self /\
      ms_seq_duration self = None /\
      MixedSources_len self = 3 /\
      forall fuel r,
        MixedSources_getitem Demo.world (S fuel) self 0 r = Raised TypeError) /\
  (exists self,
      MixedSources_init Demo.world "root" "train" "vocals.wav"
        ["bass.wav"%string] (Some (-1)%Q) 44100 = Returned self /\
      ms_seq_duration self = None /\
      forall fuel,
        MixedSources_getitem Demo.world (S fuel) self 0 (Demo.constant_rng 0)
        = Raised TypeError) /\
  forall g,
    MUSDBDataset_getitem (Demo.musdb "vocals" "train" None false) 0
      (Demo.corpus g) = Raised TypeError.
Proof.
  repeat split.
  - eexists. split; [vm_compute; reflexivity|]. repeat split.
  - eexists. split; [vm_compute; reflexivity|]. repeat split.
  - eexists. split; [vm_compute; reflexivity|]. repeat split.
  - eexists. split; [vm_compute; reflexivity|]. repeat split.
Qed.

(** ** Fuel and backends *)

(** More fuel never changes an outcome that was reached. *)
Lemma retrying_more_fuel {St R} (body : Z -> py St (attempt R)) fuel extra
    index s r s' :
  retrying body fuel index s = Returned (r, s') ->
  retrying body (fuel + extra) index s = Returned (r, s').
Proof.
  revert index s. induction fuel as [|fuel IH]; intros index s Hk;
    [discriminate|].
  simpl in *. unfold bind in *.
  destruct (body index s) as [[[r0|index'] s0]| |]; try done.
  by apply IH.
Qed.

(** The two backends read the same window. *)
Example backends_read_the_same_window :
  audioloader Demo.world "root/valid/t1/vocals.wav" (1 # 2) (Some 1%Q)
    = Returned [[3; 4; 5; 6]%Q; [103; 104; 105; 106]%Q] /\
  audioloader Demo.world_torchaudio "root/valid/t1/vocals.wav" (1 # 2)
    (Some 1%Q)
    = Returned [[3; 4; 5; 6]%Q; [103; 104; 105; 106]%Q] /\
  audioinfo Demo.world "root/valid/t1/vocals.wav"
    = audioinfo Demo.world_torchaudio "root/valid/t1/vocals.wav".
Proof. repeat split; vm_compute; reflexivity. Qed.

(** * Further properties of the module *)

(** ** Random choices never leave the sequence *)

Lemma random_position_returned (n : nat) (r : rng) :
  (0 < n)%nat ->
  exists p, random_position n r = Returned (p, advance r) /\ (p < n)%nat.
Proof.
  intros Hn. destruct n as [|n]; [lia|].
  unfold random_position, bind, random_random. fold (next_draw r).
  fold (advance r).
  destruct (next_draw_range r) as [Hlo Hhi].
  set (u := next_draw r) in *. set (m := Z.of_nat (S n)).
  assert (0 < inject_Z m)%Q as Hm by (unfold Qlt; simpl; lia).
  assert (0 <= u * inject_Z m)%Q as Hnonneg by (by apply Qmult_le_0_compat; [|apply Qlt_le_weak]).
  assert (u * inject_Z m < inject_Z m)%Q as Hbelow by nra.
  pose proof (py_int_nonneg _ Hnonneg) as H0.
  assert (py_int (u * inject_Z m) < m) as Hlt.
  { rewrite py_int_floor by done.
    pose proof (Qfloor_le (u * inject_Z m)) as Hfl.
    rewrite Zlt_Qlt. lra. }
  exists (Z.to_nat (py_int (u * inject_Z m))).
  unfold lift, py_position. fold m.
  destruct (Z.ltb_spec (py_int (u * inject_Z m)) 0); [lia|].
  destruct (Z.leb_spec 0 (py_int (u * inject_Z m))); [|lia].
  destruct (Z.ltb_spec (py_int (u * inject_Z m)) m); [|lia].
  simpl. split; [done|]. lia.
Qed.

Lemma random_choice_returned {X} (seq : list X) (r : rng) :
  seq <> [] ->
  exists x, random_choice seq r = Returned (x, advance r) /\ x ∈ seq.
Proof.
  intros Hseq.
  assert (0 < length seq)%nat as Hlen by (destruct seq; [done|simpl; lia]).
  destruct (random_position_returned _ r Hlen) as (p & Hp & Hlt).
  destruct (lookup_lt_is_Some_2 seq p Hlt) as [x Hx].
  exists x. split; [|by eapply list_elem_of_lookup_2].
  unfold random_choice, bind. rewrite Hp.
  unfold lift, py_getitem, py_position.
  destruct (Z.ltb_spec (Z.of_nat p) 0); [lia|].
  destruct (Z.leb_spec 0 (Z.of_nat p)); [|lia].
  destruct (Z.ltb_spec (Z.of_nat p) (Z.of_nat (length seq))); [|lia].
  simpl. by rewrite Nat2Z.id, Hx.
Qed.

Lemma random_choice_empty {X} (r : rng) :
  random_choice (@nil X) r = Raised IndexError.
Proof. reflexivity. Qed.

Lemma random_choices_total {X} (pools : list (list X)) (r : rng) :
  Forall (fun pool => pool <> []) pools ->
  exists xs r',
    random_choices pools r = Returned (xs, r') /\
    Forall2 (fun pool x => x ∈ pool) pools xs.
Proof.
  revert r. induction pools as [|pool pools IH]; intros r Hall.
  - exists [], r. split; [done|constructor].
  - inversion Hall as [|? ? Hpool Hrest]; subst.
    destruct (random_choice_returned pool r Hpool) as (x & Hx & Hin).
    destruct (IH (advance r) Hrest) as (xs & r' & Hxs & Hmem).
    exists (x :: xs), r'. simpl. unfold bind. rewrite Hx, Hxs.
    split; [done|by constructor].
Qed.

Lemma repeated_pools {X} (pools : list (list X)) (n : nat) :
  Forall (fun pool => pool <> []) pools ->
  Forall (fun pool => pool <> []) (mjoin (replicate n pools)) /\
  length (mjoin (replicate n pools)) = (n * length pools)%nat.
Proof.
  intros Hall. induction n as [|n [IHall IHlen]]; simpl.
  - split; [constructor|done].
  - split; [by apply Forall_app|]. rewrite length_app. lia.
Qed.

(** X1. [random_product] over pools that all have an element returns,
    whatever [repeat] is, one element for every pool of the pools taken
    [repeat] times over, in that order: [repeat] times the number of
    pools in all, none for a [repeat] below 1. *)
Theorem random_product_picks_one_per_pool {X} (pools : list (list X))
    (repeat : Z) (r : rng) :
  Forall (fun pool => pool <> []) pools ->
  exists xs r',
    random_product pools repeat r = Returned (xs, r') /\
    Forall2 (fun pool x => x ∈ pool)
      (mjoin (replicate (Z.to_nat repeat) pools)) xs /\
    length xs = (Z.to_nat repeat * length pools)%nat.
Proof.
  intros Hall.
  destruct (repeated_pools pools (Z.to_nat repeat) Hall) as [Hrep Hlen].
  destruct (random_choices_total _ r Hrep) as (xs & r' & Hxs & Hmem).
  exists xs, r'. split; [done|]. split; [done|].
  by rewrite <- (Forall2_length _ _ _ Hmem).
Qed.

Lemma random_product_picks_one_per_pool_witness :
  exists xs r',
    random_product [[1; 2; 3]; [4]; [5; 6]]%Z 2 (Demo.constant_rng (1 # 2))
      = Returned (xs, r') /\
    Forall2 (fun pool x => x ∈ pool)
      (mjoin (replicate (Z.to_nat 2) [[1; 2; 3]; [4]; [5; 6]]%Z)) xs /\
    length xs = (Z.to_nat 2 * length [[1; 2; 3]; [4]; [5; 6]]%Z)%nat.
Proof.
  apply (random_product_picks_one_per_pool [[1; 2; 3]; [4]; [5; 6]]%Z 2
           (Demo.constant_rng (1 # 2))).
  repeat constructor; discriminate.
Defined.

Lemma random_product_empty_pool {X} (pools : list (list X)) (r : rng) :
  [] ∈ pools -> random_product pools 1 r = Raised IndexError.
Proof.
  rewrite random_product_once.
  revert r. induction pools as [|pool pools IH]; intros r Hin.
  - by apply elem_of_nil in Hin.
  - simpl. unfold bind. destruct pool as [|x pool].
    + reflexivity.
    + apply elem_of_cons in Hin as [Hin|Hin]; [discriminate|].
      destruct (random_choice_returned (x :: pool) r) as (y & Hy & _);
        [done|].
      rewrite Hy. by rewrite IH.
Qed.

(** X2. [UnalignedSources.__getitem__] raises [IndexError] whenever one
    of its pools of files is empty (a source folder without a matching
    file), whatever the index and the generator state. *)
Theorem unaligned_empty_pool_raises {A} `{SampleOps A} (E : env A)
    (self : UnalignedSources) (index : Z) (r : rng) :
  [] ∈ us_sources self ->
  UnalignedSources_getitem E self index r = Raised IndexError.
Proof.
  intros Hin. unfold UnalignedSources_getitem, bind.
  by rewrite random_product_empty_pool.
Qed.

Lemma unaligned_empty_pool_raises_witness :
  UnalignedSources_getitem Demo.world
    (Demo.unaligned (Some 1%Q) [["root/train/noise/n1.wav"%string]; []]) 5
    (Demo.constant_rng 0)
  = Raised IndexError.
Proof.
  apply (unaligned_empty_pool_raises Demo.world
           (Demo.unaligned (Some 1%Q) [["root/train/noise/n1.wav"%string]; []])).
  simpl. apply elem_of_cons. right. apply elem_of_cons. by left.
Defined.

(** ** Augmentations, composed *)

Section AugmentationPipeline.
Context {A : Type} `{SampleOps A}.

Lemma shape_tensor_scale (audio : waveform A) (g : Q) :
  shape (tensor_scale audio g) = shape audio.
Proof.
  unfold shape, tensor_scale. rewrite length_map.
  destruct audio as [|ch rest]; [done|]. simpl. by rewrite length_map.
Qed.

Lemma sample_at_tensor_scale (audio : waveform A) (g : Q) c t :
  sample_at (tensor_scale audio g) c t
  = (fun s => sample_scale s g) <$> sample_at audio c t.
Proof.
  unfold sample_at, tensor_scale. rewrite list_lookup_fmap.
  destruct (audio !! c) as [ch|]; simpl; [|done].
  by rewrite list_lookup_fmap.
Qed.

Lemma rectangular_tensor_scale (audio : waveform A) (g : Q) :
  rectangular audio -> rectangular (tensor_scale audio g).
Proof.
  intros Hrect ch ch' Hch Hch'. unfold tensor_scale in *.
  apply list_elem_of_fmap in Hch as (c & -> & Hc).
  apply list_elem_of_fmap in Hch' as (c' & -> & Hc').
  rewrite !length_map. by apply Hrect.
Qed.

Lemma elem_of_rev_iff {X} (l : list X) (x : X) : x ∈ rev l <-> x ∈ l.
Proof. rewrite !list_elem_of_In. symmetry. apply in_rev. Qed.

Lemma rectangular_np_flip0 (audio : waveform A) :
  rectangular audio -> rectangular (np_flip0 audio).
Proof.
  intros Hrect ch ch' Hch Hch'. unfold np_flip0 in *.
  rewrite elem_of_rev_iff in Hch. rewrite elem_of_rev_iff in Hch'.
  by apply Hrect.
Qed.

Lemma shape_np_flip0 (audio : waveform A) :
  rectangular audio -> shape (np_flip0 audio) = shape audio.
Proof.
  intros Hrect. unfold shape. f_equal; [apply length_rev|].
  unfold np_flip0. destruct audio as [|c rest]; [done|].
  destruct (rev (c :: rest)) as [|c' rest'] eqn:Hrev.
  - apply (f_equal length) in Hrev. rewrite length_rev in Hrev. discriminate.
  - apply Hrect; [|by left].
    apply elem_of_rev_iff. rewrite Hrev. by left.
Qed.

(** The factor the gain augmentation draws in state [r]. *)
Lemma gain_returned (audio : waveform A) (r : rng) :
  exists g,
    (1 # 4 <= g)%Q /\ (g < 5 # 4)%Q /\
    augment_source_gain audio r = Returned (tensor_scale audio g, advance r).
Proof.
  destruct (next_draw_range r) as [Hlo Hhi].
  exists ((1 # 4) + ((5 # 4) - (1 # 4)) * next_draw r)%Q.
  split; [nra|]. split; [nra|done].
Qed.

(** X3. The gain augmentation makes one draw and multiplies every
    sample by the same factor [g], with [1/4 <= g <= 5/4]; it keeps
    the shape. *)
Theorem gain_scales_every_sample_alike (audio : waveform A) (r : rng) :
  exists g,
    (1 # 4 <= g)%Q /\ (g <= 5 # 4)%Q /\
    augment_source_gain audio r = Returned (tensor_scale audio g, advance r) /\
    shape (tensor_scale audio g) = shape audio /\
    forall c t,
      sample_at (tensor_scale audio g) c t
      = (fun s => sample_scale s g) <$> sample_at audio c t.
Proof.
  destruct (gain_returned audio r) as (g & Hlo & Hhi & Hgain).
  exists g. repeat split; try done.
  - by apply Qlt_le_weak.
  - apply shape_tensor_scale.
  - intros c t. apply sample_at_tensor_scale.
Qed.

(** X4. [Compose] of two lists of transforms put end to end is
    [Compose] of the first followed by [Compose] of the second, and
    [Compose] of no transform returns the audio as it is, with no
    draw. *)
Theorem Compose_of_appended_transforms
    (first second : list (waveform A -> py rng (waveform A)))
    (audio : waveform A) (r : rng) :
  Compose (first ++ second) audio r
  = bind (Compose first audio) (Compose second) r /\
  Compose [] audio r = Returned (audio, r).
Proof.
  split; [|reflexivity]. revert audio r.
  induction first as [|t first IH]; intros audio r; [reflexivity|].
  simpl. unfold bind in *.
  destruct (t audio r) as [[audio' r']| |]; [|reflexivity..].
  apply IH.
Qed.

Lemma channelswap_returned (audio : waveform A) (r : rng) :
  exists out r',
    augment_source_channelswap audio r = Returned (out, r') /\
    (out = audio \/ out = np_flip0 audio) /\
    tape r' = tape r /\
    pos r' = (pos r + (if bool_decide (fst (shape audio) = 2%nat)
                       then 1 else 0))%nat.
Proof.
  unfold augment_source_channelswap.
  destruct (bool_decide (fst (shape audio) = 2%nat)).
  - unfold bind, random_random.
    destruct (Qltb _ _); do 2 eexists; (split; [reflexivity|]);
      simpl; repeat split; auto; lia.
  - exists audio, r. repeat split; auto; lia.
Qed.

(** X5. The training pipeline [Compose([augment_source_channelswap,
    augment_source_gain])] returns for every rectangular waveform, keeps
    its shape, and makes two draws on a 2-channel waveform and one draw
    otherwise. *)
Theorem training_augmentations_keep_shape (audio : waveform A) (r : rng) :
  rectangular audio ->
  exists out r',
    Compose [augment_source_channelswap; augment_source_gain] audio r
      = Returned (out, r') /\
    shape out = shape audio /\
    rectangular out /\
    tape r' = tape r /\
    pos r' = (pos r + (if bool_decide (fst (shape audio) = 2%nat)
                       then 2 else 1))%nat.
Proof.
  intros Hrect.
  destruct (channelswap_returned audio r)
    as (swapped & r1 & Hswap & Hout & Htape & Hpos).
  destruct (gain_returned swapped r1) as (g & _ & _ & Hgain).
  pose proof (shape_tensor_scale swapped g) as Hshape.
  exists (tensor_scale swapped g), (advance r1).
  simpl. unfold bind at 1. rewrite Hswap. unfold bind at 1. rewrite Hgain.
  split; [done|].
  assert (shape swapped = shape audio /\ rectangular swapped) as [Hs Hr].
  { destruct Hout as [->| ->]; [done|].
    split; [by apply shape_np_flip0|by apply rectangular_np_flip0]. }
  split; [by rewrite Hshape|]. split; [by apply rectangular_tensor_scale|].
  split; [done|]. unfold shape in *. simpl in *.
  destruct (bool_decide (length audio = 2%nat)); lia.
Qed.

End AugmentationPipeline.

Lemma training_augmentations_keep_shape_witness :
  exists out r',
    Compose [augment_source_channelswap; augment_source_gain]
      [[1; 2; 3]%Q; [4; 5; 6]%Q] (Demo.constant_rng (1 # 4))
      = Returned (out, r') /\
    shape out = shape [[1; 2; 3]%Q; [4; 5; 6]%Q] /\
    rectangular out /\
    tape r' = tape (Demo.constant_rng (1 # 4)) /\
    pos r' = (pos (Demo.constant_rng (1 # 4)) + 2)%nat.
Proof.
  apply (training_augmentations_keep_shape
           [[1; 2; 3]%Q; [4; 5; 6]%Q] (Demo.constant_rng (1 # 4))).
  intros ch ch' Hch Hch'.
  repeat (apply elem_of_cons in Hch as [->|Hch]);
    repeat (apply elem_of_cons in Hch' as [->|Hch']);
    try reflexivity; by apply elem_of_nil in Hch || by apply elem_of_nil in Hch'.
Defined.

(** ** The two backends *)

Lemma py_slice_take_drop {X} (l : list X) (s k : Z) :
  0 <= s -> 0 <= k ->
  py_slice l s (Some (s + k)) = take (Z.to_nat k) (drop (Z.to_nat s) l).
Proof.
  intros Hs Hk. unfold py_slice.
  destruct (Z.ltb_spec s 0), (Z.ltb_spec (s + k) 0); try lia.
  destruct (Z.le_gt_cases s (Z.of_nat (length l))) as [Hin|Hout].
  - rewrite (Z.min_l s) by lia.
    destruct (Z.le_gt_cases (s + k) (Z.of_nat (length l))) as [Hfit|Hover].
    + rewrite (Z.min_l (s + k)) by lia. f_equal. lia.
    + rewrite (Z.min_r (s + k)) by lia.
      rewrite (take_ge (drop (Z.to_nat s) l) (Z.to_nat k))
        by (rewrite length_drop; lia).
      apply take_ge. rewrite length_drop. lia.
  - rewrite !Z.min_r by lia. rewrite Z.sub_diag. simpl.
    rewrite (drop_ge l (Z.to_nat s)) by lia. by rewrite take_nil.
Qed.


Section BackendFacts.
Context {A : Type}.
Variable E : env A.

(** What a probe of a file that is there and opens gives. *)
Lemma audioinfo_present (path : string) (f : audio_file A) :
  fs_files E !! path = Some f -> af_opens f = true -> 0 < nchannels f ->
  audioinfo E path = Returned (probed_info E f).
Proof.
  intros Hf Hopens Hc. unfold audioinfo, torchaudio_info,
    torchaudio_info_raw, soundfile_info, sf_info, probed_info,
    probed_duration.
  rewrite Hf, Hopens.
  destruct (torchaudio_loaded E); simpl; [|done].
  destruct (Z.eqb_spec (nchannels f) 0) as [Hz|Hz]; [lia|].
  by rewrite Z.div_mul by done.
Qed.

(** What a read of a file that is there and opens gives. *)
Lemma audioloader_present (path : string) (f : audio_file A) (start : Q)
    (dur : option Q) :
  fs_files E !! path = Some f -> af_opens f = true -> 0 < nchannels f ->
  audioloader E path start dur =
  if af_decodable f then
    let first := py_int_mul start (Z.pos (af_rate f)) in
    match dur with
    | None =>
        if torchaudio_loaded E then Returned (af_data f)
        else Returned (map (fun ch => py_slice ch first None) (af_data f))
    | Some d =>
        let count := py_int_mul d (Z.pos (af_rate f)) in
        if torchaudio_loaded E
        then Returned (map (fun ch => take (Z.to_nat count)
                                        (drop (Z.to_nat first) ch))
                           (af_data f))
        else Returned (map (fun ch =>
                              py_slice ch first
                                (Some (if Qeq_bool d 0 then 0
                                       else first + count)))
                           (af_data f))
    end
  else Raised RuntimeError.
Proof.
  intros Hf Hopens Hc.
  pose proof (audioinfo_present path f Hf Hopens Hc) as Hinfo.
  unfold audioloader, audioinfo in *.
  destruct (torchaudio_loaded E).
  - unfold torchaudio_loader. rewrite Hinfo. simpl.
    unfold torchaudio_load. rewrite Hf, Hopens. simpl.
    by destruct (af_decodable f), dur.
  - unfold soundfile_loader. rewrite Hinfo. simpl.
    unfold sf_read. rewrite Hf, Hopens. simpl.
    destruct (af_decodable f), dur as [d|]; try done.
    by destruct (Qeq_bool d 0).
Qed.

End BackendFacts.

Section BackendTheorems.
Context {A : Type}.
Variable E : env A.

(** X6. What [audioinfo] reports. A path that is not there raises
    [RuntimeError]; the [torchaudio] backend divides by the channel
    count and raises [ZeroDivisionError] on a file without channels.
    For a file that opens, has a channel and fewer than [2^51] frames,
    both backends report the file's rate and frames over rate, as a
    float, for the duration; [samples] is the number of frames on the
    [torchaudio] backend, and that number or one less on the
    [soundfile] backend, which computes it back from the duration. *)
Theorem audioinfo_reports_the_file (path : string) :
  (fs_files E !! path = None -> audioinfo E path = Raised RuntimeError) /\
  (forall f,
      fs_files E !! path = Some f -> af_opens f = true ->
      torchaudio_loaded E = true -> nchannels f = 0 ->
      audioinfo E path = Raised ZeroDivisionError) /\
  (forall f,
      fs_files E !! path = Some f -> af_opens f = true ->
      0 < nchannels f -> nframes f < 2 ^ 51 ->
      exists i,
        audioinfo E path = Returned i /\
        samplerate i = Z.pos (af_rate f) /\
        duration i
        = py_fdiv (inject_Z (nframes f)) (inject_Z (Z.pos (af_rate f))) /\
        nframes f - 1 <= samples i <= nframes f /\
        (torchaudio_loaded E = true -> samples i = nframes f)).
Proof.
  split; [|split].
  - intros Hnone. unfold audioinfo, torchaudio_info, torchaudio_info_raw,
      soundfile_info, sf_info. rewrite Hnone.
    by destruct (torchaudio_loaded E).
  - intros f Hf Hopens Hbackend Hc. unfold audioinfo, torchaudio_info,
      torchaudio_info_raw. rewrite Hbackend, Hf, Hopens. simpl.
    by rewrite Hc.
  - intros f Hf Hopens Hc Hsmall. exists (probed_info E f).
    split; [by apply audioinfo_present|].
    split; [done|]. split; [done|].
    unfold probed_info, probed_duration. simpl.
    destruct (torchaudio_loaded E); [split; [lia|done]|].
    split; [|done]. apply probed_samples_close.
    split; [unfold nframes; lia|done].
Qed.


End BackendTheorems.

Lemma audioinfo_reports_the_file_witness :
  exists i,
    audioinfo Demo.world_seven "seven.wav" = Returned i /\
    samplerate i = Z.pos (af_rate Demo.seven_hertz) /\
    duration i
    = py_fdiv (inject_Z (nframes Demo.seven_hertz))
        (inject_Z (Z.pos (af_rate Demo.seven_hertz))) /\
    nframes Demo.seven_hertz - 1 <= samples i <= nframes Demo.seven_hertz /\
    (torchaudio_loaded Demo.world_seven = true ->
     samples i = nframes Demo.seven_hertz).
Proof.
  apply (proj2 (proj2 (audioinfo_reports_the_file Demo.world_seven
                         "seven.wav")) Demo.seven_hertz).
  - reflexivity.
  - reflexivity.
  - reflexivity.
  - reflexivity.
Defined.

(** The [soundfile] probe of a file of 61 frames at 7 Hz reports 60
    samples: [61 / 7] as a float, times 7, falls just short of 61. *)
Lemma soundfile_info_counts_a_frame_less :
  nframes Demo.seven_hertz = 61 /\
  exists i,
    audioinfo Demo.world_seven "seven.wav" = Returned i /\ samples i = 60.
Proof.
  split; [reflexivity|]. eexists. split; [vm_compute; reflexivity|].
  reflexivity.
Qed.


(** ** Construction *)

Lemma stored_seq_duration_returned (seq_duration stored : option Q) :
  stored_seq_duration seq_duration = Returned stored ->
  exists d, seq_duration = Some d /\
            ((d <= 0)%Q /\ stored = None \/ (0 < d)%Q /\ stored = Some d).
Proof.
  unfold stored_seq_duration. destruct seq_duration as [d|]; [|discriminate].
  simpl. intros Hk. inversion Hk; subst. exists d. split; [done|].
  destruct (Qle_bool d 0) eqn:Hle.
  - left. by apply Qle_bool_iff in Hle.
  - right. split; [|done]. apply Qnot_le_lt. intros Hd.
    apply Qle_bool_iff in Hd. congruence.
Qed.

Section ConstructionFacts.
Context {A : Type} `{SampleOps A}.
Variable E : env A.

Lemma AlignedSources_pairs_elem (input_file output_file : string)
    (track_folders : list string) (input_path output_path : string) :
  (input_path, output_path)
    ∈ AlignedSources_pairs E input_file output_file track_folders <->
  exists track_folder,
    track_folder ∈ track_folders /\
    head (fs_glob E track_folder input_file) = Some input_path /\
    head (fs_glob E track_folder output_file) = Some output_path.
Proof.
  induction track_folders as [|folder rest IH]; simpl.
  - split; [by intros ?%elem_of_nil|]. by intros (? & ?%elem_of_nil & _).
  - destruct (fs_glob E folder input_file) as [|ip ips] eqn:Hin;
      [|destruct (fs_glob E folder output_file) as [|op ops] eqn:Hout].
    + rewrite IH. split.
      * intros (f & Hf & Hi & Ho). exists f. split; [by right|done].
      * intros (f & Hf & Hi & Ho). exists f. split; [|done].
        apply elem_of_cons in Hf as [->|Hf]; [|done].
        rewrite Hin in Hi. discriminate.
    + rewrite IH. split.
      * intros (f & Hf & Hi & Ho). exists f. split; [by right|done].
      * intros (f & Hf & Hi & Ho). exists f. split; [|done].
        apply elem_of_cons in Hf as [->|Hf]; [|done].
        rewrite Hout in Ho. discriminate.
    + rewrite elem_of_cons, IH. split.
      * intros [Heq|(f & Hf & Hi & Ho)].
        -- inversion Heq; subst. exists folder. rewrite Hin, Hout.
           split; [by left|done].
        -- exists f. split; [by right|done].
      * intros (f & Hf & Hi & Ho).
        apply elem_of_cons in Hf as [->|Hf].
        -- left. rewrite Hin in Hi. rewrite Hout in Ho. simpl in *. congruence.
        -- right. by exists f.
Qed.

Lemma AlignedSources_pairs_length (input_file output_file : string)
    (track_folders : list string) :
  (length (AlignedSources_pairs E input_file output_file track_folders)
   <= length track_folders)%nat.
Proof.
  induction track_folders as [|folder rest IH]; simpl; [lia|].
  destruct (fs_glob E folder input_file); [lia|].
  destruct (fs_glob E folder output_file); simpl; lia.
Qed.

(** X10. An [AlignedSources] that its constructor returns was given a
    [seq_duration]; it stores [None] when that was not positive and the
    positive value otherwise; its excerpts are random exactly in the
    [train] split; its index holds, for exactly the sub-folders of
    [root/split] where both file names match, the first match of each,
    so [__len__] is at most the number of sub-folders. *)
Theorem AlignedSources_constructor_establishes
    (root split input_file output_file : string) (seq_duration : option Q)
    (sample_rate : Z) (self : AlignedSources) :
  AlignedSources_init E root split input_file output_file seq_duration
    sample_rate = Returned self ->
  exists d track_folders,
    seq_duration = Some d /\
    fs_dirs E !! path_join root split = Some track_folders /\
    ((d <= 0)%Q /\ as_seq_duration self = None \/
     (0 < d)%Q /\ as_seq_duration self = Some d) /\
    (as_random_excerpt self = true <-> split = "train"%string) /\
    (forall input_path output_path,
        (input_path, output_path) ∈ as_tuple_paths self <->
        exists track_folder,
          track_folder ∈ track_folders /\
          head (fs_glob E track_folder input_file) = Some input_path /\
          head (fs_glob E track_folder output_file) = Some output_path) /\
    0 <= AlignedSources_len self <= Z.of_nat (length track_folders).
Proof.
  unfold AlignedSources_init, AlignedSources_get_paths. intros Hk.
  py_step. apply stored_seq_duration_returned in Hx as (d & -> & Hd).
  destruct (fs_dirs E !! path_join root split) as [folders|] eqn:Hdirs;
    [|discriminate].
  simpl in Hk. inversion Hk; subst. clear Hk. simpl.
  exists d, folders. repeat split; try done.
  - by intros ?%String.eqb_eq.
  - intros ->. apply String.eqb_refl.
  - by apply AlignedSources_pairs_elem.
  - by apply AlignedSources_pairs_elem.
  - unfold AlignedSources_len. simpl. lia.
  - unfold AlignedSources_len. simpl.
    pose proof (AlignedSources_pairs_length input_file output_file folders).
    lia.
Qed.

(** X11. A [MixedSources] that its constructor returns stores [None]
    for a [seq_duration] that was not positive and the positive value
    otherwise, chooses folders at random exactly in the [train] split,
    and indexes every sub-folder of [root/split], whether or not the
    stem files are in it: [__len__] is the number of sub-folders. *)
Theorem MixedSources_constructor_establishes
    (root split target_file : string) (interferers : list string)
    (seq_duration : option Q) (sample_rate : Z) (self : MixedSources) :
  MixedSources_init E root split target_file interferers seq_duration
    sample_rate = Returned self ->
  exists d track_folders,
    seq_duration = Some d /\
    fs_dirs E !! path_join root split = Some track_folders /\
    ((d <= 0)%Q /\ ms_seq_duration self = None \/
     (0 < d)%Q /\ ms_seq_duration self = Some d) /\
    (ms_augmentations self = true <-> split = "train"%string) /\
    ms_tracks self = track_folders /\
    MixedSources_len self = Z.of_nat (length track_folders) /\
    ms_interferers self ++ [ms_target_file self]
      = interferers ++ [target_file].
Proof.
  unfold MixedSources_init, MixedSources_get_paths. intros Hk.
  py_step. apply stored_seq_duration_returned in Hx as (d & -> & Hd).
  destruct (fs_dirs E !! path_join root split) as [folders|] eqn:Hdirs;
    [|discriminate].
  simpl in Hk. inversion Hk; subst. clear Hk. simpl.
  exists d, folders. repeat split; try done.
  - by intros ?%String.eqb_eq.
  - intros ->. apply String.eqb_refl.
Qed.

End ConstructionFacts.

Lemma AlignedSources_constructor_establishes_witness :
  exists d track_folders,
    Some (7 # 8)%Q = Some d /\
    fs_dirs Demo.world !! path_join "root" "valid" = Some track_folders /\
    ((d <= 0)%Q /\ as_seq_duration (Demo.aligned "valid" (Some (7 # 8))) = None \/
     (0 < d)%Q /\ as_seq_duration (Demo.aligned "valid" (Some (7 # 8))) = Some d) /\
    (as_random_excerpt (Demo.aligned "valid" (Some (7 # 8))) = true
     <-> "valid"%string = "train"%string) /\
    (forall input_path output_path,
        (input_path, output_path)
          ∈ as_tuple_paths (Demo.aligned "valid" (Some (7 # 8))) <->
        exists track_folder,
          track_folder ∈ track_folders /\
          head (fs_glob Demo.world track_folder "mixture.wav") = Some input_path /\
          head (fs_glob Demo.world track_folder "vocals.wav") = Some output_path) /\
    0 <= AlignedSources_len (Demo.aligned "valid" (Some (7 # 8)))
      <= Z.of_nat (length track_folders).
Proof.
  apply (AlignedSources_constructor_establishes Demo.world "root" "valid"
           "mixture.wav" "vocals.wav" (Some (7 # 8)) 4).
  vm_compute. reflexivity.
Defined.

Lemma MixedSources_constructor_establishes_witness :
  exists d track_folders,
    Some 0%Q = Some d /\
    fs_dirs Demo.world !! path_join "root" "valid" = Some track_folders /\
    ((d <= 0)%Q /\
     ms_seq_duration
       (Demo.mixed "valid" None
          ["root/valid/t1"; "root/valid/t2"; "root/valid/t3"]%string) = None \/
     (0 < d)%Q /\
     ms_seq_duration
       (Demo.mixed "valid" None
          ["root/valid/t1"; "root/valid/t2"; "root/valid/t3"]%string) = Some d) /\
    (ms_augmentations
       (Demo.mixed "valid" None
          ["root/valid/t1"; "root/valid/t2"; "root/valid/t3"]%string) = true
     <-> "valid"%string = "train"%string) /\
    ms_tracks
      (Demo.mixed "valid" None
         ["root/valid/t1"; "root/valid/t2"; "root/valid/t3"]%string)
    = track_folders /\
    MixedSources_len
      (Demo.mixed "valid" None
         ["root/valid/t1"; "root/valid/t2"; "root/valid/t3"]%string)
    = Z.of_nat (length track_folders) /\
    ms_interferers
      (Demo.mixed "valid" None
         ["root/valid/t1"; "root/valid/t2"; "root/valid/t3"]%string)
      ++ [ms_target_file
            (Demo.mixed "valid" None
               ["root/valid/t1"; "root/valid/t2"; "root/valid/t3"]%string)]
    = ["bass.wav"%string] ++ ["vocals.wav"%string].
Proof.
  apply (MixedSources_constructor_establishes Demo.world "root" "valid"
           "vocals.wav" ["bass.wav"%string] (Some 0%Q) 4).
  vm_compute. reflexivity.
Defined.

(** ** Indices out of range *)

Lemma py_getitem_out_of_range {X} (l : list X) (i : Z) :
  Z.of_nat (length l) <= i \/ i < - Z.of_nat (length l) ->
  py_getitem l i = Raised IndexError.
Proof.
  intros Hout. unfold py_getitem, py_position.
  destruct (Z.ltb_spec i 0); simpl.
  - destruct (Z.leb_spec 0 (i + Z.of_nat (length l))); [|done].
    destruct (Z.ltb_spec (i + Z.of_nat (length l)) (Z.of_nat (length l)));
      [lia|done].
  - destruct (Z.leb_spec 0 i); [|done].
    destruct (Z.ltb_spec i (Z.of_nat (length l))); [lia|done].
Qed.

Section IndexFacts.
Context {A : Type} `{SampleOps A}.
Variable E : env A.

Lemma AlignedSources_out_of_range (self : AlignedSources) fuel index r :
  AlignedSources_len self <= index \/ index < - AlignedSources_len self ->
  AlignedSources_getitem E (S fuel) self index r = Raised IndexError.
Proof.
  intros Hout. unfold AlignedSources_getitem. simpl.
  unfold bind at 1. unfold AlignedSources_body, bind, lift.
  by rewrite py_getitem_out_of_range.
Qed.

(** X12. [AlignedSources.__getitem__] raises [IndexError] for every
    index that is not in [[-len, len)]; in particular for every index
    when the index of pairs is empty. *)
Theorem aligned_index_out_of_range_raises (self : AlignedSources) fuel index r :
  AlignedSources_len self <= index \/ index < - AlignedSources_len self ->
  AlignedSources_getitem E (S fuel) self index r = Raised IndexError.
Proof. apply AlignedSources_out_of_range. Qed.

(** X13. [MixedSources.__getitem__] raises [IndexError] outside the
    training split for every index that is not in [[-len, len)], and in
    every split when there is no track folder at all. *)
Theorem mixed_index_out_of_range_raises (self : MixedSources) fuel index r :
  (ms_augmentations self = false /\
   (MixedSources_len self <= index \/ index < - MixedSources_len self)) \/
  ms_tracks self = [] ->
  MixedSources_getitem E (S fuel) self index r = Raised IndexError.
Proof.
  intros Hout. unfold MixedSources_getitem. simpl.
  unfold bind at 1. unfold MixedSources_body, bind.
  assert (forall source,
             MixedSources_source E self index source r = Raised IndexError)
    as Hsource.
  { intros source. unfold MixedSources_source, bind, MixedSources_track_dir.
    destruct Hout as [[Heval Hrange]|Hempty].
    - rewrite Heval. unfold lift. by rewrite py_getitem_out_of_range.
    - rewrite Hempty. destruct (ms_augmentations self); [done|].
      unfold lift. rewrite py_getitem_out_of_range; [done|]. simpl. lia. }
  destruct (ms_interferers self) as [|source rest]; simpl; unfold bind;
    by rewrite Hsource.
Qed.

End IndexFacts.

Lemma aligned_index_out_of_range_raises_witness :
  AlignedSources_getitem Demo.world 3 (Demo.aligned "valid" (Some 1%Q)) (-2)
    (Demo.constant_rng 0) = Raised IndexError.
Proof.
  apply (aligned_index_out_of_range_raises Demo.world
           (Demo.aligned "valid" (Some 1%Q)) 2%nat (-2) (Demo.constant_rng 0)).
  right. vm_compute. reflexivity.
Defined.

Lemma mixed_index_out_of_range_raises_witness :
  MixedSources_getitem Demo.world 1
    (Demo.mixed "valid" (Some 1%Q) ["root/valid/t3"%string]) 1
    (Demo.constant_rng 0) = Raised IndexError /\
  MixedSources_getitem Demo.world 1 (Demo.mixed "train" (Some 1%Q) []) 0
    (Demo.constant_rng 0) = Raised IndexError.
Proof.
  split.
  - apply (mixed_index_out_of_range_raises Demo.world
             (Demo.mixed "valid" (Some 1%Q) ["root/valid/t3"%string]) 0%nat 1
             (Demo.constant_rng 0)).
    left. split; [reflexivity|]. left. vm_compute. discriminate.
  - apply (mixed_index_out_of_range_raises Demo.world
             (Demo.mixed "train" (Some 1%Q) []) 0%nat 0 (Demo.constant_rng 0)).
    right. reflexivity.
Defined.

(** ** Healthy and failing pairs *)

Lemma py_min_bounds (a b d : Q) :
  (d <= a)%Q -> (d <= b)%Q ->
  Qltb (py_min a b) d = false /\
  (d <= py_min a b)%Q /\ (py_min a b <= a)%Q /\ (py_min a b <= b)%Q.
Proof.
  intros Ha Hb. unfold py_min, Qltb.
  destruct (Qle_bool a b) eqn:Hab; simpl.
  - apply Qle_bool_iff in Hab.
    split; [|split; [done|split; [apply Qle_refl|done]]].
    apply negb_false_iff. by apply Qle_bool_iff.
  - assert (b < a)%Q as Hlt.
    { apply Qnot_le_lt. intros Hle. apply Qle_bool_iff in Hle. congruence. }
    split; [|split; [done|split; [by apply Qlt_le_weak|apply Qle_refl]]].
    apply negb_false_iff. by apply Qle_bool_iff.
Qed.

Lemma py_min_below (a b d : Q) :
  Qltb (py_min a b) d = false -> (d <= a)%Q /\ (d <= b)%Q.
Proof.
  unfold py_min, Qltb. intros Hmin.
  apply negb_false_iff, Qle_bool_iff in Hmin.
  destruct (Qle_bool a b) eqn:Hab; simpl in Hmin.
  - apply Qle_bool_iff in Hab. split; [done|]. by eapply Qle_trans.
  - assert (b < a)%Q as Hlt.
    { apply Qnot_le_lt. intros Hle. apply Qle_bool_iff in Hle. congruence. }
    split; [|done]. eapply Qle_trans; [exact Hmin|by apply Qlt_le_weak].
Qed.

Section PairFacts.
Context {A : Type} `{SampleOps A}.
Variable E : env A.

(** What the start of a pass is, in the training split. *)
Lemma AlignedSources_start_drawn (self : AlignedSources) ii oi d r :
  as_random_excerpt self = true ->
  as_seq_duration self = Some d ->
  AlignedSources_start self ii oi r =
  if Qltb (py_min (duration ii) (duration oi)) d
  then Returned (None, r)
  else Returned (Some (0 + (py_min (duration ii) (duration oi) - d - 0)
                             * next_draw r)%Q,
                 advance r).
Proof.
  intros Hrand Hd. unfold AlignedSources_start, bind, lift.
  rewrite Hrand, Hd. simpl.
  by destruct (Qltb (py_min (duration ii) (duration oi)) d).
Qed.

(** X14. In the training split the start [AlignedSources] draws leaves
    room for the whole window in both files: [0 <= start] and
    [start + seq_duration] is at most the duration of either file. No
    start is drawn, and the pass ends in a retry, exactly when one of
    the two files is shorter than [seq_duration]. *)
Theorem aligned_window_lies_inside_both_files (self : AlignedSources)
    (input_info output_info : info) (d : Q) (r : rng) :
  as_random_excerpt self = true ->
  as_seq_duration self = Some d ->
  (forall start r',
      AlignedSources_start self input_info output_info r
        = Returned (Some start, r') ->
      r' = advance r /\
      (0 <= start)%Q /\
      (start + d <= duration input_info)%Q /\
      (start + d <= duration output_info)%Q) /\
  (AlignedSources_start self input_info output_info r = Returned (None, r) <->
   (duration input_info < d)%Q \/ (duration output_info < d)%Q).
Proof.
  intros Hrand Hd.
  rewrite (AlignedSources_start_drawn self input_info output_info d r Hrand Hd).
  destruct (Qltb (py_min (duration input_info) (duration output_info)) d)
    eqn:Hshort.
  - split; [intros start r' Hk; discriminate|]. split; [intros _|done].
    destruct (Qlt_le_dec (duration input_info) d) as [Hi|Hi]; [by left|].
    destruct (Qlt_le_dec (duration output_info) d) as [Ho|Ho]; [by right|].
    destruct (py_min_bounds _ _ _ Hi Ho) as [Hno _]. congruence.
  - destruct (py_min_below _ _ _ Hshort) as [Hi Ho]. split.
    + intros start r' Hk. inversion Hk; subst. clear Hk.
      destruct (py_min_bounds _ _ _ Hi Ho) as (_ & Hge & Hle1 & Hle2).
      destruct (next_draw_range r) as [Hlo Hhi].
      set (m := py_min (duration input_info) (duration output_info)) in *.
      split; [done|]. repeat split; nra.
    + split; [discriminate|]. intros [Hlt|Hlt]; exfalso.
      * apply (Qlt_not_le _ _ Hlt Hi).
      * apply (Qlt_not_le _ _ Hlt Ho).
Qed.

(** A window inside the probed duration of a healthy file is read, in
    full. *)
Lemma audioloader_healthy (path : string) (f : audio_file A)
    (start d d0 : Q) :
  healthy_file E d0 path f ->
  (0 < d)%Q -> (0 <= start)%Q ->
  (start + d <= probed_duration f)%Q ->
  exists w,
    audioloader E path start (Some d) = Returned w /\
    Z.of_nat (snd (shape w)) = py_int_mul d (Z.pos (af_rate f)).
Proof.
  intros (Hf & Hopens & Hdec & Hc & Hsmall & _) Hd Hs Hfit.
  pose proof (audioinfo_present E path f Hf Hopens Hc) as Hinfo.
  pose proof (audioloader_present E path f start (Some d) Hf Hopens Hc)
    as Hload.
  rewrite Hdec in Hload.
  assert (exists w, audioloader E path start (Some d) = Returned w) as [w Hw].
  { rewrite Hload. simpl. destruct (torchaudio_loaded E); eauto. }
  exists w. split; [done|].
  apply (audioloader_exact E path start d w (probed_info E f));
    try done.
  intros f' Hf'. rewrite Hf in Hf'. by inversion Hf'; subst.
Qed.

(** X15. A healthy pair is returned at its own index, in the first
    pass: when both files of the pair at [index] are there, open,
    decode, have a channel and fewer than [2^51] frames, and are
    probed to last at least the positive [seq_duration],
    [AlignedSources.__getitem__] returns the two windows from one start
    inside both files, each of [int(seq_duration * rate)] samples at
    the rate of its file, having made one draw in the training split
    and none otherwise. *)
Theorem aligned_healthy_pair_is_returned (self : AlignedSources) fuel index r
    input_path output_path fi fo d :
  as_seq_duration self = Some d -> (0 < d)%Q ->
  py_getitem (as_tuple_paths self) index = Returned (input_path, output_path) ->
  healthy_file E d input_path fi ->
  healthy_file E d output_path fo ->
  exists X Y start,
    AlignedSources_getitem E (S fuel) self index r
      = Returned ((X, Y), if as_random_excerpt self then advance r else r) /\
    (0 <= start)%Q /\
    audioloader E input_path start (Some d) = Returned X /\
    audioloader E output_path start (Some d) = Returned Y /\
    Z.of_nat (snd (shape X)) = py_int_mul d (Z.pos (af_rate fi)) /\
    Z.of_nat (snd (shape Y)) = py_int_mul d (Z.pos (af_rate fo)).
Proof.
  intros Hd Hpos Hpaths Hhi Hho.
  pose proof Hhi as (Hfi & Hopi & Hdi & Hci & _ & Hlong_i).
  pose proof Hho as (Hfo & Hopo & Hdo & Hco & _ & Hlong_o).
  pose proof (audioinfo_present E input_path fi Hfi Hopi Hci) as Hii.
  pose proof (audioinfo_present E output_path fo Hfo Hopo Hco) as Hoi.
  set (ii := probed_info E fi) in *. set (oi := probed_info E fo) in *.
  assert (duration ii = probed_duration fi) as Hdur_i by done.
  assert (duration oi = probed_duration fo) as Hdur_o by done.
  assert (exists start r',
             AlignedSources_start self ii oi r = Returned (Some start, r') /\
             r' = (if as_random_excerpt self then advance r else r) /\
             (0 <= start)%Q /\
             (start + d <= duration ii)%Q /\ (start + d <= duration oi)%Q)
    as (start & r' & Hstart & Hr' & Hs0 & Hsi & Hso).
  { rewrite <- Hdur_i in Hlong_i. rewrite <- Hdur_o in Hlong_o.
    destruct (as_random_excerpt self) eqn:Hrand.
    - rewrite (AlignedSources_start_drawn self ii oi d r Hrand Hd).
      destruct (py_min_bounds (duration ii) (duration oi) d Hlong_i Hlong_o)
        as (Hno & Hge & Hle1 & Hle2).
      rewrite Hno. do 2 eexists. split; [reflexivity|]. split; [done|].
      destruct (next_draw_range r) as [Hlo Hhi'].
      set (m := py_min (duration ii) (duration oi)) in *.
      repeat split; nra.
    - exists 0%Q, r. rewrite AlignedSources_start_fixed by done.
      split; [done|]. split; [done|]. split; [apply Qle_refl|].
      split; lra. }
  rewrite Hdur_i in Hsi. rewrite Hdur_o in Hso.
  destruct (audioloader_healthy input_path fi start d d Hhi Hpos Hs0 Hsi)
    as (X & HX & HnX).
  destruct (audioloader_healthy output_path fo start d d Hho Hpos Hs0 Hso)
    as (Y & HY & HnY).
  exists X, Y, start. repeat split; try done.
  unfold AlignedSources_getitem. apply retrying_done.
  unfold AlignedSources_body, bind, lift.
  rewrite Hpaths. simpl. rewrite Hii. simpl. rewrite Hoi. simpl.
  rewrite Hstart. rewrite Hd, HX, HY.
  unfold AlignedSources_too_short, py_int_mul_opt, obind. rewrite Hd.
  subst ii oi. simpl samplerate.
  rewrite HnX, HnY, !Z.ltb_irrefl. simpl. by rewrite Hr'.
Qed.

(** X16. With a single pair in the index, a per-example failure of
    that pair reaches the caller as an [IndexError]: the retry goes to
    index 1, which is past the end. *)
Theorem aligned_single_failing_pair_raises (self : AlignedSources) fuel r r1 :
  AlignedSources_len self = 1 ->
  aligned_failure E self 0 r r1 ->
  AlignedSources_getitem E (S (S fuel)) self 0 r = Raised IndexError.
Proof.
  intros Hlen Hfail. unfold AlignedSources_getitem.
  rewrite (retrying_retry _ (S fuel) 0 (neighbour 0) r r1)
    by by apply AlignedSources_failure_retries.
  apply AlignedSources_out_of_range. left. rewrite Hlen. reflexivity.
Qed.

(** X17. The retry has no bound: when the passes at index 0 and at
    index 1 both fail in every generator state, [__getitem__] at either
    index goes from one to the other and never returns, whatever the
    fuel. *)
Theorem aligned_two_failing_neighbours_never_return (self : AlignedSources) :
  (forall r, exists r1, aligned_failure E self 0 r r1) ->
  (forall r, exists r1, aligned_failure E self 1 r r1) ->
  forall fuel r,
    AlignedSources_getitem E fuel self 0 r = Unfinished /\
    AlignedSources_getitem E fuel self 1 r = Unfinished.
Proof.
  intros Hzero Hone. unfold AlignedSources_getitem.
  induction fuel as [|fuel IH]; intros r; [done|]. split.
  - destruct (Hzero r) as (r1 & Hfail).
    rewrite (retrying_retry _ fuel 0 (neighbour 0) r r1)
      by by apply AlignedSources_failure_retries.
    apply IH.
  - destruct (Hone r) as (r1 & Hfail).
    rewrite (retrying_retry _ fuel 1 (neighbour 1) r r1)
      by by apply AlignedSources_failure_retries.
    apply IH.
Qed.

End PairFacts.

Lemma aligned_window_lies_inside_both_files_witness :
  (forall start r',
      AlignedSources_start (Demo.aligned "train" (Some 1%Q))
        {| samplerate := 4; samples := 12; duration := 12 / 4 |}
        {| samplerate := 4; samples := 8; duration := 8 / 4 |}
        (Demo.constant_rng (1 # 2)) = Returned (Some start, r') ->
      r' = advance (Demo.constant_rng (1 # 2)) /\
      (0 <= start)%Q /\
      (start + 1 <= 12 / 4)%Q /\
      (start + 1 <= 8 / 4)%Q) /\
  (AlignedSources_start (Demo.aligned "train" (Some 1%Q))
     {| samplerate := 4; samples := 12; duration := 12 / 4 |}
     {| samplerate := 4; samples := 8; duration := 8 / 4 |}
     (Demo.constant_rng (1 # 2)) = Returned (None, Demo.constant_rng (1 # 2))
   <-> (12 / 4 < 1)%Q \/ (8 / 4 < 1)%Q).
Proof.
  apply (aligned_window_lies_inside_both_files
           (Demo.aligned "train" (Some 1%Q))
           {| samplerate := 4; samples := 12; duration := 12 / 4 |}
           {| samplerate := 4; samples := 8; duration := 8 / 4 |}
           1%Q (Demo.constant_rng (1 # 2))); reflexivity.
Defined.

Lemma aligned_healthy_pair_is_returned_witness :
  exists X Y start,
    AlignedSources_getitem Demo.world 1 (Demo.aligned_alike "valid" (Some 1%Q))
      0 (Demo.constant_rng 0)
    = Returned ((X, Y),
                if as_random_excerpt (Demo.aligned_alike "valid" (Some 1%Q))
                then advance (Demo.constant_rng 0) else Demo.constant_rng 0) /\
    (0 <= start)%Q /\
    audioloader Demo.world "root/valid/t1/mixture.wav" start (Some 1%Q)
      = Returned X /\
    audioloader Demo.world "root/valid/t1/bass.wav" start (Some 1%Q)
      = Returned Y /\
    Z.of_nat (snd (shape X)) = py_int_mul 1 (Z.pos (af_rate Demo.mono)) /\
    Z.of_nat (snd (shape Y)) = py_int_mul 1 (Z.pos (af_rate Demo.mono)).
Proof.
  apply (aligned_healthy_pair_is_returned Demo.world
           (Demo.aligned_alike "valid" (Some 1%Q)) 0%nat 0 (Demo.constant_rng 0)
           "root/valid/t1/mixture.wav" "root/valid/t1/bass.wav"
           Demo.mono Demo.mono 1%Q).
  - reflexivity.
  - reflexivity.
  - vm_compute. reflexivity.
  - repeat split; vm_compute; congruence.
  - repeat split; vm_compute; congruence.
Defined.

Lemma demo_pair_too_short (r : rng) :
  aligned_failure Demo.world (Demo.aligned "valid" (Some 4%Q)) 0 r r.
Proof.
  eapply (aligned_excerpt_too_short Demo.world _ 0 r
            "root/valid/t1/mixture.wav"%string
            "root/valid/t1/vocals.wav"%string
            {| samplerate := 4; samples := 12; duration := 12 / 4 |}
            {| samplerate := 4; samples := 12; duration := 12 / 4 |}
            0%Q r 4%Q
            [Demo.ramp 1 12] [Demo.ramp 1 12; Demo.ramp 101 12]);
    try (vm_compute; reflexivity).
  left. vm_compute. reflexivity.
Qed.

Lemma aligned_single_failing_pair_raises_witness :
  AlignedSources_getitem Demo.world 2 (Demo.aligned "valid" (Some 4%Q)) 0
    (Demo.constant_rng 0) = Raised IndexError.
Proof.
  apply (aligned_single_failing_pair_raises Demo.world
           (Demo.aligned "valid" (Some 4%Q)) 0%nat (Demo.constant_rng 0)
           (Demo.constant_rng 0)).
  - reflexivity.
  - apply demo_pair_too_short.
Defined.

Lemma demo_two_pairs_too_short (r : rng) :
  aligned_failure Demo.world (Demo.aligned_two "valid" (Some 4%Q)) 0 r r /\
  aligned_failure Demo.world (Demo.aligned_two "valid" (Some 4%Q)) 1 r r.
Proof.
  split.
  - eapply (aligned_excerpt_too_short Demo.world _ 0 r
              "root/valid/t1/mixture.wav"%string
              "root/valid/t1/vocals.wav"%string
              {| samplerate := 4; samples := 12; duration := 12 / 4 |}
              {| samplerate := 4; samples := 12; duration := 12 / 4 |}
              0%Q r 4%Q
              [Demo.ramp 1 12] [Demo.ramp 1 12; Demo.ramp 101 12]);
      try (vm_compute; reflexivity).
    left. vm_compute. reflexivity.
  - eapply (aligned_excerpt_too_short Demo.world _ 1 r
              "root/valid/t3/bass.wav"%string
              "root/valid/t3/vocals.wav"%string
              {| samplerate := 4; samples := 12; duration := 12 / 4 |}
              {| samplerate := 4; samples := 12; duration := 12 / 4 |}
              0%Q r 4%Q
              [Demo.ramp 1 12] [Demo.ramp 1 12]);
      try (vm_compute; reflexivity).
    left. vm_compute. reflexivity.
Qed.

Lemma aligned_two_failing_neighbours_never_return_witness :
  AlignedSources_getitem Demo.world 9
    (Demo.aligned_two "valid" (Some 4%Q)) 0 (Demo.constant_rng 0)
  = Unfinished /\
  AlignedSources_getitem Demo.world 9
    (Demo.aligned_two "valid" (Some 4%Q)) 1 (Demo.constant_rng 0)
  = Unfinished.
Proof.
  apply (aligned_two_failing_neighbours_never_return Demo.world
           (Demo.aligned_two "valid" (Some 4%Q))).
  - intros r. exists r. apply demo_two_pairs_too_short.
  - intros r. exists r. apply demo_two_pairs_too_short.
Defined.

(** ** MixedSources and its index *)

Section MixedIndexFacts.
Context {A : Type} `{SampleOps A}.
Variable E : env A.

Lemma MixedSources_source_train_index (self : MixedSources) i j source r :
  ms_augmentations self = true ->
  forget_retry (MixedSources_source E self i source r)
  = forget_retry (MixedSources_source E self j source r).
Proof.
  intros Htrain. unfold MixedSources_source, MixedSources_track_dir, bind.
  rewrite Htrain.
  destruct (random_choice (ms_tracks self) r) as [[track_dir r1]| |]; [|done..].
  destruct (path_exists E _); [|done].
  unfold lift. destruct (audioinfo E _) as [input_info| |]; [|done..]. simpl.
  destruct (py_lt_opt _ _) as [[|]| |]; [reflexivity| |reflexivity..].
  simpl.
  destruct (py_sub_opt _ _) as [room| |]; [|reflexivity..]. simpl.
  destruct (audioloader E _ _ _) as [X|[]|]; reflexivity.
Qed.

Lemma MixedSources_loop_train_index (self : MixedSources) i j sources acc r :
  ms_augmentations self = true ->
  forget_retry (MixedSources_loop E self i sources acc r)
  = forget_retry (MixedSources_loop E self j sources acc r).
Proof.
  intros Htrain. revert acc r.
  induction sources as [|source rest IH]; intros acc r; [done|].
  simpl. unfold bind.
  pose proof (MixedSources_source_train_index self i j source r Htrain) as Hs.
  destruct (MixedSources_source E self i source r) as [[[X|i'] r1]| |],
           (MixedSources_source E self j source r) as [[[X'|j'] r1']| |];
    simpl in Hs; try discriminate; inversion Hs; subst; try done.
Qed.

Lemma MixedSources_body_train_index (self : MixedSources) i j r :
  ms_augmentations self = true ->
  forget_retry (MixedSources_body E self i r)
  = forget_retry (MixedSources_body E self j r).
Proof.
  intros Htrain. unfold MixedSources_body, bind.
  pose proof (MixedSources_loop_train_index self i j
                (ms_interferers self ++ [ms_target_file self]) [] r Htrain)
    as Hl.
  destruct (MixedSources_loop E self i _ [] r) as [[[stems|i'] r1]| |],
           (MixedSources_loop E self j _ [] r) as [[[stems'|j'] r1']| |];
    simpl in Hl; try discriminate; inversion Hl; subst; done.
Qed.

(** X18. In the training split [MixedSources.__getitem__] does not
    depend on its index: the folders are drawn, and the index only
    names where a retry goes, which is read by nothing. From one
    generator state any two indices give the same outcome. *)
Theorem mixed_training_ignores_index (self : MixedSources) fuel i j r :
  ms_augmentations self = true ->
  MixedSources_getitem E fuel self i r = MixedSources_getitem E fuel self j r.
Proof.
  intros Htrain. unfold MixedSources_getitem. revert i j r.
  induction fuel as [|fuel IH]; intros i j r; [done|].
  simpl. unfold bind.
  pose proof (MixedSources_body_train_index self i j r Htrain) as Hb.
  destruct (MixedSources_body E self i r) as [[[xy|i'] r1]| |],
           (MixedSources_body E self j r) as [[[xy'|j'] r1']| |];
    simpl in Hb; try discriminate; inversion Hb; subst; try done.
Qed.

(** X19. Outside the training split, an index whose folder lacks the
    file of the first source never returns: the pass asks for a retry
    at the same index, in every generator state, so no amount of fuel
    is enough. *)
Theorem mixed_evaluation_missing_stem_never_returns (self : MixedSources)
    index track_dir source rest :
  ms_augmentations self = false ->
  py_getitem (ms_tracks self) index = Returned track_dir ->
  ms_interferers self ++ [ms_target_file self] = source :: rest ->
  path_exists E (path_join track_dir source) = false ->
  forall fuel r, MixedSources_getitem E fuel self index r = Unfinished.
Proof.
  intros Heval Hdir Hsources Hmissing.
  assert (forall r, MixedSources_body E self index r = Returned (Retry index, r))
    as Hbody.
  { intros r. unfold MixedSources_body. rewrite Hsources. simpl.
    unfold bind, MixedSources_source, MixedSources_track_dir, bind, lift.
    rewrite Heval, Hdir. simpl. by rewrite Hmissing. }
  unfold MixedSources_getitem.
  induction fuel as [|fuel IH]; intros r; [done|].
  rewrite (retrying_retry _ fuel index index r r (Hbody r)). apply IH.
Qed.

End MixedIndexFacts.

Lemma mixed_training_ignores_index_witness :
  MixedSources_getitem Demo.world 3
    (Demo.mixed "train" (Some 1%Q) ["root/train/t1"; "root/train/t2"]%string)
    0 (Demo.spike_rng 0 (1 # 2))
  = MixedSources_getitem Demo.world 3
      (Demo.mixed "train" (Some 1%Q) ["root/train/t1"; "root/train/t2"]%string)
      7 (Demo.spike_rng 0 (1 # 2)).
Proof.
  apply (mixed_training_ignores_index Demo.world
           (Demo.mixed "train" (Some 1%Q)
              ["root/train/t1"; "root/train/t2"]%string)
           3%nat 0 7 (Demo.spike_rng 0 (1 # 2))).
  reflexivity.
Defined.

Lemma mixed_evaluation_missing_stem_never_returns_witness :
  MixedSources_getitem Demo.world 9
    (Demo.mixed "valid" (Some 1%Q)
       ["root/valid/t1"; "root/valid/t2"; "root/valid/t3"]%string)
    1 (Demo.constant_rng 0)
  = Unfinished.
Proof.
  apply (mixed_evaluation_missing_stem_never_returns Demo.world
           (Demo.mixed "valid" (Some 1%Q)
              ["root/valid/t1"; "root/valid/t2"; "root/valid/t3"]%string)
           1 "root/valid/t2" "bass.wav" ["vocals.wav"%string]);
    vm_compute; reflexivity.
Defined.

(** ** The curated corpus *)

Section CorpusFurther.
Context {A : Type} `{SampleOps A}.

Lemma same_recordings_refl (t : track A) : same_recordings t t.
Proof. by repeat split. Qed.

Lemma same_recordings_trans (t1 t2 t3 : track A) :
  same_recordings t1 t2 -> same_recordings t2 t3 -> same_recordings t1 t3.
Proof.
  intros (?&?&?&?&?) (?&?&?&?&?). repeat split; congruence.
Qed.

Lemma Forall2_same_recordings_refl (l : list (track A)) :
  Forall2 same_recordings l l.
Proof. induction l; constructor; [apply same_recordings_refl|done]. Qed.

Lemma Forall2_same_recordings_trans (l1 l2 l3 : list (track A)) :
  Forall2 same_recordings l1 l2 -> Forall2 same_recordings l2 l3 ->
  Forall2 same_recordings l1 l3.
Proof.
  intros H12. revert l3. induction H12; intros l3 H23; inversion H23; subst;
    constructor; [by eapply same_recordings_trans|by apply IHForall2].
Qed.

Lemma Forall2_same_recordings_insert (l : list (track A)) ref t start d :
  l !! ref = Some t ->
  Forall2 same_recordings l (<[ref := window_of t start d]> l).
Proof.
  intros Hl. rewrite <- (list_insert_id l ref t Hl) at 1.
  apply Forall2_insert; [apply Forall2_same_recordings_refl|].
  by repeat split.
Qed.

Lemma set_chunk_duration_returned ref d (s s' : corpus_state A) u :
  set_chunk_duration ref d s = Returned (u, s') ->
  exists t,
    mus_tracks s !! ref = Some t /\
    s' = {| generator := generator s;
            mus_tracks := <[ref := window_of t (chunk_start t) d]>
                            (mus_tracks s) |}.
Proof.
  unfold set_chunk_duration.
  destruct (mus_tracks s !! ref) as [t|]; intros Hk; [|discriminate].
  inversion Hk; subst. by exists t.
Qed.

Lemma set_chunk_start_returned ref start (s s' : corpus_state A) u :
  set_chunk_start ref start s = Returned (u, s') ->
  exists t,
    mus_tracks s !! ref = Some t /\
    s' = {| generator := generator s;
            mus_tracks := <[ref := window_of t start (chunk_duration t)]>
                            (mus_tracks s) |}.
Proof.
  unfold set_chunk_start.
  destruct (mus_tracks s !! ref) as [t|]; intros Hk; [|discriminate].
  inversion Hk; subst. by exists t.
Qed.

Lemma tracks_choice_returned (s s' : corpus_state A) ref :
  tracks_choice s = Returned (ref, s') ->
  mus_tracks s' = mus_tracks s /\ (ref < length (mus_tracks s))%nat.
Proof.
  unfold tracks_choice. intros (g' & Hp & ->)%with_generator_returned.
  split; [done|].
  unfold random_position in Hp. destruct (length (mus_tracks s)) eqn:Hn;
    [discriminate|].
  apply bind_returned in Hp as (u & g1 & _ & Hp).
  apply lift_returned in Hp as [Hp _]. by apply py_position_lt in Hp.
Qed.

(** One round of the training loop: the track it reads, the window it
    sets on it, the stem it appends and the state it leaves. *)
Lemma MUSDBDataset_loop_cons (self : MUSDBDataset A) k source rest track
    target_ind acc (s : corpus_state A) result :
  MUSDBDataset_loop self k (source :: rest) track target_ind acc s
    = Returned result ->
  exists track' t room start recording audio r r' g g' s2,
    (if md_random_track_mix self
     then (track' < length (mus_tracks s))%nat else track' = track) /\
    mus_tracks s !! track' = Some t /\
    py_sub_opt (tr_duration t) (md_seq_duration self) = Returned room /\
    random_uniform 0 room r = Returned (start, r') /\
    tr_sources t !! source = Some recording /\
    md_source_augmentations self
      (excerpt (window_of t start (md_seq_duration self)) recording) g
    = Returned (audio, g') /\
    mus_tracks s2
    = <[track' := window_of t start (md_seq_duration self)]> (mus_tracks s) /\
    MUSDBDataset_loop self (S k) rest track'
      (if String.eqb source (md_target self) then Some k else target_ind)
      (acc ++ [audio]) s2
    = Returned result.
Proof.
  destruct result as [result s']. simpl. intros Hk.
  apply bind_returned in Hk as (track' & s0 & Hchoice & Hk).
  apply bind_returned in Hk as (u1 & s1 & Hdur & Hk).
  apply bind_returned in Hk as (t1 & s1' & Hget & Hk).
  apply bind_returned in Hk as (room & s1'' & Hroom & Hk).
  apply bind_returned in Hk as (start & s2 & Hstart & Hk).
  apply bind_returned in Hk as (u2 & s3 & Hset & Hk).
  apply bind_returned in Hk as (raw & s3' & Hraw & Hk).
  apply bind_returned in Hk as (audio & s4 & Haug & Hk).
  assert (mus_tracks s0 = mus_tracks s /\
          if md_random_track_mix self
          then (track' < length (mus_tracks s))%nat else track' = track)
    as [Htracks0 Hwhich].
  { destruct (md_random_track_mix self).
    - by apply tracks_choice_returned in Hchoice.
    - by apply ret_returned in Hchoice as [-> ->]. }
  apply set_chunk_duration_returned in Hdur as (t & Ht & ->).
  rewrite Htracks0 in Ht.
  apply get_track_returned in Hget as [Hget ->]. simpl in Hget.
  rewrite Htracks0 in Hget.
  rewrite list_lookup_insert_eq in Hget
    by (by eapply lookup_lt_Some).
  inversion Hget; subst t1; clear Hget.
  apply lift_returned in Hroom as [Hroom ->]. simpl in Hroom.
  apply with_generator_returned in Hstart as (g1 & Hdraw & ->).
  simpl generator in Hdraw.
  apply set_chunk_start_returned in Hset as (t2 & Ht2 & ->).
  simpl in Ht2. rewrite Htracks0 in Ht2.
  rewrite list_lookup_insert_eq in Ht2 by (by eapply lookup_lt_Some).
  inversion Ht2; subst t2; clear Ht2. simpl in Hraw.
  pose proof (track_source_audio_pure _ _ _ _ _ Hraw) as ->.
  unfold track_source_audio in Hraw.
  apply bind_returned in Hraw as (t3 & s5 & Hget & Hraw).
  apply get_track_returned in Hget as [Hget ->]. simpl in Hget.
  rewrite Htracks0, list_insert_insert_eq in Hget.
  rewrite list_lookup_insert_eq in Hget by (by eapply lookup_lt_Some).
  inversion Hget; subst t3; clear Hget. simpl in Hraw.
  destruct (tr_sources t !! source) as [recording|] eqn:Hrec;
    [|discriminate].
  apply ret_returned in Hraw as [-> _].
  apply with_generator_returned in Haug as (g' & Haug & ->).
  simpl in Haug.
  eexists track', t, room, start, recording, audio, _, g1, _, g', _.
  split; [exact Hwhich|]. split; [exact Ht|]. split; [exact Hroom|].
  split; [exact Hdraw|]. split; [exact Hrec|].
  split; [exact Haug|]. split; [|exact Hk].
  simpl. by rewrite Htracks0, list_insert_insert_eq.
Qed.


Lemma MUSDBDataset_loop_keeps_recordings (self : MUSDBDataset A) sources :
  forall k track target_ind acc (s : corpus_state A) result s',
    MUSDBDataset_loop self k sources track target_ind acc s
      = Returned (result, s') ->
    Forall2 same_recordings (mus_tracks s) (mus_tracks s').
Proof.
  induction sources as [|source rest IH];
    intros k track target_ind acc s result s' Hk.
  - apply ret_returned in Hk as [_ ->]. apply Forall2_same_recordings_refl.
  - apply MUSDBDataset_loop_cons in Hk
      as (track' & t & room & start & recording & audio & r & r' & g & g'
          & s2 & _ & Ht & _ & _ & _ & _ & Hs2 & Hk).
    apply IH in Hk. rewrite Hs2 in Hk.
    eapply Forall2_same_recordings_trans; [|exact Hk].
    by apply Forall2_same_recordings_insert.
Qed.


(** Where the loop leaves the position of the target: at its last
    occurrence among the sources. *)
Lemma MUSDBDataset_loop_target (self : MUSDBDataset A) sources :
  forall k track target_ind acc (s : corpus_state A) target_ind' stems s',
    md_target self ∈ sources ->
    MUSDBDataset_loop self k sources track target_ind acc s
      = Returned ((target_ind', stems), s') ->
    exists i, target_ind' = Some (k + i)%nat /\
              sources !! i = Some (md_target self).
Proof.
  induction sources as [|source rest IH];
    intros k track target_ind acc s target_ind' stems s' Hin Hk.
  - by apply elem_of_nil in Hin.
  - pose proof Hk as Hk0.
    apply MUSDBDataset_loop_cons in Hk
      as (track' & t1 & room & start & recording & audio & r & r' & g & g'
          & s2 & _ & _ & _ & _ & _ & _ & _ & Hk).
    destruct (decide (md_target self ∈ rest)) as [Hrest|Hrest].
    + apply IH in Hk as (i & -> & Hi); [|done].
      exists (S i). split; [f_equal; lia|done].
    + apply MUSDBDataset_loop_returned in Hk as (added & _ & _ & Hind).
      rewrite (Hind Hrest).
      apply elem_of_cons in Hin as [Heq|Hin]; [|done].
      exists 0%nat. rewrite <- Heq, String.eqb_refl.
      split; [f_equal; lia|done].
Qed.

Lemma tracks_getitem_in_range (self : MUSDBDataset A) index
    (s : corpus_state A) :
  0 < md_samples_per_track self ->
  0 <= index < MUSDBDataset_len self s ->
  exists t,
    py_floordiv index (md_samples_per_track self)
      = Returned (index / md_samples_per_track self) /\
    tracks_getitem (index / md_samples_per_track self) s
      = Returned (Z.to_nat (index / md_samples_per_track self), s) /\
    mus_tracks s !! Z.to_nat (index / md_samples_per_track self) = Some t.
Proof.
  unfold MUSDBDataset_len. intros Hspt [Hlo Hhi].
  set (spt := md_samples_per_track self) in *.
  assert (0 <= index / spt < Z.of_nat (length (mus_tracks s))) as [Hq0 Hq1].
  { split; [apply Z.div_pos; lia|].
    apply Z.div_lt_upper_bound; lia. }
  destruct (lookup_lt_is_Some_2 (mus_tracks s) (Z.to_nat (index / spt)))
    as [t Ht]; [lia|].
  exists t. split; [|split; [|done]].
  - unfold py_floordiv. destruct (Z.eqb_spec spt 0); [lia|done].
  - unfold tracks_getitem, lift, py_position.
    destruct (Z.ltb_spec (index / spt) 0); [lia|].
    destruct (Z.leb_spec 0 (index / spt)); [|lia].
    destruct (Z.ltb_spec (index / spt) (Z.of_nat (length (mus_tracks s))));
      [done|lia].
Qed.

(** X20. Outside the training split [MUSDBDataset.__getitem__] serves
    every index from 0 up to the length: example [index] is the mixture
    and the target of track [index // samples_per_track], each inside
    the window now set on that track, and the whole recordings when the
    window starts at 0 and has no duration. Nothing is drawn and no
    track changes. A track without the target raises [KeyError]. *)
Theorem musdb_evaluation_reads_indexed_track (self : MUSDBDataset A) index
    (s : corpus_state A) :
  String.eqb (md_split self) "train" = false ->
  0 < md_samples_per_track self ->
  0 <= index < MUSDBDataset_len self s ->
  exists t,
    mus_tracks s !! Z.to_nat (index / md_samples_per_track self) = Some t /\
    MUSDBDataset_getitem self index s
    = match tr_targets t !! md_target self with
      | Some recording =>
          Returned ((excerpt t (tr_mixture t), excerpt t recording), s)
      | None => Raised KeyError
      end /\
    (chunk_start t = 0%Q -> chunk_duration t = None ->
     forall recording, excerpt t recording = recording).
Proof.
  intros Hsplit Hspt Hindex.
  destruct (tracks_getitem_in_range self index s Hspt Hindex)
    as (t & Hdiv & Hget & Ht).
  exists t. split; [done|]. split.
  - unfold MUSDBDataset_getitem, bind. rewrite Hdiv. simpl.
    rewrite Hget, Hsplit.
    unfold track_audio, track_target_audio, bind, get_track. rewrite Ht.
    simpl. rewrite Ht. simpl.
    destruct (tr_targets t !! md_target self); reflexivity.
  - intros Hstart Hdur recording. unfold excerpt. rewrite Hstart, Hdur.
    change (Z.to_nat (py_int_mul 0 (Z.pos (tr_rate t)))) with 0%nat.
    induction recording as [|ch rest IH]; [done|].
    simpl. by rewrite IH.
Qed.

(** X21. An index at or past the length raises [IndexError], in every
    split and before anything is drawn or set; so does every index on
    an empty corpus. *)
Theorem musdb_index_out_of_range_raises (self : MUSDBDataset A) index
    (s : corpus_state A) :
  0 < md_samples_per_track self ->
  MUSDBDataset_len self s <= index ->
  MUSDBDataset_getitem self index s = Raised IndexError.
Proof.
  unfold MUSDBDataset_len. intros Hspt Hindex.
  set (spt := md_samples_per_track self) in *.
  assert (Z.of_nat (length (mus_tracks s)) <= index / spt) as Hq.
  { apply Z.div_le_lower_bound; lia. }
  unfold MUSDBDataset_getitem, bind, py_floordiv. fold spt.
  destruct (Z.eqb_spec spt 0); [lia|]. simpl.
  unfold tracks_getitem, lift, py_position.
  destruct (Z.ltb_spec (index / spt) 0); [lia|].
  destruct (Z.leb_spec 0 (index / spt)); [|lia].
  by destruct (Z.ltb_spec (index / spt) (Z.of_nat (length (mus_tracks s))));
    [lia|].
Qed.

(** X22. [MUSDBDataset.__getitem__] never changes a recording: the
    tracks after a returned example are the tracks before, up to the
    excerpt windows the training loop set; outside the training split
    the state is untouched. *)
Theorem musdb_getitem_keeps_recordings (self : MUSDBDataset A) index
    (s s' : corpus_state A) x y :
  MUSDBDataset_getitem self index s = Returned ((x, y), s') ->
  Forall2 same_recordings (mus_tracks s) (mus_tracks s') /\
  (String.eqb (md_split self) "train" = false -> s' = s).
Proof.
  unfold MUSDBDataset_getitem. intros Hk.
  apply bind_returned in Hk as (i & s0 & Hdiv & Hk).
  apply lift_returned in Hdiv as [_ ->].
  apply bind_returned in Hk as (track & s0 & Hget & Hk).
  unfold tracks_getitem in Hget. apply lift_returned in Hget as [_ ->].
  destruct (String.eqb (md_split self) "train").
  - split; [|done].
    apply bind_returned in Hk as ([target_ind stems] & s1 & Hloop & Hk).
    apply MUSDBDataset_loop_keeps_recordings in Hloop.
    apply bind_returned in Hk as (stacked & s2 & Hstack & Hk).
    apply lift_returned in Hstack as [_ ->].
    destruct target_ind as [target_ind|]; repeat py_step; done.
  - apply bind_returned in Hk as (x0 & s1 & Hx & Hk).
    apply track_audio_pure in Hx as ->.
    apply bind_returned in Hk as (y0 & s2 & Hy & Hk).
    apply track_target_audio_pure in Hy as ->.
    apply ret_returned in Hk as [_ ->].
    split; [apply Forall2_same_recordings_refl|done].
Qed.

(** X23. In the training split a dataset without a [seq_duration]
    raises [TypeError] at every index from 0 up to the length, as soon
    as the corpus names a source: [track.duration - None], with or
    without [random_track_mix]. *)
Theorem musdb_training_without_duration_raises (self : MUSDBDataset A) index
    (s : corpus_state A) :
  md_split self = "train"%string ->
  md_seq_duration self = None ->
  md_setup_sources self <> [] ->
  0 < md_samples_per_track self ->
  0 <= index < MUSDBDataset_len self s ->
  MUSDBDataset_getitem self index s = Raised TypeError.
Proof.
  intros Hsplit Hnone Hsources Hspt Hindex.
  destruct (tracks_getitem_in_range self index s Hspt Hindex)
    as (t & Hdiv & Hget & Ht).
  unfold MUSDBDataset_getitem, bind. rewrite Hdiv. simpl.
  rewrite Hget, Hsplit. simpl.
  destruct (md_setup_sources self) as [|source rest]; [done|].
  simpl. unfold bind. rewrite Hnone.
  destruct (md_random_track_mix self).
  - assert (0 < length (mus_tracks s))%nat as Hlen
      by (by eapply Nat.le_lt_trans; [apply Nat.le_0_l|eapply lookup_lt_Some]).
    destruct (random_position_returned _ (generator s) Hlen)
      as (p & Hp & Hlt).
    unfold tracks_choice, with_generator. rewrite Hp.
    destruct (lookup_lt_is_Some_2 (mus_tracks s) p Hlt) as [tp Htp].
    unfold set_chunk_duration. simpl. rewrite Htp.
    unfold get_track. simpl.
    rewrite list_lookup_insert_eq by done. done.
  - unfold ret, set_chunk_duration. rewrite Ht.
    unfold get_track. simpl.
    rewrite list_lookup_insert_eq by (by eapply lookup_lt_Some). done.
Qed.

(** X24. In the training split, when the target is one of the corpus's
    native sources, the returned target is the loaded stem at the
    target's position among the sources, one of the stems the mixture
    sums, and has the mixture's shape. *)
Theorem musdb_native_target_is_its_stem (self : MUSDBDataset A) index
    (s s' : corpus_state A) x y :
  md_split self = "train"%string ->
  md_target self ∈ md_setup_sources self ->
  MUSDBDataset_getitem self index s = Returned ((x, y), s') ->
  exists stems i,
    Forall2 (corpus_stem self) (md_setup_sources self) stems /\
    (forall c t, sample_at x c t = samplewise_sum stems c t) /\
    md_setup_sources self !! i = Some (md_target self) /\
    stems !! i = Some y /\
    corpus_stem self (md_target self) y /\
    shape y = shape x.
Proof.
  intros Hsplit Hin. unfold MUSDBDataset_getitem. rewrite Hsplit. simpl.
  intros Hk.
  apply bind_returned in Hk as (q & s0 & Hdiv & Hk).
  apply bind_returned in Hk as (track & s1 & Hget & Hk).
  apply bind_returned in Hk as ([target_ind audio_sources] & s2 & Hloop & Hk).
  apply bind_returned in Hk as (stems & s3 & Hstack & Hk).
  apply lift_returned in Hstack as [Hstack ->].
  pose proof (torch_stack_returned _ _ Hstack) as [-> _].
  pose proof (MUSDBDataset_loop_target _ _ _ _ _ _ _ _ _ _ Hin Hloop)
    as (i & -> & Hi).
  apply MUSDBDataset_loop_returned in Hloop as (added & -> & Hnew & _).
  simpl in *.
  apply bind_returned in Hk as (y0 & s4 & Hy & Hk).
  apply lift_returned in Hy as [Hy ->].
  apply ret_returned in Hk as [Hk _]. inversion Hk; subst x y0.
  apply py_getitem_of_nat in Hy.
  exists added, i. split; [done|].
  split; [intros c t; apply sum_dim0_samplewise|].
  split; [done|]. split; [done|]. split.
  - by eapply Forall2_lookup_lr.
  - eapply stacked_shape; [exact Hstack|]. by eapply list_elem_of_lookup_2.
Qed.


End CorpusFurther.

Lemma musdb_evaluation_reads_indexed_track_witness :
  exists t,
    mus_tracks (Demo.corpus (Demo.constant_rng 0))
      !! Z.to_nat (3 / md_samples_per_track (Demo.musdb "vocals" "valid" None false))
    = Some t /\
    MUSDBDataset_getitem (Demo.musdb "vocals" "valid" None false) 3
      (Demo.corpus (Demo.constant_rng 0))
    = match tr_targets t !! md_target (Demo.musdb "vocals" "valid" None false) with
      | Some recording =>
          Returned ((excerpt t (tr_mixture t), excerpt t recording),
                    Demo.corpus (Demo.constant_rng 0))
      | None => Raised KeyError
      end /\
    (chunk_start t = 0%Q -> chunk_duration t = None ->
     forall recording, excerpt t recording = recording).
Proof.
  apply (musdb_evaluation_reads_indexed_track
           (Demo.musdb "vocals" "valid" None false) 3
           (Demo.corpus (Demo.constant_rng 0))).
  - reflexivity.
  - simpl. lia.
  - unfold MUSDBDataset_len. simpl. lia.
Defined.

Lemma musdb_index_out_of_range_raises_witness :
  MUSDBDataset_getitem (Demo.musdb "vocals" "train" (Some 1%Q) true) 4
    (Demo.corpus (Demo.constant_rng 0))
  = Raised IndexError.
Proof.
  apply (musdb_index_out_of_range_raises
           (Demo.musdb "vocals" "train" (Some 1%Q) true) 4
           (Demo.corpus (Demo.constant_rng 0))).
  - simpl. lia.
  - unfold MUSDBDataset_len. simpl. lia.
Defined.

Lemma musdb_getitem_keeps_recordings_witness :
  exists s',
    MUSDBDataset_getitem (Demo.musdb "vocals" "train" (Some 1%Q) true) 0
      (Demo.corpus (Demo.spike_rng 3 (1 # 2)))
    = Returned (([[56; 58; 60; 62]%Q], [[55; 56; 57; 58]%Q]), s') /\
    Forall2 same_recordings
      (mus_tracks (Demo.corpus (Demo.spike_rng 3 (1 # 2)))) (mus_tracks s') /\
    (String.eqb (md_split (Demo.musdb "vocals" "train" (Some 1%Q) true)) "train"
       = false ->
     s' = Demo.corpus (Demo.spike_rng 3 (1 # 2))).
Proof.
  assert (exists s',
             MUSDBDataset_getitem (Demo.musdb "vocals" "train" (Some 1%Q) true)
               0 (Demo.corpus (Demo.spike_rng 3 (1 # 2)))
             = Returned (([[56; 58; 60; 62]%Q], [[55; 56; 57; 58]%Q]), s'))
    as [s' Hs'] by (eexists; vm_compute; reflexivity).
  exists s'. split; [exact Hs'|].
  exact (musdb_getitem_keeps_recordings _ _ _ _ _ _ Hs').
Defined.

Lemma musdb_training_without_duration_raises_witness :
  MUSDBDataset_getitem (Demo.musdb "vocals" "train" None true) 3
    (Demo.corpus (Demo.constant_rng 0))
  = Raised TypeError.
Proof.
  apply (musdb_training_without_duration_raises
           (Demo.musdb "vocals" "train" None true) 3
           (Demo.corpus (Demo.constant_rng 0))).
  - reflexivity.
  - reflexivity.
  - discriminate.
  - simpl. lia.
  - unfold MUSDBDataset_len. simpl. lia.
Defined.

Lemma musdb_native_target_is_its_stem_witness :
  exists stems i,
    Forall2 (corpus_stem (Demo.musdb "vocals" "train" (Some 1%Q) true))
      (md_setup_sources (Demo.musdb "vocals" "train" (Some 1%Q) true)) stems /\
    (forall c t, sample_at [[56; 58; 60; 62]%Q] c t
                 = samplewise_sum stems c t) /\
    md_setup_sources (Demo.musdb "vocals" "train" (Some 1%Q) true) !! i
    = Some (md_target (Demo.musdb "vocals" "train" (Some 1%Q) true)) /\
    stems !! i = Some [[55; 56; 57; 58]%Q] /\
    corpus_stem (Demo.musdb "vocals" "train" (Some 1%Q) true)
      (md_target (Demo.musdb "vocals" "train" (Some 1%Q) true))
      [[55; 56; 57; 58]%Q] /\
    shape [[55; 56; 57; 58]%Q] = shape [[56; 58; 60; 62]%Q].
Proof.
  assert (exists s',
             MUSDBDataset_getitem (Demo.musdb "vocals" "train" (Some 1%Q) true)
               0 (Demo.corpus (Demo.spike_rng 3 (1 # 2)))
             = Returned (([[56; 58; 60; 62]%Q], [[55; 56; 57; 58]%Q]), s'))
    as [s' Hs'] by (eexists; vm_compute; reflexivity).
  apply (musdb_native_target_is_its_stem
           (Demo.musdb "vocals" "train" (Some 1%Q) true) 0
           (Demo.corpus (Demo.spike_rng 3 (1 # 2))) s').
  - reflexivity.
  - simpl. apply elem_of_cons. right. apply elem_of_cons. by left.
  - exact Hs'.
Defined.


(** ** Folders of healthy stems *)

Section MixedHealthy.
Context {A : Type} `{SampleOps A}.
Variable E : env A.

Lemma MixedSources_source_healthy (self : MixedSources) index track_dir source
    f d r :
  ms_seq_duration self = Some d -> (0 < d)%Q ->
  ms_augmentations self = false ->
  py_getitem (ms_tracks self) index = Returned track_dir ->
  healthy_file E d (path_join track_dir source) f ->
  exists X,
    MixedSources_source E self index source r = Returned (Done X, advance r) /\
    shape X = window_shape d f.
Proof.
  intros Hd Hpos Heval Hdir Hhealthy.
  pose proof Hhealthy as (Hf & Hopens & Hdec & Hc & Hsmall & Hlong).
  pose proof (audioinfo_present E _ f Hf Hopens Hc) as Hinfo.
  destruct (next_draw_range r) as [Hlo Hhi].
  set (dur := probed_duration f) in *.
  set (start := (0 + (dur - d - 0) * next_draw r)%Q).
  assert (0 <= start)%Q as Hs0 by (unfold start; nra).
  assert (start + d <= dur)%Q as Hfit by (unfold start; nra).
  destruct (audioloader_healthy E _ f start d d Hhealthy Hpos Hs0 Hfit)
    as (X & HX & Hsamples).
  destruct (audioloader_channels E _ start d X _ Hpos Hinfo HX)
    as (f' & Hf' & Hchannels).
  rewrite Hf in Hf'. inversion Hf'; subst f'; clear Hf'.
  exists X. split.
  - unfold MixedSources_source, MixedSources_track_dir, bind, lift.
    rewrite Heval, Hdir. simpl.
    unfold path_exists. rewrite bool_decide_eq_true_2 by (by rewrite Hf).
    rewrite Hinfo. simpl duration. rewrite Hd. simpl.
    fold dur.
    unfold Qltb. rewrite (proj2 (Qle_bool_iff d dur) Hlong). simpl.
    unfold random_uniform, bind, random_random, ret.
    fold (next_draw r). fold (advance r). fold start. by rewrite HX.
  - unfold window_shape, nchannels in *. destruct (shape X) as [a b].
    simpl in *. f_equal; lia.
Qed.

Lemma MixedSources_loop_healthy (self : MixedSources) index track_dir d
    sources files :
  ms_seq_duration self = Some d -> (0 < d)%Q ->
  ms_augmentations self = false ->
  py_getitem (ms_tracks self) index = Returned track_dir ->
  Forall2 (fun source f => healthy_file E d (path_join track_dir source) f)
    sources files ->
  forall acc r,
  exists stems,
    MixedSources_loop E self index sources acc r
    = Returned (Done (acc ++ stems), Nat.iter (length sources) advance r) /\
    Forall2 (fun X f => shape X = window_shape d f) stems files.
Proof.
  intros Hd Hpos Heval Hdir Hall.
  induction Hall as [|source f rest files' Hf Hrest IH]; intros acc r.
  - exists []. rewrite app_nil_r. split; [done|constructor].
  - destruct (MixedSources_source_healthy self index track_dir source f d r
                Hd Hpos Heval Hdir Hf) as (X & HX & Hshape).
    destruct (IH (acc ++ [X]) (advance r)) as (stems & Hloop & Hshapes).
    exists (X :: stems). split; [|by constructor].
    simpl MixedSources_loop. unfold bind. rewrite HX, Hloop.
    rewrite <- app_assoc. simpl length. by rewrite Nat.iter_succ_r.
Qed.

(** X26. Outside the training split, a folder whose stems are all
    healthy (there, opening, decoding, with a channel and fewer than
    [2^51] frames, probed to last [seq_duration] at least) and of one
    window shape, channels by [int(seq_duration * rate)], is returned
    at its own index in the first pass: one draw per source, and
    mixture and target of that shape. *)
Theorem mixed_healthy_folder_is_returned (self : MixedSources) fuel index r
    track_dir d files sh :
  ms_seq_duration self = Some d -> (0 < d)%Q ->
  ms_augmentations self = false ->
  py_getitem (ms_tracks self) index = Returned track_dir ->
  Forall2 (fun source f => healthy_file E d (path_join track_dir source) f)
    (ms_interferers self ++ [ms_target_file self]) files ->
  Forall (fun f => window_shape d f = sh) files ->
  exists x y,
    MixedSources_getitem E (S fuel) self index r
    = Returned ((x, y),
                Nat.iter (S (length (ms_interferers self))) advance r) /\
    shape x = sh /\ shape y = sh.
Proof.
  intros Hd Hpos Heval Hdir Hall Hsh.
  destruct (MixedSources_loop_healthy self index track_dir d _ files
              Hd Hpos Heval Hdir Hall [] r) as (stems & Hloop & Hshapes).
  simpl in Hloop. rewrite length_app, Nat.add_comm in Hloop. simpl in Hloop.
  assert (Forall (fun X => shape X = sh) stems) as Hstems.
  { clear Hloop Hall. induction Hshapes as [|X f stems files' HX Hrest IH];
      [constructor|].
    inversion Hsh; subst. constructor; [congruence|by apply IH]. }
  assert (exists y, last stems = Some y) as [y Hy].
  { destruct (last stems) as [y|] eqn:Hlast; [eauto|].
    apply last_None in Hlast. subst stems.
    apply Forall2_length in Hshapes. apply Forall2_length in Hall.
    rewrite length_app in Hall. simpl in *. lia. }
  assert (torch_stack stems = Returned stems) as Hstack.
  { unfold torch_stack. destruct stems as [|w rest]; [done|].
    inversion Hstems as [|? ? Hw Hrest']; subst.
    rewrite (proj2 (forallb_forall _ rest)); [done|].
    intros v Hv. apply bool_decide_eq_true_2.
    rewrite Forall_forall in Hrest'. apply Hrest'.
    by apply list_elem_of_In. }
  assert (y ∈ stems) as Hin by (by apply last_elem_of).
  exists (sum_dim0 stems), y. split; [|split].
  - unfold MixedSources_getitem. apply retrying_done.
    unfold MixedSources_body, bind, lift. rewrite Hloop, Hstack. simpl.
    assert (py_getitem stems (-1) = Returned y) as ->; [|done].
    unfold py_getitem, py_position. rewrite last_lookup in Hy.
    assert (0 < length stems)%nat
      by (destruct stems; [by apply elem_of_nil in Hin|simpl; lia]).
    simpl. destruct (Z.leb_spec 0 (-1 + Z.of_nat (length stems))); [|lia].
    destruct (Z.ltb_spec (-1 + Z.of_nat (length stems))
                (Z.of_nat (length stems))); [|lia].
    simpl. replace (Z.to_nat (-1 + Z.of_nat (length stems)))
      with (pred (length stems)) by lia.
    by rewrite Hy.
  - rewrite <- (stacked_shape stems stems y Hstack Hin).
    rewrite Forall_forall in Hstems. by apply Hstems.
  - rewrite Forall_forall in Hstems. by apply Hstems.
Qed.

(** X27. Outside the training split, a folder whose stems are all
    healthy but differ in channel count or in window length, the
    [int(seq_duration * rate)] of the float product, raises
    [RuntimeError] to the caller: the stems are stacked outside the
    [try], so the example is not retried. *)
Theorem mixed_unlike_stems_raise (self : MixedSources) fuel index r
    track_dir d files f1 f2 :
  ms_seq_duration self = Some d -> (0 < d)%Q ->
  ms_augmentations self = false ->
  py_getitem (ms_tracks self) index = Returned track_dir ->
  Forall2 (fun source f => healthy_file E d (path_join track_dir source) f)
    (ms_interferers self ++ [ms_target_file self]) files ->
  f1 ∈ files -> f2 ∈ files ->
  window_shape d f1 <> window_shape d f2 ->
  MixedSources_getitem E (S fuel) self index r = Raised RuntimeError.
Proof.
  intros Hd Hpos Heval Hdir Hall Hf1 Hf2 Hdiff.
  destruct (MixedSources_loop_healthy self index track_dir d _ files
              Hd Hpos Heval Hdir Hall [] r) as (stems & Hloop & Hshapes).
  simpl in Hloop.
  assert (torch_stack stems = Raised RuntimeError) as Hstack.
  { unfold torch_stack. destruct stems as [|w rest]; [done|].
    destruct (forallb _ rest) eqn:Hsame; [|done]. exfalso.
    assert (forall f, f ∈ files -> window_shape d f = shape w) as Hone.
    { intros f (i & Hi)%list_elem_of_lookup_1.
      destruct (Forall2_lookup_r _ _ _ _ _ Hshapes Hi) as (X & HX & <-).
      destruct i as [|i]; [by inversion HX|]. simpl in HX.
      rewrite forallb_forall in Hsame.
      assert (In X rest) as HIn
        by (apply list_elem_of_In; by eapply list_elem_of_lookup_2).
      by apply Hsame, bool_decide_eq_true_1 in HIn. }
    apply Hdiff. by rewrite (Hone f1 Hf1), (Hone f2 Hf2). }
  unfold MixedSources_getitem. simpl. unfold bind at 1.
  unfold MixedSources_body, bind, lift. by rewrite Hloop, Hstack.
Qed.

End MixedHealthy.

Lemma mixed_healthy_folder_is_returned_witness :
  exists x y,
    MixedSources_getitem Demo.world 1
      (Demo.mixed "valid" (Some 1%Q)
         ["root/valid/t1"; "root/valid/t2"; "root/valid/t3"]%string)
      2 (Demo.constant_rng (1 # 2))
    = Returned ((x, y),
                Nat.iter 2 advance (Demo.constant_rng (1 # 2))) /\
    shape x = (1%nat, 4%nat) /\ shape y = (1%nat, 4%nat).
Proof.
  apply (mixed_healthy_folder_is_returned Demo.world
           (Demo.mixed "valid" (Some 1%Q)
              ["root/valid/t1"; "root/valid/t2"; "root/valid/t3"]%string)
           0%nat 2 (Demo.constant_rng (1 # 2)) "root/valid/t3" 1%Q
           [Demo.mono; Demo.mono] (1%nat, 4%nat)).
  - reflexivity.
  - reflexivity.
  - reflexivity.
  - vm_compute. reflexivity.
  - repeat constructor; vm_compute; congruence.
  - repeat constructor.
Defined.

Lemma mixed_unlike_stems_raise_witness :
  MixedSources_getitem Demo.world 1
    (Demo.mixed "valid" (Some 1%Q)
       ["root/valid/t1"; "root/valid/t2"; "root/valid/t3"]%string)
    0 (Demo.constant_rng (1 # 2))
  = Raised RuntimeError.
Proof.
  apply (mixed_unlike_stems_raise Demo.world
           (Demo.mixed "valid" (Some 1%Q)
              ["root/valid/t1"; "root/valid/t2"; "root/valid/t3"]%string)
           0%nat 0 (Demo.constant_rng (1 # 2)) "root/valid/t1" 1%Q
           [Demo.mono; Demo.stereo] Demo.mono Demo.stereo).
  - reflexivity.
  - reflexivity.
  - reflexivity.
  - vm_compute. reflexivity.
  - repeat constructor; vm_compute; congruence.
  - apply elem_of_cons. by left.
  - apply elem_of_cons. right. apply elem_of_cons. by left.
  - vm_compute. congruence.
Defined.
